(** * Chainlens: the transaction normalisation layer

    A shallow embedding of [webapp/src/lib/transactions.ts]: the value
    formatter, the per-provider parsers and fetchers, the mock generator
    and the dispatcher, followed by the properties the specification
    states about them.

    Conventions of the embedding.
    - Strings are ASCII strings, one character per code unit.
    - A [bigint] is a [Z]; BigInt [/] and [%] are [Z.quot] and [Z.rem].
    - A JavaScript exception is a value of [JsError]; a function that can
      throw returns a [JsResult].
    - [fetch] is an effect: the fetchers run in the monad [M], which
      threads the log of the requests issued and reads the answers from a
      [Network].
    - What the platform decides (the value of [10 ** d] as a double, the
      environment keys, the clock, the draws of [Math.random]) is collected
      in a [Platform] the program is parameterised by. *)

From Stdlib Require Import ZArith String Ascii List Lia Bool.
From Equations Require Import Equations.
From stdpp Require Import base option list strings gmap.
Set Warnings "-register-all".
Import ListNotations.
Local Open Scope string_scope.
Local Open Scope Z_scope.

(* ===================================================================== *)
(** * Part I. The JavaScript fragment the module relies on                *)
(* ===================================================================== *)

Module JS.

(** ** Exceptions *)

Inductive JsError : Type :=
| Error (message : string)
| SyntaxError (message : string)
| RangeError (message : string)
| TypeError (message : string).

Definition message_of (e : JsError) : string :=
  match e with
  | Error m | SyntaxError m | RangeError m | TypeError m => m
  end.

Inductive JsResult (A : Type) : Type :=
| Ok (a : A)
| Throw (e : JsError).
Arguments Ok {A} a.
Arguments Throw {A} e.

Definition rbind {A B} (r : JsResult A) (k : A -> JsResult B) : JsResult B :=
  match r with
  | Ok a => k a
  | Throw e => Throw e
  end.

(** [xs.map(f)] where [f] may throw: the first exception aborts the map. *)
Fixpoint rmap {A B} (f : A -> JsResult B) (xs : list A) : JsResult (list B) :=
  match xs with
  | [] => Ok []
  | x :: xs' =>
      rbind (f x) (fun y => rbind (rmap f xs') (fun ys => Ok (y :: ys)))
  end.

(** ** Strings *)

Definition truthy_string (s : string) : bool :=
  negb (String.eqb s "").

(** [a || b] on values that are a string or [undefined]. *)
Definition or_else (a : option string) (b : option string) : option string :=
  match a with
  | Some s => if truthy_string s then Some s else b
  | None => b
  end.

(** [a || 'literal'], the end of an alias chain. *)
Definition or_default (a : option string) (d : string) : string :=
  match a with
  | Some s => if truthy_string s then s else d
  | None => d
  end.

Fixpoint repeat_char (c : ascii) (n : nat) : string :=
  match n with
  | O => ""
  | S n' => String c (repeat_char c n')
  end.

(** [s.padStart(n, '0')] *)
Definition padStart0 (n : nat) (s : string) : string :=
  repeat_char "0" (n - String.length s) +:+ s.

(** [s.slice(0, n)] for a natural number [n]. *)
Fixpoint slice0 (n : nat) (s : string) : string :=
  match n, s with
  | S n', String c s' => String c (slice0 n' s')
  | _, _ => ""
  end.

(** [s.replace(/0+$/, '')] *)
Fixpoint strip_trailing_zeros (s : string) : string :=
  match s with
  | "" => ""
  | String c s' =>
      match strip_trailing_zeros s' with
      | "" => if Ascii.eqb c "0" then "" else String c ""
      | t => String c t
      end
  end.

Definition lower_ascii (c : ascii) : ascii :=
  let n := nat_of_ascii c in
  if (65 <=? n)%nat && (n <=? 90)%nat then ascii_of_nat (n + 32) else c.

(** [s.toLowerCase()] *)
Fixpoint toLowerCase (s : string) : string :=
  match s with
  | "" => ""
  | String c s' => String (lower_ascii c) (toLowerCase s')
  end.

(** [s.includes(t)] *)
Fixpoint includes (t s : string) : bool :=
  String.prefix t s ||
  match s with
  | "" => false
  | String _ s' => includes t s'
  end.

(** ** BigInt *)

Definition digit_char (d : Z) : ascii := ascii_of_nat (48 + Z.to_nat d).

Definition digit_val (c : ascii) : option Z :=
  let n := nat_of_ascii c in
  if (48 <=? n)%nat && (n <=? 57)%nat then Some (Z.of_nat n - 48)
  else if (97 <=? n)%nat && (n <=? 122)%nat then Some (Z.of_nat n - 87)
  else if (65 <=? n)%nat && (n <=? 90)%nat then Some (Z.of_nat n - 55)
  else None.

Fixpoint digits_go (fuel : nat) (n : Z) (acc : string) : string :=
  match fuel with
  | O => acc
  | S fuel' =>
      let acc' := String (digit_char (n mod 10)) acc in
      if n <? 10 then acc' else digits_go fuel' (n / 10) acc'
  end.

(** The decimal digits of a natural number, most significant first. *)
Definition decimal (n : Z) : string :=
  digits_go (S (Z.to_nat (Z.log2 n))) n "".

(** [b.toString()] *)
Definition BigInt_toString (z : Z) : string :=
  if z <? 0 then "-" +:+ decimal (- z) else decimal z.

(** The digits of [s] read in radix [r], from the accumulator [acc]. *)
Fixpoint parse_radix (r : Z) (s : string) (acc : Z) : option Z :=
  match s with
  | "" => Some acc
  | String c s' =>
      match digit_val c with
      | Some d => if d <? r then parse_radix r s' (acc * r + d) else None
      | None => None
      end
  end.

Definition parse_digits (r : Z) (s : string) : option Z :=
  match s with
  | "" => None
  | _ => parse_radix r s 0
  end.

Definition is_white_space (c : ascii) : bool :=
  let n := nat_of_ascii c in
  ((9 <=? n)%nat && (n <=? 13)%nat) || (n =? 32)%nat.

Fixpoint trim_start (s : string) : string :=
  match s with
  | String c s' => if is_white_space c then trim_start s' else s
  | "" => ""
  end.

Fixpoint trim_end (s : string) : string :=
  match s with
  | "" => ""
  | String c s' =>
      match trim_end s' with
      | "" => if is_white_space c then "" else String c ""
      | t => String c t
      end
  end.

Definition trim (s : string) : string := trim_end (trim_start s).

(** [s.slice(n)] for a natural number [n]. *)
Fixpoint string_drop (n : nat) (s : string) : string :=
  match n, s with
  | S n', String _ s' => string_drop n' s'
  | _, _ => s
  end.

(** StringToBigInt: white space is trimmed, the empty string is zero, a
    decimal literal may carry a sign, and [0x], [0o], [0b] introduce the
    other radices. [None] is the SyntaxError. *)
Definition StringToBigInt (s : string) : option Z :=
  let t := trim s in
  if String.eqb t "" then Some 0
  else if String.prefix "0x" t || String.prefix "0X" t
  then parse_digits 16 (string_drop 2 t)
  else if String.prefix "0o" t || String.prefix "0O" t
  then parse_digits 8 (string_drop 2 t)
  else if String.prefix "0b" t || String.prefix "0B" t
  then parse_digits 2 (string_drop 2 t)
  else if String.prefix "+" t then parse_digits 10 (string_drop 1 t)
  else if String.prefix "-" t
  then option_map Z.opp (parse_digits 10 (string_drop 1 t))
  else parse_digits 10 t.

(** [BigInt(s)] on a string. *)
Definition BigInt_of_string (s : string) : JsResult Z :=
  match StringToBigInt s with
  | Some z => Ok z
  | None => Throw (SyntaxError ("Cannot convert " +:+ s +:+ " to a BigInt"))
  end.

(** ** Numbers

    The module computes with doubles in a few places. The embedding keeps
    the integer-valued ones: [Finite z] is the double whose value is the
    integer [z]; the infinities and [NaN] are the special values. *)

Inductive Number : Type :=
| Finite (z : Z)
| Infinity
| NegInfinity
| NaN.

(** [BigInt(x)] on a Number. *)
Definition BigInt_of_number (x : Number) : JsResult Z :=
  match x with
  | Finite z => Ok z
  | Infinity =>
      Throw (RangeError
        "The number Infinity cannot be converted to a BigInt because it is not an integer")
  | NegInfinity =>
      Throw (RangeError
        "The number -Infinity cannot be converted to a BigInt because it is not an integer")
  | NaN =>
      Throw (RangeError
        "The number NaN cannot be converted to a BigInt because it is not an integer")
  end.

Definition odd_part_go (fuel : nat) (z : Z) : Z :=
  nat_rect (fun _ => Z -> Z) (fun z => z)
    (fun _ rec z => if Z.even z then rec (z / 2) else z) fuel z.

Definition odd_part (z : Z) : Z :=
  if z =? 0 then 0 else odd_part_go (S (Z.to_nat (Z.log2 (Z.abs z)))) (Z.abs z).

(** [z] is the value of a binary64 double: a significand below [2^53]
    scaled by a power of two, within the exponent range. *)
Definition binary64 (z : Z) : bool :=
  (odd_part z <? 2 ^ 53) && (Z.abs z <? 2 ^ 1024).

(** Rounding of a natural number to 53 significant bits: downwards,
    upwards, and to nearest with ties to even. *)
Definition ulp (n : Z) : Z := 2 ^ (Z.log2 n - 52).

Definition round_down (n : Z) : Z :=
  if Z.log2 n <=? 52 then n else (n / ulp n) * ulp n.

Definition round_up (n : Z) : Z :=
  if Z.log2 n <=? 52 then n
  else if n mod ulp n =? 0 then n else (n / ulp n + 1) * ulp n.

Definition round_nearest_even (n : Z) : Z :=
  if Z.log2 n <=? 52 then n
  else
    let q := n / ulp n in
    let r := n mod ulp n in
    let up := (2 * r >? ulp n) || ((2 * r =? ulp n) && Z.odd q) in
    (if up then q + 1 else q) * ulp n.

(** [Math.floor(x / k)] for a positive integer [k]. *)
Definition floor_div (x : Number) (k : Z) : Number :=
  match x with
  | Finite z => Finite (z / k)
  | other => other
  end.

(** Number::toString, radix 10, on an integer-valued double. The digits
    are those of the decimal with the fewest significant digits that reads
    back as the same double; from [10^21] on the result is in exponent
    notation. *)
Definition shortest_at (z : Z) (j : nat) : option Z :=
  let p := 10 ^ Z.of_nat j in
  let lo := (z / p) * p in
  let hi := lo + p in
  match round_nearest_even lo =? z, round_nearest_even hi =? z with
  | true, true =>
      Some (if z - lo <? hi - z then lo
            else if hi - z <? z - lo then hi
            else if Z.even (z / p) then lo else hi)
  | true, false => Some lo
  | false, true => Some hi
  | false, false => None
  end.

Fixpoint shortest_from (z : Z) (j : nat) : Z :=
  match shortest_at z j with
  | Some D => D
  | None =>
      match j with
      | O => z
      | S j' => shortest_from z j'
      end
  end.

Definition shortest_decimal (z : Z) : Z :=
  shortest_from z (String.length (decimal z)).

Definition exponent_notation (D : Z) : string :=
  let ds := decimal D in
  let e := decimal (Z.of_nat (String.length ds) - 1) in
  match strip_trailing_zeros ds with
  | String c "" => String c ("e+" +:+ e)
  | String c rest => String c ("." +:+ rest +:+ "e+" +:+ e)
  | "" => ds
  end.

Definition render_natural (z : Z) : string :=
  let D := shortest_decimal z in
  if D <? 10 ^ 21 then decimal D else exponent_notation D.

Definition Number_toString (x : Number) : string :=
  match x with
  | Finite z =>
      if z =? 0 then "0"
      else if z <? 0 then "-" +:+ render_natural (- z)
      else render_natural z
  | Infinity => "Infinity"
  | NegInfinity => "-Infinity"
  | NaN => "NaN"
  end.

End JS.
Export JS.

(** ** JSON values

    What a parser declares [unknown] is a [JsValue]. JSON numbers are
    integer-valued doubles. *)

Inductive JsValue : Type :=
| JUndefined
| JNull
| JBool (b : bool)
| JNumber (z : Z)
| JString (s : string)
| JArray (l : list JsValue)
| JObject (m : gmap string JsValue).

Module Js.

Definition truthy (v : JsValue) : bool :=
  match v with
  | JUndefined | JNull => false
  | JBool b => b
  | JNumber z => negb (z =? 0)
  | JString s => truthy_string s
  | JArray _ | JObject _ => true
  end.

(** [a || b] *)
Definition or (a b : JsValue) : JsValue := if truthy a then a else b.

Definition join_comma (ss : list string) : string :=
  match ss with
  | [] => ""
  | s :: rest => fold_left (fun acc t => acc +:+ "," +:+ t) rest s
  end.

(** [String(v)], which is also what a template literal does to [v]. *)
Fixpoint String_ (v : JsValue) : string :=
  match v with
  | JUndefined => "undefined"
  | JNull => "null"
  | JBool true => "true"
  | JBool false => "false"
  | JNumber z => Number_toString (Finite z)
  | JString s => s
  | JArray l =>
      join_comma
        (map (fun e => match e with
                       | JUndefined | JNull => ""
                       | _ => String_ e
                       end) l)
  | JObject _ => "[object Object]"
  end.

(** [r.k] on a [Record<string, unknown>]. *)
Definition field (r : gmap string JsValue) (k : string) : JsValue :=
  default JUndefined (r !! k).

(** [v.k] for a name [k] that no primitive or array carries; the receiver
    is not [null] or [undefined]. *)
Definition prop (v : JsValue) (k : string) : JsValue :=
  match v with
  | JObject m => field m k
  | _ => JUndefined
  end.

(** [v?.k] *)
Definition prop_opt (v : JsValue) (k : string) : JsValue :=
  match v with
  | JUndefined | JNull => JUndefined
  | _ => prop v k
  end.

(** [v[0]] on a value that is not [null] or [undefined]. *)
Definition first (v : JsValue) : JsValue :=
  match v with
  | JArray (x :: _) => x
  | JString (String c _) => JString (String c "")
  | JObject m => field m "0"
  | _ => JUndefined
  end.

(** [v?.[0]] *)
Definition first_opt (v : JsValue) : JsValue :=
  match v with
  | JUndefined | JNull => JUndefined
  | _ => first v
  end.

End Js.

(** [s.split(sep)[0]] for a one-character separator. *)
Fixpoint split_head (sep : ascii) (s : string) : string :=
  match s with
  | "" => ""
  | String c s' => if Ascii.eqb c sep then "" else String c (split_head sep s')
  end.

(** [s.split(sep).pop()] for a one-character separator. *)
Fixpoint split_last (sep : ascii) (s : string) : string :=
  match s with
  | "" => ""
  | String c s' =>
      if includes (String sep "") s' then split_last sep s'
      else if Ascii.eqb c sep then s' else s
  end.

(** [x || undefined] on a string. *)
Definition non_empty (s : string) : option string :=
  if truthy_string s then Some s else None.

(** A string or [undefined] inside a template literal. *)
Definition template (o : option string) : string := default "undefined" o.

(** [xs.slice(start, end)] *)
Definition slice_index (len i : Z) : Z :=
  if i <? 0 then Z.max (len + i) 0 else Z.min i len.

Definition array_slice {A} (start stop : Z) (xs : list A) : list A :=
  let len := Z.of_nat (length xs) in
  let from := slice_index len start in
  let to := slice_index len stop in
  take (Z.to_nat (to - from)) (drop (Z.to_nat from) xs).

(** [parseInt(s)]: leading white space, an optional sign, an optional
    [0x], then the longest run of digits; [NaN] when there is none. *)
Fixpoint digit_run (r : Z) (s : string) : string :=
  match s with
  | "" => ""
  | String c s' =>
      match digit_val c with
      | Some d => if d <? r then String c (digit_run r s') else ""
      | None => ""
      end
  end.

Definition parseInt_unsigned (s : string) : option Z :=
  if String.prefix "0x" s || String.prefix "0X" s
  then parse_digits 16 (digit_run 16 (string_drop 2 s))
  else parse_digits 10 (digit_run 10 s).

Definition parseInt (s : string) : Number :=
  let t := trim_start s in
  let neg := String.prefix "-" t in
  let u := if neg || String.prefix "+" t then string_drop 1 t else t in
  match parseInt_unsigned u with
  | Some z =>
      let d := round_nearest_even z in
      if 2 ^ 1024 <=? d then (if neg then NegInfinity else Infinity)
      else Finite (if neg then - d else d)
  | None => NaN
  end.

(** ** Objects used as tables

    An object literal read with [table[key]]: a key that the table does
    not own is looked up in [Object.prototype]. The keys of a table are
    kept in insertion order, the order of [Object.keys] for keys that are
    not array indices. *)

Module JsObject.

(** The property names every object inherits from [Object.prototype]. *)
Definition Object_prototype : list string :=
  [ "constructor"; "__defineGetter__"; "__defineSetter__"; "hasOwnProperty";
    "__lookupGetter__"; "__lookupSetter__"; "isPrototypeOf";
    "propertyIsEnumerable"; "toString"; "valueOf"; "__proto__"; "toLocaleString" ].

(** What [table[key]] evaluates to: a value of the table, a member of
    [Object.prototype] (a function or the prototype itself, all truthy), or
    [undefined]. *)
Inductive Member (A : Type) : Type :=
| Own (a : A)
| Inherited (key : string)
| Undefined.
Arguments Own {A} a.
Arguments Inherited {A} key.
Arguments Undefined {A}.

Fixpoint own {A} (table : list (string * A)) (key : string) : option A :=
  match table with
  | [] => None
  | (k, a) :: rest => if String.eqb k key then Some a else own rest key
  end.

Definition get {A} (table : list (string * A)) (key : string) : Member A :=
  match own table key with
  | Some a => Own a
  | None => if existsb (String.eqb key) Object_prototype then Inherited key else Undefined
  end.

End JsObject.

(* ===================================================================== *)
(** * Part II. The program                                                *)
(* ===================================================================== *)

(** ** Data model (types.ts) *)

Inductive Status : Type := success | failed | pending.

Inductive TxType : Type :=
| transfer | contract | internal | token | nft
| stake | unstake | reward | swap | other.

Record Transaction : Type := {
  tx_hash : string;
  tx_blockNumber : string;
  tx_timestamp : string;
  tx_from : string;
  tx_to : string;
  tx_value : string;
  tx_valueFormatted : string;
  tx_fee : string;
  tx_feeFormatted : string;
  tx_status : Status;
  tx_type : TxType;
  tx_chainId : string;
  tx_chainName : string;
  tx_symbol : string;
  tx_method : option string;
  tx_nonce : option string;
  tx_gasUsed : option string;
  tx_gasPrice : option string;
  tx_input : option string;
  tx_explorerUrl : string;
}.

Record TransactionResponse : Type := {
  transactions : list Transaction;
  totalCount : Number;
  page : Z;
  limit : Z;
  hasMore : bool;
}.

(** Modelled from the spec: the declaration of [ChainConfig] lives in
    [chains.ts], which is not part of the sources at hand. The fields are
    those section 3 of the specification lists and the module reads;
    [fallbackEndpoints] may be absent ([chain.fallbackEndpoints || []]). *)
Record ChainConfig : Type := {
  c_id : string;
  c_name : string;
  c_symbol : string;
  c_decimals : nat;
  c_apiEndpoint : string;
  c_apiType : string;
  c_fallbackEndpoints : option (list string);
  c_explorerUrl : string;
}.

(** ** The platform

    [exp10 d] is the Number [10 ** d]. ECMAScript leaves the result of
    [**] on Numbers "implementation-approximated", so the embedding does
    not fix it: the properties below say what they assume of it.
    [random k] is the significand of the [k]-th draw of [Math.random()],
    whose value is [random k / 2^53]. [prototype_text key] is what a
    template literal prints for the member [key] of [Object.prototype],
    which the implementation defines. *)

Record Platform : Type := {
  exp10 : nat -> Number;
  env : string -> option string;
  now_seconds : Z;
  Date_getTime : string -> Number;
  floor_of_string : string -> Z -> Number;
  random : nat -> Z;
  prototype_text : string -> string;
}.

(** A faithful [**]: the result is one of the two doubles that enclose
    the exact power, and it overflows exactly when the power does. *)
Definition faithful_exp10 (P : Platform) : Prop :=
  forall d : nat,
    if (d <=? 308)%nat
    then exists z, exp10 P d = Finite z /\
                   (z = round_down (10 ^ Z.of_nat d) \/ z = round_up (10 ^ Z.of_nat d))
    else exp10 P d = Infinity.

(** The correctly rounded [**]. *)
Definition exp10_nearest (d : nat) : Number :=
  if (d <=? 308)%nat then Finite (round_nearest_even (10 ^ Z.of_nat d)) else Infinity.

Definition random_in_range (P : Platform) : Prop :=
  forall k, 0 <= random P k < 2 ^ 53.

Section Program.

Variable P : Platform.

(** ** Value formatter (transactions.ts, lines 6-14) *)

(** [BigInt(10 ** decimals)] *)
Definition divisor_of (decimals : nat) : JsResult Z :=
  BigInt_of_number (exp10 P decimals).

Definition formatValue (value : string) (decimals : nat) : JsResult string :=
  if negb (truthy_string value) || String.eqb value "0" then Ok "0"
  else
    rbind (BigInt_of_string value) (fun num =>
    rbind (divisor_of decimals) (fun divisor =>
      if divisor =? 0 then Throw (RangeError "Division by zero")
      else
        let intPart := Z.quot num divisor in
        let fracPart := Z.rem num divisor in
        let fracStr :=
          strip_trailing_zeros
            (slice0 6 (padStart0 decimals (BigInt_toString fracPart))) in
        Ok (if truthy_string fracStr
            then BigInt_toString intPart +:+ "." +:+ fracStr
            else BigInt_toString intPart))).

(** ** Parsers *)

Definition truthy_opt (o : option string) : bool :=
  match o with
  | Some s => truthy_string s
  | None => false
  end.

(** transactions.ts, lines 17-72 *)
Definition parseEtherscanTransaction
    (tx : gmap string string) (chain : ChainConfig) : JsResult Transaction :=
  let timestamp := or_default (or_else (tx !! "timeStamp") (tx !! "timestamp")) "0" in
  let value := or_default (tx !! "value") "0" in
  let gasUsed := or_default (or_else (tx !! "gasUsed") (tx !! "gas")) "0" in
  let gasPrice := or_default (tx !! "gasPrice") "0" in
  rbind (BigInt_of_string gasUsed) (fun used =>
  rbind (BigInt_of_string gasPrice) (fun price =>
    let fee := BigInt_toString (used * price) in
    let input := or_default (or_else (tx !! "input") (tx !! "data")) "" in
    let type :=
      if truthy_opt (tx !! "contractAddress")
         || (truthy_string input && negb (String.eqb input "0x")
             && (10 <? String.length input)%nat)
      then
        let methodId := toLowerCase (slice0 10 input) in
        if String.eqb methodId "0xa9059cbb" || String.eqb methodId "0x23b872dd"
        then token
        else if String.eqb methodId "0x095ea7b3" then contract
        else contract
      else transfer in
    let status :=
      if bool_decide (tx !! "isError" = Some "1")
         || bool_decide (tx !! "txreceipt_status" = Some "0")
      then failed
      else if bool_decide (tx !! "confirmations" = Some "0") then pending
      else success in
    rbind (formatValue value (c_decimals chain)) (fun valueFormatted =>
    rbind (formatValue fee (c_decimals chain)) (fun feeFormatted =>
      Ok {| tx_hash := or_default (or_else (tx !! "hash") (tx !! "txhash")) "";
            tx_blockNumber := or_default (or_else (tx !! "blockNumber") (tx !! "block")) "";
            tx_timestamp := timestamp;
            tx_from := or_default (tx !! "from") "";
            tx_to := or_default (or_else (tx !! "to") (tx !! "contractAddress")) "";
            tx_value := value;
            tx_valueFormatted := valueFormatted;
            tx_fee := fee;
            tx_feeFormatted := feeFormatted;
            tx_status := status;
            tx_type := type;
            tx_chainId := c_id chain;
            tx_chainName := c_name chain;
            tx_symbol := c_symbol chain;
            tx_method :=
              match tx !! "functionName" with
              | Some f => non_empty (split_head "(" f)
              | None => None
              end;
            tx_nonce := tx !! "nonce";
            tx_gasUsed := Some gasUsed;
            tx_gasPrice := Some gasPrice;
            tx_input := Some input;
            tx_explorerUrl :=
              c_explorerUrl chain +:+ "/tx/"
              +:+ template (or_else (tx !! "hash") (tx !! "txhash")) |})))).

(** A transaction of a provider that reports no call data. *)
Definition plain_transaction (chain : ChainConfig)
    (hash blockNumber timestamp from to value valueFormatted fee feeFormatted : string)
    (status : Status) (type : TxType) (method : option string)
    (explorerUrl : string) : Transaction :=
  {| tx_hash := hash; tx_blockNumber := blockNumber; tx_timestamp := timestamp;
     tx_from := from; tx_to := to;
     tx_value := value; tx_valueFormatted := valueFormatted;
     tx_fee := fee; tx_feeFormatted := feeFormatted;
     tx_status := status; tx_type := type;
     tx_chainId := c_id chain; tx_chainName := c_name chain;
     tx_symbol := c_symbol chain;
     tx_method := method; tx_nonce := None; tx_gasUsed := None;
     tx_gasPrice := None; tx_input := None;
     tx_explorerUrl := explorerUrl |}.

(** [String(a || b || lit)] *)
Definition string_of_alias (r : gmap string JsValue) (a b : string) (lit : JsValue) : string :=
  Js.String_ (Js.or (Js.or (Js.field r a) (Js.field r b)) lit).

(** transactions.ts, lines 75-115 *)
Definition parseSubscanTransaction
    (tx : gmap string JsValue) (chain : ChainConfig) : JsResult Transaction :=
  let timestamp := string_of_alias tx "block_timestamp" "timestamp" (JNumber 0) in
  let value := string_of_alias tx "amount" "value" (JNumber 0) in
  let fee := Js.String_ (Js.or (Js.field tx "fee") (JNumber 0)) in
  let callModule := toLowerCase (string_of_alias tx "call_module" "module" (JString "")) in
  let callFunction :=
    toLowerCase (string_of_alias tx "call_module_function" "call" (JString "")) in
  let type :=
    if String.eqb callModule "staking" || includes "stake" callFunction then stake
    else if includes "unstake" callFunction || includes "unbond" callFunction then unstake
    else if String.eqb callModule "balances" then transfer
    else transfer in
  let status :=
    match Js.field tx "success" with
    | JBool false => failed
    | _ => success
    end in
  rbind (formatValue value (c_decimals chain)) (fun valueFormatted =>
  rbind (formatValue fee (c_decimals chain)) (fun feeFormatted =>
    Ok (plain_transaction chain
          (string_of_alias tx "extrinsic_hash" "hash" (JString ""))
          (string_of_alias tx "block_num" "block" (JString ""))
          timestamp
          (string_of_alias tx "account_id" "from" (JString ""))
          (string_of_alias tx "to" "destination" (JString ""))
          value valueFormatted fee feeFormatted status type
          (non_empty callFunction)
          (c_explorerUrl chain +:+ "/extrinsic/"
           +:+ Js.String_ (Js.or (Js.field tx "extrinsic_hash") (Js.field tx "hash")))))).

(** transactions.ts, lines 118-151 *)
Definition parseSolscanTransaction
    (tx : gmap string JsValue) (chain : ChainConfig) : JsResult Transaction :=
  let timestamp := string_of_alias tx "blockTime" "timestamp" (JNumber 0) in
  let value := string_of_alias tx "lamport" "amount" (JNumber 0) in
  let fee := Js.String_ (Js.or (Js.field tx "fee") (JNumber 0)) in
  let type :=
    match Js.field tx "type" with
    | JString "stake" => stake
    | JString "unstake" => unstake
    | JString "swap" => swap
    | JString "nft" => nft
    | _ => transfer
    end in
  let status :=
    match Js.field tx "status" with
    | JString "fail" => failed
    | _ => success
    end in
  rbind (formatValue value (c_decimals chain)) (fun valueFormatted =>
  rbind (formatValue fee (c_decimals chain)) (fun feeFormatted =>
    Ok (plain_transaction chain
          (string_of_alias tx "txHash" "signature" (JString ""))
          (string_of_alias tx "slot" "block" (JString ""))
          timestamp
          (string_of_alias tx "signer" "from" (JString ""))
          (string_of_alias tx "to" "destination" (JString ""))
          value valueFormatted fee feeFormatted status type
          None
          (c_explorerUrl chain +:+ "/tx/"
           +:+ Js.String_ (Js.or (Js.field tx "txHash") (Js.field tx "signature")))))).

(** transactions.ts, lines 154-193 *)
Definition parseCosmosTransaction
    (tx : gmap string JsValue) (chain : ChainConfig) : JsResult Transaction :=
  let txData := Js.or (Js.field tx "tx") (JObject tx) in
  let body := Js.or (Js.prop txData "body") (JObject ∅) in
  let messages := Js.or (Js.prop body "messages") (JArray []) in
  let firstMsg := Js.or (Js.first messages) (JObject ∅) in
  let timestamp := string_of_alias tx "timestamp" "time" (JNumber 0) in
  let value :=
    Js.String_
      (Js.or (Js.prop_opt (Js.first_opt (Js.prop firstMsg "amount")) "amount")
             (JNumber 0)) in
  let fee := Js.String_ (Js.or (Js.field tx "fee") (JNumber 0)) in
  let msgType := Js.String_ (Js.or (Js.prop firstMsg "@type") (JString "")) in
  let type :=
    if includes "MsgDelegate" msgType then stake
    else if includes "MsgUndelegate" msgType then unstake
    else if includes "MsgSend" msgType then transfer
    else transfer in
  let status :=
    match Js.field tx "code" with
    | JNumber 0 => success
    | code => if negb (Js.truthy code) then success else failed
    end in
  rbind (formatValue value (c_decimals chain)) (fun valueFormatted =>
  rbind (formatValue fee (c_decimals chain)) (fun feeFormatted =>
    Ok (plain_transaction chain
          (string_of_alias tx "txhash" "hash" (JString ""))
          (string_of_alias tx "height" "block" (JString ""))
          timestamp
          (Js.String_ (Js.or (Js.or (Js.prop firstMsg "from_address")
                                    (Js.prop firstMsg "delegator_address")) (JString "")))
          (Js.String_ (Js.or (Js.or (Js.prop firstMsg "to_address")
                                    (Js.prop firstMsg "validator_address")) (JString "")))
          value valueFormatted fee feeFormatted status type
          (non_empty (split_last "." msgType))
          (c_explorerUrl chain +:+ "/txs/"
           +:+ Js.String_ (Js.or (Js.field tx "txhash") (Js.field tx "hash")))))).

End Program.

(** ** Requests, the network and the fetch monad *)

Record Request : Type := {
  req_url : string;
  req_method : string;
  req_headers : list (string * string);
  req_body : option JsValue;   (* the value handed to [JSON.stringify] *)
}.

Definition GET (url : string) : Request :=
  {| req_url := url; req_method := "GET"; req_headers := []; req_body := None |}.

Definition POST (url : string) (headers : list (string * string)) (body : JsValue) : Request :=
  {| req_url := url; req_method := "POST"; req_headers := headers; req_body := Some body |}.

(** A computation that may issue requests: it extends the log of the
    requests issued so far, and ends with a value or an exception. *)
Definition M (A : Type) : Type := list Request -> JsResult A * list Request.

Definition mret {A} (a : A) : M A := fun log => (Ok a, log).

Definition mthrow {A} (e : JsError) : M A := fun log => (Throw e, log).

Definition mbind {A B} (m : M A) (k : A -> M B) : M B :=
  fun log =>
    match m log with
    | (Ok a, log') => k a log'
    | (Throw e, log') => (Throw e, log')
    end.

(** A pure step that may throw. *)
Definition lift {A} (r : JsResult A) : M A := fun log => (r, log).

(** [try { body } catch (error) { handler }] *)
Definition try_catch {A} (body : M A) (handler : JsError -> M A) : M A :=
  fun log =>
    match body log with
    | (Ok a, log') => (Ok a, log')
    | (Throw e, log') => handler e log'
    end.

(** [await (await fetch(...)).json()] against an endpoint that answers
    with payloads of type [A]: the request is logged and the answer read
    off the network. [Throw] is a transport failure or a body that is not
    JSON. *)
Definition fetch_json {A} (endpoint : Request -> JsResult A) (req : Request) : M A :=
  fun log => (endpoint req, (log ++ [req])%list).

Declare Scope fetch_scope.
Delimit Scope fetch_scope with fetch.
Notation "x <- m ;; k" := (mbind m (fun x => k))
  (at level 100, m at next level, right associativity) : fetch_scope.

(** How a [try] block of an async function ends when it does not throw:
    with a value, or by handing back the promise of a recursive call
    ([return f(...)] without [await], whose rejection therefore does not
    pass through the enclosing [catch]). [TailCall] carries the evidence
    of the test that guards the call. *)
Inductive Completion (Guard : Prop) (A : Type) : Type :=
| Return (a : A)
| TailCall (guard : Guard).
Arguments Return {Guard A} a.
Arguments TailCall {Guard A} guard.

(** ** Provider payloads, at the types the fetchers cast them to

    A field is optional where the source guards the access ([?.],
    [Array.isArray], a truthiness test on an object). Numbers are
    integer-valued doubles. *)

Inductive EtherscanResult : Type :=
| ResultArray (records : list (gmap string string))
| ResultString (text : string).

Record EtherscanData : Type := {
  es_status : string;
  es_message : string;
  es_result : EtherscanResult;
}.

Record SubscanPage : Type := {
  ss_extrinsics : option (list (gmap string JsValue));
  ss_count : Z;
}.

Record SubscanData : Type := {
  ss_code : Z;
  ss_message : string;
  ss_data : option SubscanPage;
}.

Record SolscanData : Type := {
  sol_data : option (list (gmap string JsValue));
  sol_total : Z;
}.

Record CosmosPagination : Type := { cp_total : string }.

Record CosmosData : Type := {
  cos_tx_responses : option (list (gmap string JsValue));
  cos_pagination : option CosmosPagination;
}.

Record BciOut : Type := { bci_addr : string; bci_value : Z }.
Record BciInput : Type := { bci_prev_out : option BciOut }.
Record BciTx : Type := {
  bci_hash : string;
  bci_block_height : Z;
  bci_time : Z;
  bci_inputs : list BciInput;
  bci_out : list BciOut;
  bci_fee : Z;
}.
Record BciData : Type := { bci_txs : option (list BciTx); bci_n_tx : Z }.

Record BsOut : Type := { bs_scriptpubkey_address : string; bs_value : Z }.
Record BsIn : Type := { bs_prevout : option BsOut }.
Record BsStatus : Type := {
  bs_confirmed : bool;
  bs_block_height : option Z;
  bs_block_time : option Z;
}.
Record BsTx : Type := {
  bs_txid : string;
  bs_status : BsStatus;
  bs_fee : Z;
  bs_vin : list BsIn;
  bs_vout : list BsOut;
}.

Record TronCost : Type := { tron_cost_fee : Z }.
Record TronTx : Type := {
  tron_hash : string;
  tron_block : Z;
  tron_timestamp : Z;
  tron_ownerAddress : string;
  tron_toAddress : string;
  tron_amount : Z;
  tron_cost : option TronCost;
  tron_contractRet : string;
  tron_contractType : Z;
}.
Record TronData : Type := { tron_data : option (list TronTx); tron_total : Z }.

Record NearTx : Type := {
  near_transaction_hash : string;
  near_included_in_block_hash : string;
  near_block_timestamp : string;
  near_signer_account_id : string;
  near_receiver_account_id : string;
  near_deposit : option Z;           (* [actions_agg?.deposit] *)
  near_transaction_fee : option Z;   (* [outcomes_agg?.transaction_fee] *)
  near_outcome_status : option bool; (* [outcomes?.status] *)
}.
Record NearData : Type := { near_txns : option (list NearTx); near_count : Z }.

Record SuiTx : Type := {
  sui_digest : string;
  sui_checkpoint : string;
  sui_timestampMs : string;
  sui_sender : option string;          (* [transaction?.data?.sender] *)
  sui_status : option string;          (* [effects?.status?.status] *)
  sui_computationCost : option string; (* [effects?.gasUsed?.computationCost] *)
}.
Record SuiData : Type := { sui_result_data : option (list SuiTx) }. (* [result?.data] *)

Record AptosTx : Type := {
  apt_hash : string;
  apt_version : string;
  apt_timestamp : string;
  apt_sender : string;
  apt_success : bool;
  apt_gas_used : string;
  apt_gas_unit_price : string;
}.

(** The network: one oracle per provider family, from the request to the
    decoded body or to the exception [fetch] or [json()] raises. *)
Record Network : Type := {
  etherscan_api : Request -> JsResult EtherscanData;
  subscan_api : Request -> JsResult SubscanData;
  helius_api : Request -> JsResult (option (list (gmap string JsValue)));
  solscan_api : Request -> JsResult SolscanData;
  cosmos_api : Request -> JsResult CosmosData;
  blockchain_info_api : Request -> JsResult BciData;
  blockstream_api : Request -> JsResult (option (list BsTx));
  tronscan_api : Request -> JsResult TronData;
  nearblocks_api : Request -> JsResult NearData;
  sui_api : Request -> JsResult SuiData;
  aptos_api : Request -> JsResult (option (list AptosTx));
}.

Section Fetchers.

Variable P : Platform.
Variable net : Network.

Local Open Scope fetch_scope.

(** [String(n)] and [`${n}`] on an integer-valued Number. *)
Definition str (z : Z) : string := Number_toString (Finite z).

(** The envelope every fetcher ends with. *)
Definition respond (transactions : list Transaction) (total : Number) (page limit : Z)
  : TransactionResponse :=
  {| transactions := transactions;
     totalCount := total;
     page := page;
     limit := limit;
     hasMore := Z.of_nat (length transactions) =? limit |}.

(** [transactions.length] *)
Definition count (transactions : list Transaction) : Number :=
  Finite (Z.of_nat (length transactions)).

(** [n || transactions.length] *)
Definition total_or_count (n : Z) (transactions : list Transaction) : Number :=
  if n =? 0 then count transactions else Finite n.

Definition object (fields : list (string * JsValue)) : JsValue :=
  JObject (list_to_map fields).

(** *** EVM chains (transactions.ts, lines 197-268) *)

(** The keys of [apiKeyMap], with the environment variable each reads. *)
Definition apiKeyMap : list (string * string) :=
  [ ("ethereum", "VITE_ETHERSCAN_API_KEY");
    ("polygon", "VITE_POLYGONSCAN_API_KEY");
    ("arbitrum", "VITE_ARBISCAN_API_KEY");
    ("optimism", "VITE_OPTIMISM_API_KEY");
    ("base", "VITE_BASESCAN_API_KEY");
    ("bsc", "VITE_BSCSCAN_API_KEY");
    ("avalanche", "VITE_SNOWTRACE_API_KEY");
    ("fantom", "VITE_FTMSCAN_API_KEY");
    ("gnosis", "VITE_GNOSISSCAN_API_KEY");
    ("linea", "VITE_LINEASCAN_API_KEY");
    ("zksync", "VITE_ZKSYNC_API_KEY") ].

(** [apiKeyMap[chain.id]]: the value of the environment variable of a key
    of the map ([None] when the variable is not set), or, for an id that
    the map does not own, what [Object.prototype] holds under that name. *)
Definition apiKey_of (chain : ChainConfig) : JsObject.Member (option string) :=
  JsObject.get (map (fun kv => (fst kv, env P (snd kv))) apiKeyMap) (c_id chain).

(** [[chain.apiEndpoint, ...(chain.fallbackEndpoints || [])]] *)
Definition allEndpoints (chain : ChainConfig) : list string :=
  c_apiEndpoint chain :: default [] (c_fallbackEndpoints chain).

(** [allEndpoints[endpointIndex] || chain.apiEndpoint] *)
Definition currentEndpoint (chain : ChainConfig) (endpointIndex : nat) : string :=
  or_default (allEndpoints chain !! endpointIndex) (c_apiEndpoint chain).

Definition evm_url (address : string) (chain : ChainConfig) (page limit : Z)
    (endpointIndex : nat) : string :=
  let endpoint := currentEndpoint chain endpointIndex in
  let isBlockscout := includes "blockscout" endpoint in
  let url :=
    endpoint +:+ "?module=account&action=txlist&address=" +:+ address
    +:+ "&page=" +:+ str page +:+ "&offset=" +:+ str limit +:+ "&sort=desc" in
  match apiKey_of chain with
  | JsObject.Own (Some apiKey) =>
      if truthy_string apiKey && negb isBlockscout
      then url +:+ "&apikey=" +:+ apiKey
      else url
  | JsObject.Inherited key =>
      if negb isBlockscout then url +:+ "&apikey=" +:+ prototype_text P key else url
  | JsObject.Own None | JsObject.Undefined => url
  end.

(** A fallback endpoint remains: [endpointIndex < allEndpoints.length - 1]. *)
Definition fallback_remains (chain : ChainConfig) (endpointIndex : nat) : Prop :=
  (endpointIndex < length (allEndpoints chain) - 1)%nat.

(** The [try]/[catch] statement of [fetchEVMTransactions]. *)
Definition evm_try (address : string) (chain : ChainConfig) (page limit : Z)
    (endpointIndex : nat)
  : M (Completion (fallback_remains chain endpointIndex) TransactionResponse) :=
  try_catch
    (data <- fetch_json (etherscan_api net)
               (GET (evm_url address chain page limit endpointIndex)) ;;
     match String.eqb (es_status data) "1", es_result data with
     | true, ResultArray records =>
         transactions <-
           lift (rmap (fun tx => parseEtherscanTransaction P tx chain) records) ;;
         mret (Return (respond transactions (count transactions) page limit))
     | _, result =>
         let errorMsg :=
           match result with
           | ResultString text => text
           | ResultArray _ => es_message data
           end in
         match lt_dec endpointIndex (length (allEndpoints chain) - 1) with
         | left more => mret (TailCall more)
         | right _ =>
             mthrow (Error (if truthy_string errorMsg then errorMsg
                            else "Failed to fetch transactions"))
         end
     end)
    (fun error =>
       match lt_dec endpointIndex (length (allEndpoints chain) - 1) with
       | left more => mret (TailCall more)
       | right _ => mthrow error
       end).

Equations? fetchEVMTransactions (address : string) (chain : ChainConfig)
    (page limit : Z) (endpointIndex : nat) (log : list Request)
    : JsResult TransactionResponse * list Request
    by wf (length (allEndpoints chain) - endpointIndex)%nat lt :=
  fetchEVMTransactions address chain page limit endpointIndex log
    with evm_try address chain page limit endpointIndex log := {
    | (Ok (Return response), log') => (Ok response, log')
    | (Ok (TailCall more), log') =>
        fetchEVMTransactions address chain page limit (S endpointIndex) log'
    | (Throw error, log') => (Throw error, log') }.
Proof. unfold fallback_remains in more. lia. Qed.

(** *** Substrate chains (transactions.ts, lines 272-321) *)

Definition subscan_request (address : string) (chain : ChainConfig) (page limit : Z)
  : Request :=
  let url := c_apiEndpoint chain +:+ "/api/v2/scan/extrinsics" in
  let headers :=
    (("Content-Type", "application/json") ::
     match env P "VITE_SUBSCAN_API_KEY" with
     | Some apiKey => if truthy_string apiKey then [("X-API-Key", apiKey)] else []
     | None => []
     end)%list in
  POST url headers
    (object [("address", JString address);
             ("page", JNumber (page - 1));
             ("row", JNumber limit)]).

(** The [try] block once the body is decoded. *)
Definition subscan_response (chain : ChainConfig) (page limit : Z) (data : SubscanData)
  : JsResult TransactionResponse :=
  match ss_code data =? 0, ss_data data with
  | true, Some {| ss_extrinsics := Some extrinsics; ss_count := n |} =>
      rbind (rmap (fun tx => parseSubscanTransaction P tx chain) extrinsics)
        (fun transactions =>
           Ok (respond transactions (total_or_count n transactions) page limit))
  | _, _ =>
      Throw (Error (if truthy_string (ss_message data) then ss_message data
                    else "Failed to fetch transactions"))
  end.

Definition fetchSubstrateTransactions (address : string) (chain : ChainConfig)
    (page limit : Z) : M TransactionResponse :=
  try_catch
    (data <- fetch_json (subscan_api net) (subscan_request address chain page limit) ;;
     lift (subscan_response chain page limit data))
    (fun error => mthrow error).

(** *** Solana (transactions.ts, lines 324-399) *)

Definition parseHeliusTransaction (address : string) (chain : ChainConfig)
    (tx : gmap string JsValue) : JsResult Transaction :=
  let fee := Js.String_ (Js.or (Js.field tx "fee") (JNumber 0)) in
  rbind (formatValue P fee (c_decimals chain)) (fun feeFormatted =>
    Ok (plain_transaction chain
          (Js.String_ (Js.or (Js.field tx "signature") (JString "")))
          (Js.String_ (Js.or (Js.field tx "slot") (JString "")))
          (Js.String_ (Js.or (Js.field tx "timestamp") (JNumber 0)))
          address
          (Js.String_ (Js.or (Js.field tx "destination") (JString "")))
          "0" "0" fee feeFormatted
          (if Js.truthy (Js.field tx "transactionError") then failed else success)
          transfer None
          (c_explorerUrl chain +:+ "/tx/" +:+ Js.String_ (Js.field tx "signature")))).

Definition helius_request (address : string) (limit : Z) : Request :=
  GET ("https://api.helius.xyz/v0/addresses/" +:+ address
       +:+ "/transactions?api-key=" +:+ template (env P "VITE_HELIUS_API_KEY")
       +:+ "&limit=" +:+ str limit).

Definition helius_response (address : string) (chain : ChainConfig) (page limit : Z)
    (data : option (list (gmap string JsValue))) : JsResult TransactionResponse :=
  match data with
  | None => Throw (Error "Invalid response from Helius")
  | Some records =>
      rbind (rmap (parseHeliusTransaction address chain) records)
        (fun transactions =>
           Ok (respond transactions (count transactions) page limit))
  end.

Definition solscan_request (address : string) (chain : ChainConfig) (page limit : Z)
  : Request :=
  GET (c_apiEndpoint chain +:+ "/account/transactions?account=" +:+ address
       +:+ "&page=" +:+ str page +:+ "&page_size=" +:+ str limit).

Definition solscan_response (chain : ChainConfig) (page limit : Z) (data : SolscanData)
  : JsResult TransactionResponse :=
  match sol_data data with
  | None =>
      Throw (Error
        "Solscan API requires authentication. Add VITE_HELIUS_API_KEY for Solana support.")
  | Some records =>
      rbind (rmap (fun tx => parseSolscanTransaction P tx chain) records)
        (fun transactions =>
           Ok (respond transactions (total_or_count (sol_total data) transactions)
                 page limit))
  end.

Definition fetchSolanaTransactions (address : string) (chain : ChainConfig)
    (page limit : Z) : M TransactionResponse :=
  if truthy_opt (env P "VITE_HELIUS_API_KEY") then
    try_catch
      (data <- fetch_json (helius_api net) (helius_request address limit) ;;
       lift (helius_response address chain page limit data))
      (fun error => mthrow error)
  else
    try_catch
      (data <- fetch_json (solscan_api net) (solscan_request address chain page limit) ;;
       lift (solscan_response chain page limit data))
      (fun error => mthrow error).

(** *** Cosmos chains (transactions.ts, lines 402-448) *)

Definition cosmos_url (address : string) (chain : ChainConfig) (page limit : Z)
    (endpointIndex : nat) : string :=
  let offset := (page - 1) * limit in
  currentEndpoint chain endpointIndex
  +:+ "/cosmos/tx/v1beta1/txs?events=message.sender='" +:+ address
  +:+ "'&pagination.limit=" +:+ str limit
  +:+ "&pagination.offset=" +:+ str offset +:+ "&order_by=ORDER_BY_DESC".

(** [parseInt(data.pagination?.total || '0')] *)
Definition cosmos_total (data : CosmosData) : Number :=
  parseInt
    (match cos_pagination data with
     | Some pagination =>
         if truthy_string (cp_total pagination) then cp_total pagination else "0"
     | None => "0"
     end).

(** The [try]/[catch] statement of [fetchCosmosTransactions]. *)
Definition cosmos_try (address : string) (chain : ChainConfig) (page limit : Z)
    (endpointIndex : nat)
  : M (Completion (fallback_remains chain endpointIndex) TransactionResponse) :=
  try_catch
    (data <- fetch_json (cosmos_api net)
               (GET (cosmos_url address chain page limit endpointIndex)) ;;
     match cos_tx_responses data with
     | None =>
         match lt_dec endpointIndex (length (allEndpoints chain) - 1) with
         | left more => mret (TailCall more)
         | right _ => mthrow (Error "Failed to fetch Cosmos transactions")
         end
     | Some tx_responses =>
         transactions <-
           lift (rmap (fun tx => parseCosmosTransaction P tx chain) tx_responses) ;;
         mret (Return (respond transactions (cosmos_total data) page limit))
     end)
    (fun error =>
       match lt_dec endpointIndex (length (allEndpoints chain) - 1) with
       | left more => mret (TailCall more)
       | right _ => mthrow error
       end).

Equations? fetchCosmosTransactions (address : string) (chain : ChainConfig)
    (page limit : Z) (endpointIndex : nat) (log : list Request)
    : JsResult TransactionResponse * list Request
    by wf (length (allEndpoints chain) - endpointIndex)%nat lt :=
  fetchCosmosTransactions address chain page limit endpointIndex log
    with cosmos_try address chain page limit endpointIndex log := {
    | (Ok (Return response), log') => (Ok response, log')
    | (Ok (TailCall more), log') =>
        fetchCosmosTransactions address chain page limit (S endpointIndex) log'
    | (Throw error, log') => (Throw error, log') }.
Proof. unfold fallback_remains in more. lia. Qed.

(** *** Bitcoin (transactions.ts, lines 451-568) *)

Definition parseBlockchainInfoTransaction (address : string) (chain : ChainConfig)
    (tx : BciTx) : JsResult Transaction :=
  let value :=
    match find (fun o => String.eqb (bci_addr o) address) (bci_out tx) with
    | Some o => bci_value o
    | None => 0
    end in
  rbind (formatValue P (str value) (c_decimals chain)) (fun valueFormatted =>
  rbind (formatValue P (str (bci_fee tx)) (c_decimals chain)) (fun feeFormatted =>
    Ok (plain_transaction chain
          (bci_hash tx)
          (if bci_block_height tx =? 0 then "pending" else str (bci_block_height tx))
          (str (bci_time tx))
          (match bci_inputs tx with
           | {| bci_prev_out := Some o |} :: _ =>
               if truthy_string (bci_addr o) then bci_addr o else "coinbase"
           | _ => "coinbase"
           end)
          (match bci_out tx with
           | o :: _ => bci_addr o
           | [] => ""
           end)
          (str value) valueFormatted (str (bci_fee tx)) feeFormatted
          (if bci_block_height tx =? 0 then pending else success)
          transfer None
          ("https://blockchair.com/bitcoin/transaction/" +:+ bci_hash tx)))).

Definition parseBlockstreamTransaction (address : string) (chain : ChainConfig)
    (tx : BsTx) : JsResult Transaction :=
  let value :=
    match find (fun o => String.eqb (bs_scriptpubkey_address o) address) (bs_vout tx) with
    | Some o => bs_value o
    | None => 0
    end in
  rbind (formatValue P (str value) (c_decimals chain)) (fun valueFormatted =>
  rbind (formatValue P (str (bs_fee tx)) (c_decimals chain)) (fun feeFormatted =>
    Ok (plain_transaction chain
          (bs_txid tx)
          (match bs_block_height (bs_status tx) with
           | Some h => if h =? 0 then "pending" else str h
           | None => "pending"
           end)
          (match bs_block_time (bs_status tx) with
           | Some t => if t =? 0 then str (now_seconds P) else str t
           | None => str (now_seconds P)
           end)
          (match bs_vin tx with
           | {| bs_prevout := Some o |} :: _ =>
               if truthy_string (bs_scriptpubkey_address o)
               then bs_scriptpubkey_address o else "coinbase"
           | _ => "coinbase"
           end)
          (match bs_vout tx with
           | o :: _ => bs_scriptpubkey_address o
           | [] => ""
           end)
          (str value) valueFormatted (str (bs_fee tx)) feeFormatted
          (if bs_confirmed (bs_status tx) then success else pending)
          transfer None
          ("https://blockstream.info/tx/" +:+ bs_txid tx)))).

Definition blockchain_info_request (address : string) (page limit : Z) : Request :=
  let offset := (page - 1) * limit in
  GET ("https://blockchain.info/rawaddr/" +:+ address
       +:+ "?limit=" +:+ str limit +:+ "&offset=" +:+ str offset).

Definition blockchain_info_response (address : string) (chain : ChainConfig)
    (page limit : Z) (data : BciData) : JsResult TransactionResponse :=
  match bci_txs data with
  | None => Throw (Error "Failed to fetch Bitcoin transactions")
  | Some txs =>
      rbind (rmap (parseBlockchainInfoTransaction address chain) txs)
        (fun transactions =>
           Ok (respond transactions (total_or_count (bci_n_tx data) transactions)
                 page limit))
  end.

Definition blockstream_request (address : string) : Request :=
  GET ("https://blockstream.info/api/address/" +:+ address +:+ "/txs").

Definition blockstream_response (address : string) (chain : ChainConfig)
    (page limit : Z) (data : option (list BsTx)) : JsResult TransactionResponse :=
  let offset := (page - 1) * limit in
  match data with
  | None => Throw (Error "Failed to fetch Bitcoin transactions")
  | Some txs =>
      rbind (rmap (parseBlockstreamTransaction address chain)
               (array_slice offset (offset + limit) txs))
        (fun transactions =>
           Ok (respond transactions (count transactions) page limit))
  end.

(** The branch [useFallback = true]: the Blockstream API. *)
Definition fetchBitcoinFallback (address : string) (chain : ChainConfig)
    (page limit : Z) : M TransactionResponse :=
  try_catch
    (data <- fetch_json (blockstream_api net) (blockstream_request address) ;;
     lift (blockstream_response address chain page limit data))
    (fun error => mthrow error).

(** The function calls itself once, with [useFallback = true], from the
    [catch] of the primary branch; that call runs the branch above. *)
Definition fetchBitcoinTransactions (address : string) (chain : ChainConfig)
    (page limit : Z) (useFallback : bool) : M TransactionResponse :=
  if negb useFallback then
    try_catch
      (data <- fetch_json (blockchain_info_api net)
                 (blockchain_info_request address page limit) ;;
       lift (blockchain_info_response address chain page limit data))
      (fun error => fetchBitcoinFallback address chain page limit)
  else fetchBitcoinFallback address chain page limit.

(** *** TRON (transactions.ts, lines 571-631) *)

Definition parseTronTransaction (chain : ChainConfig) (tx : TronTx)
  : JsResult Transaction :=
  let fee :=
    match tron_cost tx with
    | Some cost => tron_cost_fee cost
    | None => 0
    end in
  rbind (formatValue P (str (tron_amount tx)) (c_decimals chain)) (fun valueFormatted =>
  rbind (formatValue P (str fee) (c_decimals chain)) (fun feeFormatted =>
    Ok (plain_transaction chain
          (tron_hash tx)
          (str (tron_block tx))
          (str (tron_timestamp tx / 1000))
          (tron_ownerAddress tx)
          (tron_toAddress tx)
          (str (tron_amount tx)) valueFormatted (str fee) feeFormatted
          (if String.eqb (tron_contractRet tx) "SUCCESS" then success else failed)
          (if tron_contractType tx =? 1 then transfer else contract)
          None
          ("https://tronscan.org/#/transaction/" +:+ tron_hash tx)))).

Definition tron_request (address : string) (page limit : Z) : Request :=
  let start := (page - 1) * limit in
  GET ("https://apilist.tronscanapi.com/api/transaction?address=" +:+ address
       +:+ "&start=" +:+ str start +:+ "&limit=" +:+ str limit
       +:+ "&sort=-timestamp").

Definition tron_response (chain : ChainConfig) (page limit : Z) (data : TronData)
  : JsResult TransactionResponse :=
  match tron_data data with
  | None => Throw (Error "Failed to fetch TRON transactions")
  | Some txs =>
      rbind (rmap (parseTronTransaction chain) txs)
        (fun transactions =>
           Ok (respond transactions (total_or_count (tron_total data) transactions)
                 page limit))
  end.

Definition fetchTronTransactions (address : string) (chain : ChainConfig)
    (page limit : Z) : M TransactionResponse :=
  try_catch
    (data <- fetch_json (tronscan_api net) (tron_request address page limit) ;;
     lift (tron_response chain page limit data))
    (fun error => mthrow error).

(** *** NEAR (transactions.ts, lines 634-693) *)

Definition parseNearTransaction (chain : ChainConfig) (tx : NearTx)
  : JsResult Transaction :=
  let value := str (default 0 (near_deposit tx)) in
  let fee := str (default 0 (near_transaction_fee tx)) in
  rbind (formatValue P value (c_decimals chain)) (fun valueFormatted =>
  rbind (formatValue P fee (c_decimals chain)) (fun feeFormatted =>
    Ok (plain_transaction chain
          (near_transaction_hash tx)
          (near_included_in_block_hash tx)
          (Number_toString (floor_div (Date_getTime P (near_block_timestamp tx)) 1000))
          (near_signer_account_id tx)
          (near_receiver_account_id tx)
          value valueFormatted fee feeFormatted
          (if default false (near_outcome_status tx) then success else failed)
          transfer None
          ("https://nearblocks.io/txns/" +:+ near_transaction_hash tx)))).

Definition near_request (address : string) (page limit : Z) : Request :=
  GET ("https://api.nearblocks.io/v1/account/" +:+ address
       +:+ "/txns?page=" +:+ str page +:+ "&per_page=" +:+ str limit
       +:+ "&order=desc").

Definition near_response (chain : ChainConfig) (page limit : Z) (data : NearData)
  : JsResult TransactionResponse :=
  match near_txns data with
  | None => Throw (Error "Failed to fetch NEAR transactions")
  | Some txns =>
      rbind (rmap (parseNearTransaction chain) txns)
        (fun transactions =>
           Ok (respond transactions (total_or_count (near_count data) transactions)
                 page limit))
  end.

Definition fetchNearTransactions (address : string) (chain : ChainConfig)
    (page limit : Z) : M TransactionResponse :=
  try_catch
    (data <- fetch_json (nearblocks_api net) (near_request address page limit) ;;
     lift (near_response chain page limit data))
    (fun error => mthrow error).

(** *** Sui (transactions.ts, lines 696-764) *)

Definition parseSuiTransaction (address : string) (chain : ChainConfig) (tx : SuiTx)
  : JsResult Transaction :=
  let fee := or_default (sui_computationCost tx) "0" in
  rbind (formatValue P fee (c_decimals chain)) (fun feeFormatted =>
    Ok (plain_transaction chain
          (sui_digest tx)
          (sui_checkpoint tx)
          (Number_toString (floor_of_string P (sui_timestampMs tx) 1000))
          (or_default (sui_sender tx) address)
          ""
          "0" "0" fee feeFormatted
          (if bool_decide (sui_status tx = Some "success") then success else failed)
          transfer None
          ("https://suiscan.xyz/mainnet/tx/" +:+ sui_digest tx))).

Definition sui_request (address : string) (chain : ChainConfig) (limit : Z) : Request :=
  POST (c_apiEndpoint chain) [("Content-Type", "application/json")]
    (object
       [("jsonrpc", JString "2.0");
        ("id", JNumber 1);
        ("method", JString "suix_queryTransactionBlocks");
        ("params",
         JArray
           [object
              [("filter", object [("FromAddress", JString address)]);
               ("options", object [("showInput", JBool true);
                                   ("showEffects", JBool true)])];
            JNull; JNumber limit; JBool true])]).

Definition sui_response (address : string) (chain : ChainConfig) (page limit : Z)
    (data : SuiData) : JsResult TransactionResponse :=
  match sui_result_data data with
  | None => Throw (Error "Failed to fetch Sui transactions")
  | Some txs =>
      rbind (rmap (parseSuiTransaction address chain) txs)
        (fun transactions =>
           Ok (respond transactions (count transactions) page limit))
  end.

Definition fetchSuiTransactions (address : string) (chain : ChainConfig)
    (page limit : Z) : M TransactionResponse :=
  try_catch
    (data <- fetch_json (sui_api net) (sui_request address chain limit) ;;
     lift (sui_response address chain page limit data))
    (fun error => mthrow error).

(** *** Aptos (transactions.ts, lines 767-821) *)

Definition parseAptosTransaction (chain : ChainConfig) (tx : AptosTx)
  : JsResult Transaction :=
  rbind (BigInt_of_string (apt_gas_used tx)) (fun used =>
  rbind (BigInt_of_string (apt_gas_unit_price tx)) (fun price =>
    let fee := BigInt_toString (used * price) in
    rbind (formatValue P fee (c_decimals chain)) (fun feeFormatted =>
      Ok (plain_transaction chain
            (apt_hash tx)
            (apt_version tx)
            (Number_toString (floor_of_string P (apt_timestamp tx) 1000000))
            (apt_sender tx)
            ""
            "0" "0" fee feeFormatted
            (if apt_success tx then success else failed)
            transfer None
            ("https://explorer.aptoslabs.com/txn/" +:+ apt_hash tx
             +:+ "?network=mainnet"))))).

Definition aptos_request (address : string) (chain : ChainConfig) (page limit : Z)
  : Request :=
  let offset := (page - 1) * limit in
  GET (c_apiEndpoint chain +:+ "/accounts/" +:+ address
       +:+ "/transactions?limit=" +:+ str limit +:+ "&start=" +:+ str offset).

Definition aptos_response (chain : ChainConfig) (page limit : Z)
    (data : option (list AptosTx)) : JsResult TransactionResponse :=
  match data with
  | None => Throw (Error "Failed to fetch Aptos transactions")
  | Some txs =>
      rbind (rmap (parseAptosTransaction chain) txs)
        (fun transactions =>
           Ok (respond transactions (count transactions) page limit))
  end.

Definition fetchAptosTransactions (address : string) (chain : ChainConfig)
    (page limit : Z) : M TransactionResponse :=
  try_catch
    (data <- fetch_json (aptos_api net) (aptos_request address chain page limit) ;;
     lift (aptos_response chain page limit data))
    (fun error => mthrow error).

(** ** Mock generator (transactions.ts, lines 824-868) *)

Definition mock_types : list TxType := [transfer; contract; token; stake; swap].
Definition mock_statuses : list Status := [success; success; success; failed].

(** [Math.floor(Math.random() * n)] for a draw of significand [m] and an
    integer-valued [n]: the product is rounded to a double, then floored. *)
Definition random_below (m n : Z) : Z := round_nearest_even (m * n) / 2 ^ 53.

(** [Math.floor(Math.random() * 10 ** e)]. A negative [e] gives a factor
    below one, hence zero. *)
Definition random_amount (m e : Z) : Number :=
  if e <? 0 then Finite 0
  else
    match exp10 P (Z.to_nat e) with
    | Finite n => Finite (random_below m n)
    | Infinity => if m =? 0 then NaN else Infinity
    | NegInfinity => if m =? 0 then NaN else NegInfinity
    | NaN => NaN
    end.

(** [n] characters of ['0123456789abcdef'], one draw each, from draw [k]. *)
Fixpoint random_hex (n k : nat) : string :=
  match n with
  | O => ""
  | S n' =>
      match String.get (Z.to_nat (random_below (random P k) 16)) "0123456789abcdef" with
      | Some c => String c (random_hex n' (S k))
      | None => random_hex n' (S k)
      end
  end.

(** The [i]-th transaction. Its callback makes 110 draws, in the order of
    the source. [types[k]] and [statuses[k]] are in range whenever the
    draw is below one. *)
Definition mockTransaction (address : string) (chain : ChainConfig) (i : nat)
  : JsResult Transaction :=
  let k := (110 * i)%nat in
  let isOutgoing := random P k >? 2 ^ 52 in
  let type :=
    default transfer (mock_types !! Z.to_nat (random_below (random P (k + 1)) 5)) in
  let status :=
    default success (mock_statuses !! Z.to_nat (random_below (random P (k + 2)) 4)) in
  let value :=
    Number_toString (random_amount (random P (k + 3)) (Z.of_nat (c_decimals chain) - 2)) in
  let fee :=
    Number_toString (random_amount (random P (k + 4)) (Z.of_nat (c_decimals chain) - 6)) in
  let timestamp :=
    str (now_seconds P - Z.of_nat i * 3600 - random_below (random P (k + 5)) 3600) in
  let hash := "0x" +:+ random_hex 64 (k + 6) in
  let randomAddr := "0x" +:+ random_hex 40 (k + 70) in
  rbind (formatValue P value (c_decimals chain)) (fun valueFormatted =>
  rbind (formatValue P fee (c_decimals chain)) (fun feeFormatted =>
    Ok (plain_transaction chain
          hash
          (str (20000000 - Z.of_nat i * 100))
          timestamp
          (if isOutgoing then address else randomAddr)
          (if isOutgoing then randomAddr else address)
          value valueFormatted fee feeFormatted status type
          (match type with contract => Some "swap" | _ => None end)
          (c_explorerUrl chain +:+ "/tx/" +:+ hash)))).

(** [Array.from({ length: count }, (_, i) => ...)]: the array is created
    with the length, which throws past the largest array length
    [2^32 - 1], before the callback runs; a negative length counts as
    zero. *)
Definition generateMockTransactions (address : string) (chain : ChainConfig)
    (count : Z) : JsResult (list Transaction) :=
  if 2 ^ 32 <=? count then Throw (RangeError "Invalid array length")
  else rmap (mockTransaction address chain) (seq 0 (Z.to_nat count)).

(** ** Dispatcher (transactions.ts, lines 871-925) *)

(** The registry lookup of [chains.ts], which is not part of the sources
    at hand; [None] is [undefined]. *)
Variable getChainById : string -> option ChainConfig.

Definition fetchTransactions (address chainId : string) (page limit : Z)
    (useMock : bool) : M TransactionResponse :=
  match getChainById chainId with
  | None => mthrow (Error ("Chain " +:+ chainId +:+ " not found"))
  | Some chain =>
      if useMock then
        mockTxs <- lift (generateMockTransactions address chain limit) ;;
        mret {| transactions := mockTxs;
                totalCount := Finite 100;
                page := page;
                limit := limit;
                hasMore := page <? 4 |}
      else if String.eqb (c_id chain) "bitcoin" then
        fetchBitcoinTransactions address chain page limit false
      else if String.eqb (c_id chain) "tron" then
        fetchTronTransactions address chain page limit
      else if String.eqb (c_id chain) "near" then
        fetchNearTransactions address chain page limit
      else if String.eqb (c_id chain) "sui" then
        fetchSuiTransactions address chain page limit
      else if String.eqb (c_id chain) "aptos" then
        fetchAptosTransactions address chain page limit
      else if String.eqb (c_apiType chain) "etherscan" then
        fetchEVMTransactions address chain page limit 0
      else if String.eqb (c_apiType chain) "subscan" then
        fetchSubstrateTransactions address chain page limit
      else if String.eqb (c_apiType chain) "solscan" then
        fetchSolanaTransactions address chain page limit
      else if String.eqb (c_apiType chain) "mintscan" then
        fetchCosmosTransactions address chain page limit 0
      else
        mthrow (Error (c_name chain +:+ " API not yet implemented. Check back soon!"))
  end.

End Fetchers.

(** ** Vocabulary of the specification *)

Section Vocabulary.

Variable P : Platform.
Variable net : Network.

(** What one attempt of the EVM fetcher makes of a decoded body: the
    response, or the error of the provider's envelope or of the parser. *)
Definition evm_response (chain : ChainConfig) (page limit : Z) (data : EtherscanData)
  : JsResult TransactionResponse :=
  match String.eqb (es_status data) "1", es_result data with
  | true, ResultArray records =>
      rbind (rmap (fun tx => parseEtherscanTransaction P tx chain) records)
        (fun transactions =>
           Ok (respond transactions (count transactions) page limit))
  | _, ResultString text =>
      Throw (Error (if truthy_string text then text else "Failed to fetch transactions"))
  | _, ResultArray _ =>
      Throw (Error (if truthy_string (es_message data) then es_message data
                    else "Failed to fetch transactions"))
  end.

Definition cosmos_response (chain : ChainConfig) (page limit : Z) (data : CosmosData)
  : JsResult TransactionResponse :=
  match cos_tx_responses data with
  | None => Throw (Error "Failed to fetch Cosmos transactions")
  | Some tx_responses =>
      rbind (rmap (fun tx => parseCosmosTransaction P tx chain) tx_responses)
        (fun transactions =>
           Ok (respond transactions (cosmos_total data) page limit))
  end.

(** The outcome of one attempt: the answer of the network to the request,
    then what the fetcher makes of it. A [Throw] is a failed attempt, be it
    a transport failure, an error envelope or a record that does not parse. *)
Definition attempt {A} (api : Request -> JsResult A) (req : Request)
    (response : A -> JsResult TransactionResponse) : JsResult TransactionResponse :=
  rbind (api req) response.

Definition evm_request (address : string) (chain : ChainConfig) (page limit : Z)
    (endpointIndex : nat) : Request :=
  GET (evm_url P address chain page limit endpointIndex).

Definition evm_attempt (address : string) (chain : ChainConfig) (page limit : Z)
    (endpointIndex : nat) : JsResult TransactionResponse :=
  attempt (etherscan_api net) (evm_request address chain page limit endpointIndex)
    (evm_response chain page limit).

Definition cosmos_request (address : string) (chain : ChainConfig) (page limit : Z)
    (endpointIndex : nat) : Request :=
  GET (cosmos_url address chain page limit endpointIndex).

Definition cosmos_attempt (address : string) (chain : ChainConfig) (page limit : Z)
    (endpointIndex : nat) : JsResult TransactionResponse :=
  attempt (cosmos_api net) (cosmos_request address chain page limit endpointIndex)
    (cosmos_response chain page limit).

(** The fetchers, as the dispatcher calls them. *)
Inductive Fetcher : Type :=
| EVM | Substrate | Solana | Cosmos | Bitcoin | Tron | Near | Sui | Aptos.

Variable getChainById : string -> option ChainConfig.

Definition run (f : Fetcher) (address : string) (chain : ChainConfig) (page limit : Z)
  : M TransactionResponse :=
  match f with
  | EVM => fetchEVMTransactions P net address chain page limit 0
  | Substrate => fetchSubstrateTransactions P net address chain page limit
  | Solana => fetchSolanaTransactions P net address chain page limit
  | Cosmos => fetchCosmosTransactions P net address chain page limit 0
  | Bitcoin => fetchBitcoinTransactions P net address chain page limit false
  | Tron => fetchTronTransactions P net address chain page limit
  | Near => fetchNearTransactions P net address chain page limit
  | Sui => fetchSuiTransactions P net address chain page limit
  | Aptos => fetchAptosTransactions P net address chain page limit
  end.

(** An attempt: the request it issues and how it ends. *)
Definition Attempt : Type := (Request * JsResult TransactionResponse)%type.

(** The retry protocol over a non-empty schedule of attempts: they are
    made in order, the first that succeeds ends the call with its
    response, and the error of the last one is the error of the call. *)
Fixpoint run_schedule (a : Attempt) (later : list Attempt) (log : list Request)
  : JsResult TransactionResponse * list Request :=
  match snd a, later with
  | Ok response, _ => (Ok response, (log ++ [fst a])%list)
  | Throw error, [] => (Throw error, (log ++ [fst a])%list)
  | Throw _, next :: later' => run_schedule next later' (log ++ [fst a])%list
  end.

Definition evm_attempt_at (address : string) (chain : ChainConfig) (page limit : Z)
    (i : nat) : Attempt :=
  (evm_request address chain page limit i, evm_attempt address chain page limit i).

Definition cosmos_attempt_at (address : string) (chain : ChainConfig) (page limit : Z)
    (i : nat) : Attempt :=
  (cosmos_request address chain page limit i, cosmos_attempt address chain page limit i).

(** The attempts each fetcher makes, the first one apart: the EVM and
    Cosmos fetchers have one per endpoint of [allEndpoints], the Bitcoin
    fetcher a second provider, the others none. *)
Definition first_attempt (f : Fetcher) (address : string) (chain : ChainConfig)
    (page limit : Z) : Attempt :=
  match f with
  | EVM => evm_attempt_at address chain page limit 0
  | Cosmos => cosmos_attempt_at address chain page limit 0
  | Substrate =>
      (subscan_request P address chain page limit,
       attempt (subscan_api net) (subscan_request P address chain page limit)
         (subscan_response P chain page limit))
  | Solana =>
      if truthy_opt (env P "VITE_HELIUS_API_KEY")
      then (helius_request P address limit,
            attempt (helius_api net) (helius_request P address limit)
              (helius_response P address chain page limit))
      else (solscan_request address chain page limit,
            attempt (solscan_api net) (solscan_request address chain page limit)
              (solscan_response P chain page limit))
  | Bitcoin =>
      (blockchain_info_request address page limit,
       attempt (blockchain_info_api net) (blockchain_info_request address page limit)
         (blockchain_info_response P address chain page limit))
  | Tron =>
      (tron_request address page limit,
       attempt (tronscan_api net) (tron_request address page limit)
         (tron_response P chain page limit))
  | Near =>
      (near_request address page limit,
       attempt (nearblocks_api net) (near_request address page limit)
         (near_response P chain page limit))
  | Sui =>
      (sui_request address chain limit,
       attempt (sui_api net) (sui_request address chain limit)
         (sui_response P address chain page limit))
  | Aptos =>
      (aptos_request address chain page limit,
       attempt (aptos_api net) (aptos_request address chain page limit)
         (aptos_response P chain page limit))
  end.

Definition later_attempts (f : Fetcher) (address : string) (chain : ChainConfig)
    (page limit : Z) : list Attempt :=
  match f with
  | EVM =>
      map (evm_attempt_at address chain page limit)
        (seq 1 (length (allEndpoints chain) - 1))
  | Cosmos =>
      map (cosmos_attempt_at address chain page limit)
        (seq 1 (length (allEndpoints chain) - 1))
  | Bitcoin =>
      [(blockstream_request address,
        attempt (blockstream_api net) (blockstream_request address)
          (blockstream_response P address chain page limit))]
  | _ => []
  end.

Definition schedule (f : Fetcher) (address : string) (chain : ChainConfig)
    (page limit : Z) : list Attempt :=
  first_attempt f address chain page limit :: later_attempts f address chain page limit.

Definition failed_attempt (a : Attempt) : Prop :=
  exists error, snd a = Throw error.

(** The fetchers that keep the ordered endpoint list. *)
Definition uses_endpoint_list (f : Fetcher) : bool :=
  match f with
  | EVM | Cosmos => true
  | _ => false
  end.

(** The attempt against the [i]-th endpoint tried. *)
Definition endpoint_attempt (f : Fetcher) (address : string) (chain : ChainConfig)
    (page limit : Z) (i : nat) : Attempt :=
  nth i (schedule f address chain page limit)
    (first_attempt f address chain page limit).

(** The number of attempts a fetcher makes when each of them fails. *)
Definition attempts_made (f : Fetcher) (chain : ChainConfig) : nat :=
  match f with
  | EVM | Cosmos => length (allEndpoints chain)
  | Bitcoin => 2
  | _ => 1
  end.

(** A transaction the module produces for [chain]: the result of a
    parser, of the mock generator, or an element of a response a fetcher
    or the dispatcher resolves with. *)
Inductive produced (chain : ChainConfig) : Transaction -> Prop :=
| by_parseEtherscanTransaction tx t :
    parseEtherscanTransaction P tx chain = Ok t -> produced chain t
| by_parseSubscanTransaction tx t :
    parseSubscanTransaction P tx chain = Ok t -> produced chain t
| by_parseSolscanTransaction tx t :
    parseSolscanTransaction P tx chain = Ok t -> produced chain t
| by_parseCosmosTransaction tx t :
    parseCosmosTransaction P tx chain = Ok t -> produced chain t
| by_generateMockTransactions address count ts t :
    generateMockTransactions P address chain count = Ok ts ->
    In t ts -> produced chain t
| by_fetcher f address page limit log response log' t :
    run f address chain page limit log = (Ok response, log') ->
    In t (transactions response) -> produced chain t
| by_fetchTransactions address chainId page limit useMock log response log' t :
    getChainById chainId = Some chain ->
    fetchTransactions P net getChainById address chainId page limit useMock log
    = (Ok response, log') ->
    In t (transactions response) -> produced chain t.

End Vocabulary.

(** A string of decimal digits, the "non-negative base-10 integer string"
    of the specification, and the number it denotes. *)
Definition denotes (s : string) (n : Z) : Prop :=
  s <> "" /\ parse_radix 10 s 0 = Some n.

(** [s] is a decimal rendering with at most six fractional digits, none
    of them a trailing zero, whose value is [n / 10^d] truncated to six
    fractional digits. *)
Definition renders_truncation (s : string) (n : Z) (d : nat) : Prop :=
  exists (ip fs : string) (I F : Z),
    s = (if truthy_string fs then ip +:+ "." +:+ fs else ip) /\
    denotes ip I /\
    parse_radix 10 fs 0 = Some F /\
    (String.length fs <= 6)%nat /\
    strip_trailing_zeros fs = fs /\
    I * 10 ^ 6 + F * 10 ^ (6 - Z.of_nat (String.length fs))
    = n * 10 ^ 6 / 10 ^ Z.of_nat d.

(** The retry protocol as the specification states it for every fetcher:
    the error is propagated only when no endpoint of
    [[primaryEndpoint, ...fallbackEndpoints]] remains, that is, a call that
    rejects has made one request per endpoint of the list. *)
Definition retries_until_exhausted (f : Fetcher) : Prop :=
  forall P net address chain page limit log error log',
    run P net f address chain page limit log = (Throw error, log') ->
    length log' = (length log + length (allEndpoints chain))%nat.

(** ** Sample inputs *)

Module Sample.

(** A platform whose [**] is correctly rounded, whose every draw of
    [Math.random()] is one half, and which prints the members of
    [Object.prototype] as V8 does. *)
Definition platform : Platform :=
  {| exp10 := exp10_nearest;
     env := fun _ => None;
     now_seconds := 1700000000;
     Date_getTime := fun _ => NaN;
     floor_of_string := fun _ _ => NaN;
     random := fun _ => 2 ^ 52;
     prototype_text := fun key =>
       if String.eqb key "constructor" then "function Object() { [native code] }"
       else if String.eqb key "__proto__" then "[object Object]"
       else "function " +:+ key +:+ "() { [native code] }" |}.

Definition ethereum : ChainConfig :=
  {| c_id := "ethereum"; c_name := "Ethereum"; c_symbol := "ETH";
     c_decimals := 18;
     c_apiEndpoint := "https://a.example/api";
     c_apiType := "etherscan";
     c_fallbackEndpoints := Some ["https://b.example/api"; "https://c.example/api"];
     c_explorerUrl := "https://etherscan.io" |}.

Definition cosmoshub : ChainConfig :=
  {| c_id := "cosmos"; c_name := "Cosmos Hub"; c_symbol := "ATOM";
     c_decimals := 6;
     c_apiEndpoint := "https://a.example";
     c_apiType := "mintscan";
     c_fallbackEndpoints := Some ["https://b.example"; "https://c.example"];
     c_explorerUrl := "https://www.mintscan.io/cosmos" |}.

Definition tron : ChainConfig :=
  {| c_id := "tron"; c_name := "TRON"; c_symbol := "TRX";
     c_decimals := 6;
     c_apiEndpoint := "https://apilist.tronscanapi.com/api";
     c_apiType := "custom";
     c_fallbackEndpoints := Some ["https://b.example/api"];
     c_explorerUrl := "https://tronscan.org" |}.

Definition near : ChainConfig :=
  {| c_id := "near"; c_name := "NEAR"; c_symbol := "NEAR";
     c_decimals := 24;
     c_apiEndpoint := "https://api.nearblocks.io/v1";
     c_apiType := "custom";
     c_fallbackEndpoints := None;
     c_explorerUrl := "https://nearblocks.io" |}.

Definition registry (chainId : string) : option ChainConfig :=
  find (fun chain => String.eqb (c_id chain) chainId) [ethereum; cosmoshub; tron; near].

Definition down {A} (_ : Request) : JsResult A :=
  Throw (TypeError "Failed to fetch").

(** No provider answers. *)
Definition dead_network : Network :=
  {| etherscan_api := down; subscan_api := down; helius_api := down;
     solscan_api := down; cosmos_api := down; blockchain_info_api := down;
     blockstream_api := down; tronscan_api := down; nearblocks_api := down;
     sui_api := down; aptos_api := down |}.

Definition token_transfer : gmap string string :=
  list_to_map
    [("hash", "0xabc"); ("blockNumber", "100"); ("timeStamp", "1700000000");
     ("from", "0x01"); ("to", "0x02"); ("value", "1500000000000000000");
     ("gasUsed", "21000"); ("gasPrice", "1000000000");
     ("input", "0xa9059cbb000000000000000000000000")].

(** Only the endpoint [c.example] answers. *)
Definition third_endpoint_network : Network :=
  {| etherscan_api := fun req =>
       if String.prefix "https://c.example" (req_url req)
       then Ok {| es_status := "1"; es_message := "OK";
                  es_result := ResultArray [token_transfer] |}
       else Throw (TypeError "Failed to fetch");
     cosmos_api := fun req =>
       if String.prefix "https://c.example" (req_url req)
       then Ok {| cos_tx_responses := Some [];
                  cos_pagination := Some {| cp_total := "0" |} |}
       else Throw (TypeError "Failed to fetch");
     subscan_api := down; helius_api := down; solscan_api := down;
     blockchain_info_api := down; blockstream_api := down; tronscan_api := down;
     nearblocks_api := down; sui_api := down; aptos_api := down |}.

(** A record whose call data is the bare selector of [transfer]. *)
Definition bare_selector : gmap string string :=
  list_to_map [("hash", "0xabc"); ("input", "0xa9059cbb")].

End Sample.

(** ** Further vocabulary *)

(** The text the EVM fetcher puts in the error of a provider envelope:
    [typeof data.result === 'string' ? data.result : data.message], or the
    fixed text when that is empty. *)
Definition envelope_error_text (data : EtherscanData) : string :=
  let errorMsg :=
    match es_result data with
    | ResultString text => text
    | ResultArray _ => es_message data
    end in
  if truthy_string errorMsg then errorMsg else "Failed to fetch transactions".

(** The envelope is one the EVM fetcher takes for an error:
    [data.status !== '1' || !Array.isArray(data.result)]. *)
Definition error_envelope (data : EtherscanData) : Prop :=
  es_status data <> "1" \/ exists text, es_result data = ResultString text.

(** The types a producer of the module gives a transaction. *)
Definition produced_type (type : TxType) : bool :=
  match type with
  | transfer | contract | token | nft | stake | unstake | swap => true
  | internal | reward | other => false
  end.

(** The transaction carries the identity of the chain and a type that the
    module gives. *)
Definition labelled (chain : ChainConfig) (t : Transaction) : Prop :=
  tx_chainId t = c_id chain /\ tx_chainName t = c_name chain /\
  tx_symbol t = c_symbol chain /\ produced_type (tx_type t) = true.

(** The fetcher the dispatcher picks by chain id, before it looks at the
    API family. *)
Definition fetcher_by_id (chainId : string) : option Fetcher :=
  if String.eqb chainId "bitcoin" then Some Bitcoin
  else if String.eqb chainId "tron" then Some Tron
  else if String.eqb chainId "near" then Some Near
  else if String.eqb chainId "sui" then Some Sui
  else if String.eqb chainId "aptos" then Some Aptos
  else None.

(** The fetcher of an API family. *)
Definition fetcher_by_apiType (apiType : string) : option Fetcher :=
  if String.eqb apiType "etherscan" then Some EVM
  else if String.eqb apiType "subscan" then Some Substrate
  else if String.eqb apiType "solscan" then Some Solana
  else if String.eqb apiType "mintscan" then Some Cosmos
  else None.

Module Fixture.

Definition tron_transfer : TronTx :=
  {| tron_hash := "abc"; tron_block := 100; tron_timestamp := 1700000000000;
     tron_ownerAddress := "TA"; tron_toAddress := "TB"; tron_amount := 1500000;
     tron_cost := Some {| tron_cost_fee := 1000 |};
     tron_contractRet := "SUCCESS"; tron_contractType := 1 |}.

(** TronScan answers with one transfer, Etherscan with the envelope it
    sends for an address without transactions, Blockstream with five
    transactions; nothing else answers. *)
Definition network : Network :=
  {| tronscan_api := fun _ =>
       Ok {| tron_data := Some [tron_transfer]; tron_total := 1 |};
     etherscan_api := fun _ =>
       Ok {| es_status := "0"; es_message := "No transactions found";
             es_result := ResultArray [] |};
     blockstream_api := fun _ =>
       Ok (Some (map (fun txid =>
                        {| bs_txid := txid;
                           bs_status := {| bs_confirmed := true;
                                           bs_block_height := Some 800000;
                                           bs_block_time := Some 1700000000 |};
                           bs_fee := 1000; bs_vin := []; bs_vout := [] |})
                     ["t1"; "t2"; "t3"; "t4"; "t5"]));
     subscan_api := Sample.down; helius_api := Sample.down;
     solscan_api := Sample.down; cosmos_api := Sample.down;
     blockchain_info_api := Sample.down; nearblocks_api := Sample.down;
     sui_api := Sample.down; aptos_api := Sample.down |}.

Definition bitcoin : ChainConfig :=
  {| c_id := "bitcoin"; c_name := "Bitcoin"; c_symbol := "BTC";
     c_decimals := 8;
     c_apiEndpoint := "https://blockchain.info";
     c_apiType := "etherscan";
     c_fallbackEndpoints := None;
     c_explorerUrl := "https://blockchair.com/bitcoin" |}.

Definition single_endpoint_evm : ChainConfig :=
  {| c_id := "base"; c_name := "Base"; c_symbol := "ETH";
     c_decimals := 18;
     c_apiEndpoint := "https://api.basescan.org/api";
     c_apiType := "etherscan";
     c_fallbackEndpoints := None;
     c_explorerUrl := "https://basescan.org" |}.

Definition unsupported : ChainConfig :=
  {| c_id := "ton"; c_name := "TON"; c_symbol := "TON";
     c_decimals := 9;
     c_apiEndpoint := "https://toncenter.com/api";
     c_apiType := "custom";
     c_fallbackEndpoints := None;
     c_explorerUrl := "https://tonscan.org" |}.

Definition registry (chainId : string) : option ChainConfig :=
  find (fun chain => String.eqb (c_id chain) chainId)
    [Sample.tron; bitcoin; single_endpoint_evm; unsupported; Sample.near].

(** A transfer of one NEAR: the deposit is the double that the JSON
    number [1e24] denotes. *)
Definition near_transfer : NearTx :=
  {| near_transaction_hash := "9xyz"; near_included_in_block_hash := "blk";
     near_block_timestamp := "1700000000000000000";
     near_signer_account_id := "alice.near"; near_receiver_account_id := "bob.near";
     near_deposit := Some 999999999999999983222784;
     near_transaction_fee := Some 242800000000000000000;
     near_outcome_status := Some true |}.

Definition near_network : Network :=
  {| nearblocks_api := fun _ =>
       Ok {| near_txns := Some [near_transfer]; near_count := 1 |};
     etherscan_api := Sample.down; tronscan_api := Sample.down;
     blockstream_api := Sample.down;
     subscan_api := Sample.down; helius_api := Sample.down;
     solscan_api := Sample.down; cosmos_api := Sample.down;
     blockchain_info_api := Sample.down;
     sui_api := Sample.down; aptos_api := Sample.down |}.

Definition aptos_transfer : AptosTx :=
  {| apt_hash := "0xabc"; apt_version := "1"; apt_timestamp := "1700000000000000";
     apt_sender := "0x01"; apt_success := true;
     apt_gas_used := "7"; apt_gas_unit_price := "100" |}.

(** Aptos answers with one transaction although fifty are asked for. *)
Definition aptos_network : Network :=
  {| aptos_api := fun _ => Ok (Some [aptos_transfer]);
     nearblocks_api := Sample.down;
     etherscan_api := Sample.down; tronscan_api := Sample.down;
     blockstream_api := Sample.down;
     subscan_api := Sample.down; helius_api := Sample.down;
     solscan_api := Sample.down; cosmos_api := Sample.down;
     blockchain_info_api := Sample.down;
     sui_api := Sample.down |}.

End Fixture.

(** ** Known contracts and methods (known-contracts.ts) *)

Module KnownContracts.

Module ContractType.
Inductive t : Type := dex | lending | bridge | nft | staking | token | other.
End ContractType.

Record KnownContract : Type := {
  name : string;
  type : ContractType.t;
  description : option string;
}.

Record MethodInfo : Type := { method_name : string; action : string }.

Definition KNOWN_CONTRACTS : list (string * list (string * KnownContract)) :=
  [
    ("ethereum",
     [
       ("0x7a250d5630b4cf539739df2c5dacb4c659f2488d",
        {| name := "Uniswap V2 Router"; type := ContractType.dex; description := None |});
       ("0xe592427a0aece92de3edee1f18e0157c05861564",
        {| name := "Uniswap V3 Router"; type := ContractType.dex; description := None |});
       ("0x68b3465833fb72a70ecdf485e0e4c7bd8665fc45",
        {| name := "Uniswap Universal Router"; type := ContractType.dex; description := None |});
       ("0xdef1c0ded9bec7f1a1670819833240f027b25eff",
        {| name := "0x Exchange Proxy"; type := ContractType.dex; description := None |});
       ("0x1111111254eeb25477b68fb85ed929f73a960582",
        {| name := "1inch Router V5"; type := ContractType.dex; description := None |});
       ("0x881d40237659c251811cec9c364ef91dc08d300c",
        {| name := "Metamask Swap Router"; type := ContractType.dex; description := None |});
       ("0x7d2768de32b0b80b7a3454c06bdac94a69ddc7a9",
        {| name := "Aave V2 Pool"; type := ContractType.lending; description := None |});
       ("0x87870bca3f3fd6335c3f4ce8392d69350b4fa4e2",
        {| name := "Aave V3 Pool"; type := ContractType.lending; description := None |});
       ("0xc02aaa39b223fe8d0a0e5c4f27ead9083c756cc2",
        {| name := "WETH"; type := ContractType.token; description := None |});
       ("0xa0b86991c6218b36c1d19d4a2e9eb0ce3606eb48",
        {| name := "USDC"; type := ContractType.token; description := None |});
       ("0xdac17f958d2ee523a2206206994597c13d831ec7",
        {| name := "USDT"; type := ContractType.token; description := None |});
       ("0x6b175474e89094c44da98b954eedeac495271d0f",
        {| name := "DAI"; type := ContractType.token; description := None |});
       ("0x00000000006c3852cbef3e08e8df289169ede581",
        {| name := "OpenSea Seaport"; type := ContractType.nft; description := None |});
       ("0x7be8076f4ea4a4ad08075c2508e481d6c946d12b",
        {| name := "OpenSea (Legacy)"; type := ContractType.nft; description := None |});
       ("0x99c9fc46f92e8a1c0dec1b1747d010903e884be1",
        {| name := "Optimism Bridge"; type := ContractType.bridge; description := None |});
       ("0x8315177ab297ba92a06054ce80a67ed4dbd7ed3a",
        {| name := "Arbitrum Bridge"; type := ContractType.bridge; description := None |});
       ("0x32400084c286cf3e17e7b677ea9583e60a000324",
        {| name := "zkSync Bridge"; type := ContractType.bridge; description := None |});
       ("0xae7ab96520de3a18e5e111b5eaab095312d7fe84",
        {| name := "Lido stETH"; type := ContractType.staking; description := None |});
       ("0xbe0eb53f46cd790cd13851d5eff43d12404d33e8",
        {| name := "Binance Hot Wallet"; type := ContractType.other; description := None |}) ]);
    ("polygon",
     [
       ("0xa5e0829caced8ffdd4de3c43696c57f7d7a678ff",
        {| name := "QuickSwap Router"; type := ContractType.dex; description := None |});
       ("0x1b02da8cb0d097eb8d57a175b88c7d8b47997506",
        {| name := "SushiSwap Router"; type := ContractType.dex; description := None |});
       ("0xe592427a0aece92de3edee1f18e0157c05861564",
        {| name := "Uniswap V3 Router"; type := ContractType.dex; description := None |});
       ("0x68b3465833fb72a70ecdf485e0e4c7bd8665fc45",
        {| name := "Uniswap Universal Router"; type := ContractType.dex; description := None |});
       ("0x1111111254eeb25477b68fb85ed929f73a960582",
        {| name := "1inch Router V5"; type := ContractType.dex; description := None |});
       ("0x0d500b1d8e8ef31e21c99d1db9a6444d3adf1270",
        {| name := "WMATIC"; type := ContractType.token; description := None |});
       ("0x2791bca1f2de4661ed88a30c99a7a9449aa84174",
        {| name := "USDC.e"; type := ContractType.token; description := None |});
       ("0x3c499c542cef5e3811e1192ce70d8cc03d5c3359",
        {| name := "USDC"; type := ContractType.token; description := None |});
       ("0xc2132d05d31c914a87c6611c10748aeb04b58e8f",
        {| name := "USDT"; type := ContractType.token; description := None |});
       ("0x8f3cf7ad23cd3cadbd9735aff958023239c6a063",
        {| name := "DAI"; type := ContractType.token; description := None |});
       ("0x794a61358d6845594f94dc1db02a252b5b4814ad",
        {| name := "Aave V3 Pool"; type := ContractType.lending; description := None |}) ]);
    ("arbitrum",
     [
       ("0xe592427a0aece92de3edee1f18e0157c05861564",
        {| name := "Uniswap V3 Router"; type := ContractType.dex; description := None |});
       ("0x68b3465833fb72a70ecdf485e0e4c7bd8665fc45",
        {| name := "Uniswap Universal Router"; type := ContractType.dex; description := None |});
       ("0x1111111254eeb25477b68fb85ed929f73a960582",
        {| name := "1inch Router V5"; type := ContractType.dex; description := None |});
       ("0x1b02da8cb0d097eb8d57a175b88c7d8b47997506",
        {| name := "SushiSwap Router"; type := ContractType.dex; description := None |});
       ("0xc873fecbd354f5a56e00e710b90ef4201db2448d",
        {| name := "Camelot Router"; type := ContractType.dex; description := None |});
       ("0x82af49447d8a07e3bd95bd0d56f35241523fbab1",
        {| name := "WETH"; type := ContractType.token; description := None |});
       ("0xaf88d065e77c8cc2239327c5edb3a432268e5831",
        {| name := "USDC"; type := ContractType.token; description := None |});
       ("0xff970a61a04b1ca14834a43f5de4533ebddb5cc8",
        {| name := "USDC.e"; type := ContractType.token; description := None |});
       ("0xfd086bc7cd5c481dcc9c85ebe478a1c0b69fcbb9",
        {| name := "USDT"; type := ContractType.token; description := None |});
       ("0x794a61358d6845594f94dc1db02a252b5b4814ad",
        {| name := "Aave V3 Pool"; type := ContractType.lending; description := None |});
       ("0xc36442b4a4522e871399cd717abdd847ab11fe88",
        {| name := "Uniswap V3 Positions NFT"; type := ContractType.nft; description := None |});
       ("0x912ce59144191c1204e64559fe8253a0e49e6548",
        {| name := "ARB Token"; type := ContractType.token; description := None |}) ]);
    ("optimism",
     [
       ("0xe592427a0aece92de3edee1f18e0157c05861564",
        {| name := "Uniswap V3 Router"; type := ContractType.dex; description := None |});
       ("0x68b3465833fb72a70ecdf485e0e4c7bd8665fc45",
        {| name := "Uniswap Universal Router"; type := ContractType.dex; description := None |});
       ("0x1111111254eeb25477b68fb85ed929f73a960582",
        {| name := "1inch Router V5"; type := ContractType.dex; description := None |});
       ("0x4200000000000000000000000000000000000042",
        {| name := "OP Token"; type := ContractType.token; description := None |});
       ("0x4200000000000000000000000000000000000006",
        {| name := "WETH"; type := ContractType.token; description := None |});
       ("0x0b2c639c533813f4aa9d7837caf62653d097ff85",
        {| name := "USDC"; type := ContractType.token; description := None |});
       ("0x7f5c764cbc14f9669b88837ca1490cca17c31607",
        {| name := "USDC.e"; type := ContractType.token; description := None |});
       ("0x94b008aa00579c1307b0ef2c499ad98a8ce58e58",
        {| name := "USDT"; type := ContractType.token; description := None |});
       ("0x794a61358d6845594f94dc1db02a252b5b4814ad",
        {| name := "Aave V3 Pool"; type := ContractType.lending; description := None |});
       ("0x9c4ec768c28520b50860ea7a15bd7213a9ff58bf",
        {| name := "Velodrome Router"; type := ContractType.dex; description := None |}) ]);
    ("base",
     [
       ("0x2626664c2603336e57b271c5c0b26f421741e481",
        {| name := "Uniswap Universal Router"; type := ContractType.dex; description := None |});
       ("0x1111111254eeb25477b68fb85ed929f73a960582",
        {| name := "1inch Router V5"; type := ContractType.dex; description := None |});
       ("0x4200000000000000000000000000000000000006",
        {| name := "WETH"; type := ContractType.token; description := None |});
       ("0x833589fcd6edb6e08f4c7c32d4f71b54bda02913",
        {| name := "USDC"; type := ContractType.token; description := None |});
       ("0xd9aaec86b65d86f6a7b5b1b0c42ffa531710b6ca",
        {| name := "USDbC"; type := ContractType.token; description := None |});
       ("0xcf205808ed36593aa40a44f10c7f7c2f67d4a4d4",
        {| name := "Aerodrome Router"; type := ContractType.dex; description := None |}) ]);
    ("bsc",
     [
       ("0x10ed43c718714eb63d5aa57b78b54704e256024e",
        {| name := "PancakeSwap V2 Router"; type := ContractType.dex; description := None |});
       ("0x13f4ea83d0bd40e75c8222255bc855a974568dd4",
        {| name := "PancakeSwap V3 Router"; type := ContractType.dex; description := None |});
       ("0x1111111254eeb25477b68fb85ed929f73a960582",
        {| name := "1inch Router V5"; type := ContractType.dex; description := None |});
       ("0xbb4cdb9cbd36b01bd1cbaebf2de08d9173bc095c",
        {| name := "WBNB"; type := ContractType.token; description := None |});
       ("0x8ac76a51cc950d9822d68b83fe1ad97b32cd580d",
        {| name := "USDC"; type := ContractType.token; description := None |});
       ("0x55d398326f99059ff775485246999027b3197955",
        {| name := "USDT"; type := ContractType.token; description := None |});
       ("0xe9e7cea3dedca5984780bafc599bd69add087d56",
        {| name := "BUSD"; type := ContractType.token; description := None |});
       ("0x0e09fabb73bd3ade0a17ecc321fd13a19e81ce82",
        {| name := "CAKE Token"; type := ContractType.token; description := None |}) ]);
    ("avalanche",
     [
       ("0x60ae616a2155ee3d9a68541ba4544862310933d4",
        {| name := "TraderJoe Router"; type := ContractType.dex; description := None |});
       ("0xe54ca86531e17ef3616d22ca28b0d458b6c89106",
        {| name := "Pangolin Router"; type := ContractType.dex; description := None |});
       ("0x1111111254eeb25477b68fb85ed929f73a960582",
        {| name := "1inch Router V5"; type := ContractType.dex; description := None |});
       ("0xb31f66aa3c1e785363f0875a1b74e27b85fd66c7",
        {| name := "WAVAX"; type := ContractType.token; description := None |});
       ("0xb97ef9ef8734c71904d8002f8b6bc66dd9c48a6e",
        {| name := "USDC"; type := ContractType.token; description := None |});
       ("0xa7d7079b0fead91f3e65f86e8915cb59c1a4c664",
        {| name := "USDC.e"; type := ContractType.token; description := None |});
       ("0x9702230a8ea53601f5cd2dc00fdbc13d4df4a8c7",
        {| name := "USDT"; type := ContractType.token; description := None |});
       ("0x794a61358d6845594f94dc1db02a252b5b4814ad",
        {| name := "Aave V3 Pool"; type := ContractType.lending; description := None |}) ]);
    ("solana",
     [
       ("JUP6LkbZbjS1jKKwapdHNy74zcZ3tLUZoi5QNyVTaV4",
        {| name := "Jupiter Aggregator"; type := ContractType.dex; description := None |});
       ("675kPX9MHTjS2zt1qfr1NYHuzeLXfQM9H24wFSUt1Mp8",
        {| name := "Raydium AMM"; type := ContractType.dex; description := None |});
       ("whirLbMiicVdio4qvUfM5KAg6Ct8VwpYzGff3uctyCc",
        {| name := "Orca Whirlpool"; type := ContractType.dex; description := None |});
       ("MarBmsSgKXdrN1egZf5sqe1TMai9K1rChYNDJgjq7aD",
        {| name := "Marinade Finance"; type := ContractType.staking; description := None |});
       ("So11111111111111111111111111111111111111112",
        {| name := "Wrapped SOL"; type := ContractType.token; description := None |});
       ("EPjFWdd5AufqSSqeM2qN1xzybapC8G4wEGGkZwyTDt1v",
        {| name := "USDC"; type := ContractType.token; description := None |});
       ("Es9vMFrzaCERmJfrF4H2FYD4KCoNkY11McCe8BenwNYB",
        {| name := "USDT"; type := ContractType.token; description := None |}) ]) ].

Definition KNOWN_METHODS : list (string * MethodInfo) :=
  [
    ("0xa9059cbb", {| method_name := "transfer"; action := "Token Transfer" |});
    ("0x23b872dd", {| method_name := "transferFrom"; action := "Token Transfer" |});
    ("0x095ea7b3", {| method_name := "approve"; action := "Token Approval" |});
    ("0x3593564c", {| method_name := "execute"; action := "Swap" |});
    ("0x5ae401dc", {| method_name := "multicall"; action := "Multi-call" |});
    ("0x38ed1739", {| method_name := "swapExactTokensForTokens"; action := "Swap" |});
    ("0x8803dbee", {| method_name := "swapTokensForExactTokens"; action := "Swap" |});
    ("0x7ff36ab5", {| method_name := "swapExactETHForTokens"; action := "Swap" |});
    ("0x18cbafe5", {| method_name := "swapExactTokensForETH"; action := "Swap" |});
    ("0xfb3bdb41", {| method_name := "swapETHForExactTokens"; action := "Swap" |});
    ("0x4a25d94a", {| method_name := "swapTokensForExactETH"; action := "Swap" |});
    ("0xe8e33700", {| method_name := "addLiquidity"; action := "Add Liquidity" |});
    ("0xf305d719", {| method_name := "addLiquidityETH"; action := "Add Liquidity" |});
    ("0xbaa2abde", {| method_name := "removeLiquidity"; action := "Remove Liquidity" |});
    ("0x02751cec", {| method_name := "removeLiquidityETH"; action := "Remove Liquidity" |});
    ("0x2e1a7d4d", {| method_name := "withdraw"; action := "Withdraw" |});
    ("0xd0e30db0", {| method_name := "deposit"; action := "Deposit" |});
    ("0xa694fc3a", {| method_name := "stake"; action := "Stake" |});
    ("0x2e17de78", {| method_name := "unstake"; action := "Unstake" |});
    ("0x4e71d92d", {| method_name := "claim"; action := "Claim Rewards" |});
    ("0x3d18b912", {| method_name := "getReward"; action := "Claim Rewards" |});
    ("0xe449022e", {| method_name := "uniswapV3Swap"; action := "Swap" |});
    ("0x0502b1c5", {| method_name := "unoswap"; action := "Swap" |});
    ("0x12aa3caf", {| method_name := "swap"; action := "Swap" |});
    ("0x42842e0e", {| method_name := "safeTransferFrom"; action := "NFT Transfer" |});
    ("0xb88d4fde", {| method_name := "safeTransferFrom"; action := "NFT Transfer" |});
    ("0xfb0f3ee1", {| method_name := "fulfillBasicOrder"; action := "NFT Purchase" |});
    ("0x00000000", {| method_name := "Contract Creation"; action := "Deploy Contract" |}) ].

(** The result of [getKnownContract]. When [chainId] names a member of
    [Object.prototype] the function goes on to read a property of that
    built-in object; the result is then [Foreign], whatever it is. *)
Inductive ContractLookup : Type :=
| Contract (c : KnownContract)
| Foreign
| Null.

(** known-contracts.ts, lines 144-148 *)
Definition getKnownContract (chainId address : string) : ContractLookup :=
  match JsObject.get KNOWN_CONTRACTS chainId with
  | JsObject.Undefined => Null
  | JsObject.Inherited _ => Foreign
  | JsObject.Own chainContracts =>
      match JsObject.get chainContracts (toLowerCase address) with
      | JsObject.Own c => Contract c
      | JsObject.Inherited _ => Foreign
      | JsObject.Undefined => Null
      end
  end.

(** known-contracts.ts, lines 151-155; [Undefined] is the [null] of the
    source. *)
Definition getMethodInfo (methodId : string) : JsObject.Member MethodInfo :=
  if negb (truthy_string methodId) || (String.length methodId <? 10)%nat then JsObject.Undefined
  else JsObject.get KNOWN_METHODS (toLowerCase (slice0 10 methodId)).

End KnownContracts.

(** ** CSV export (csv-export.ts) *)

Module Csv.

Definition dquote : ascii := "034"%char.
Definition newline : ascii := "010"%char.

(** [xs.join(sep)] on an array of strings. *)
Fixpoint join (sep : string) (xs : list string) : string :=
  match xs with
  | [] => ""
  | [x] => x
  | x :: rest => x +:+ sep +:+ join sep rest
  end.

(** A template literal that wraps [s] in double quotes. *)
Definition quoted (s : string) : string := String dquote (s +:+ String dquote "").

(** [s.replace] of every double quote by two of them. *)
Fixpoint escape (s : string) : string :=
  match s with
  | "" => ""
  | String c s' =>
      if Ascii.eqb c dquote then String dquote (String dquote (escape s'))
      else String c (escape s')
  end.

Section Generator.

(** [String(m)] for a member [m] of [Object.prototype], which the
    implementation defines. *)
Variable builtin_text : string -> string.

(** A row of the export: an object whose values are strings. *)
Definition Row : Type := list (string * string).

(** [String(row[header])] *)
Definition cell (row : Row) (header : string) : string :=
  match JsObject.get row header with
  | JsObject.Own value => value
  | JsObject.Inherited key => builtin_text key
  | JsObject.Undefined => "undefined"
  end.

(** csv-export.ts, lines 104-124 *)
Definition generateCSV (rows : list Row) : string :=
  match rows with
  | [] => ""
  | first :: _ =>
      let headers := map fst first in
      join (String newline "")
        (join "," (map quoted headers)
         :: map (fun row =>
                   join "," (map (fun header => quoted (escape (cell row header)))
                               headers))
              rows)
  end.

End Generator.

(** A reader of the files of RFC 4180 whose every field is quoted:
    fields between double quotes, a double quote inside a field written
    twice, fields separated by commas and records by line feeds. It is the
    reference the export is compared with, not part of the sources. *)
Inductive ReaderState : Type := AtField | InField | AfterQuote.

Fixpoint read (s : string) (st : ReaderState) (field : string)
    (record : list string) (records : list (list string))
  : option (list (list string)) :=
  match s with
  | "" =>
      match st with
      | AfterQuote => Some (records ++ [record ++ [field]])%list
      | _ => None
      end
  | String c s' =>
      match st with
      | AtField => if Ascii.eqb c dquote then read s' InField "" record records else None
      | InField =>
          if Ascii.eqb c dquote then read s' AfterQuote field record records
          else read s' InField (field +:+ String c "") record records
      | AfterQuote =>
          if Ascii.eqb c dquote
          then read s' InField (field +:+ String dquote "") record records
          else if Ascii.eqb c ","
          then read s' AtField "" (record ++ [field])%list records
          else if Ascii.eqb c newline
          then read s' AtField "" [] (records ++ [record ++ [field]])%list
          else None
      end
  end.

Definition read_csv (s : string) : option (list (list string)) :=
  read s AtField "" [] [].

End Csv.

(** *** The rows of the Awakens format (csv-export.ts, lines 5-102) *)

Module Awakens.

(** The names of the members of [Transaction['type']]. *)
Definition type_name (t : TxType) : string :=
  match t with
  | transfer => "transfer" | contract => "contract" | internal => "internal"
  | token => "token" | nft => "nft" | stake => "stake" | unstake => "unstake"
  | reward => "reward" | swap => "swap" | other => "other"
  end.

Definition upper_ascii (c : ascii) : ascii :=
  let n := nat_of_ascii c in
  if (97 <=? n)%nat && (n <=? 122)%nat then ascii_of_nat (n - 32) else c.

(** [s.charAt(0).toUpperCase() + s.slice(1)] *)
Definition capitalize (s : string) : string :=
  match s with
  | "" => ""
  | String c s' => String (upper_ascii c) s'
  end.

(** [s.replace(a, b)] for one-character strings: the first [a] only. *)
Fixpoint replace_first (a b : ascii) (s : string) : string :=
  match s with
  | "" => ""
  | String c s' => if Ascii.eqb c a then String b s' else String c (replace_first a b s')
  end.

(** [x * k] for a positive integer [k]: the product, rounded to a double. *)
Definition times (x : Number) (k : Z) : Number :=
  match x with
  | Finite z =>
      let d := round_nearest_even (Z.abs (z * k)) in
      if 2 ^ 1024 <=? d then (if z <? 0 then NegInfinity else Infinity)
      else Finite (if z <? 0 then - d else d)
  | special => special
  end.

(** The keys of a row, in the order the object literal lists them. *)
Definition HEADERS : list string :=
  [ "Date"; "Type"; "Sent Currency"; "Sent Amount"; "Sent Cost Basis";
    "Received Currency"; "Received Amount"; "Received Cost Basis";
    "Fee Currency"; "Fee Amount"; "Description"; "TxHash"; "Blockchain";
    "Wallet Address" ].

Section Rows.

(** The registry lookup of [chains.ts], which is not part of the sources
    at hand. *)
Variable getChainById : string -> option ChainConfig.

(** [new Date(ms).toISOString()] for a time value within the range of
    [Date], which the platform computes. *)
Variable toISOString : Z -> string.

(** [tx.tokenSymbol] and [tx.tokenAmount], optional fields of the type
    that no fetcher of the module sets. *)
Variables tokenSymbol tokenAmount : Transaction -> option string.

(** [new Date(parseInt(timestamp) * 1000).toISOString().replace('T', ' ')
    .substring(0, 19)]; [toISOString] throws on an invalid date. *)
Definition formattedDate (timestamp : string) : JsResult string :=
  match times (parseInt timestamp) 1000 with
  | Finite ms =>
      if Z.abs ms <=? 8640000000000000
      then Ok (slice0 19 (replace_first "T" " " (toISOString ms)))
      else Throw (RangeError "Invalid time value")
  | _ => Throw (RangeError "Invalid time value")
  end.

Definition awakens_type (type : TxType) (isOutgoing : bool) : string :=
  match type with
  | transfer => if isOutgoing then "Send" else "Receive"
  | swap => "Trade"
  | stake => "Stake"
  | unstake => "Unstake"
  | reward => "Staking Reward"
  | contract => "Contract Interaction"
  | token => if isOutgoing then "Send" else "Receive"
  | nft => if isOutgoing then "NFT Send" else "NFT Receive"
  | internal | other => "Other"
  end.

Definition is_swap (type : TxType) : bool :=
  match type with swap => true | _ => false end.

Definition is_transfer (type : TxType) : bool :=
  match type with transfer => true | _ => false end.

(** The callback of [transactions.map]. *)
Definition row_of (walletAddress : string) (tx : Transaction) : JsResult Csv.Row :=
  let chain := getChainById (tx_chainId tx) in
  let isOutgoing := String.eqb (toLowerCase (tx_from tx)) (toLowerCase walletAddress) in
  let isIncoming := String.eqb (toLowerCase (tx_to tx)) (toLowerCase walletAddress) in
  let type := awakens_type (tx_type tx) isOutgoing in
  rbind (formattedDate (tx_timestamp tx)) (fun formattedDate =>
    let currency := or_default (tokenSymbol tx) (tx_symbol tx) in
    let amount := or_default (tokenAmount tx) (tx_valueFormatted tx) in
    let sentCurrency :=
      if is_swap (tx_type tx) then tx_symbol tx
      else if isOutgoing then currency else "" in
    let sentAmount :=
      if is_swap (tx_type tx) then tx_valueFormatted tx
      else if isOutgoing then amount else "" in
    let receivedCurrency :=
      if is_swap (tx_type tx) then or_default (tokenSymbol tx) "UNKNOWN"
      else if isIncoming then currency else "" in
    let receivedAmount :=
      if is_swap (tx_type tx) then or_default (tokenAmount tx) "0"
      else if isIncoming then amount else "" in
    let description :=
      if truthy_opt (tx_method tx) then default "" (tx_method tx)
      else if is_transfer (tx_type tx)
      then (if isOutgoing
            then "Sent to " +:+ slice0 10 (tx_to tx) +:+ "..."
            else "Received from " +:+ slice0 10 (tx_from tx) +:+ "...")
      else capitalize (type_name (tx_type tx)) in
    Ok [ ("Date", formattedDate);
         ("Type", type);
         ("Sent Currency", sentCurrency);
         ("Sent Amount", sentAmount);
         ("Sent Cost Basis", "");
         ("Received Currency", receivedCurrency);
         ("Received Amount", receivedAmount);
         ("Received Cost Basis", "");
         ("Fee Currency", tx_symbol tx);
         ("Fee Amount", tx_feeFormatted tx);
         ("Description", description);
         ("TxHash", tx_hash tx);
         ("Blockchain",
          match chain with
          | Some c => if truthy_string (c_name c) then c_name c else tx_chainName tx
          | None => tx_chainName tx
          end);
         ("Wallet Address", walletAddress) ]).

Definition transactionsToAwakensFormat (transactions : list Transaction)
    (walletAddress : string) : JsResult (list Csv.Row) :=
  rmap (row_of walletAddress) transactions.

(** The text that [downloadCSV] puts in the file. *)
Definition csvContent (builtin_text : string -> string)
    (transactions : list Transaction) (walletAddress : string) : JsResult string :=
  rbind (transactionsToAwakensFormat transactions walletAddress)
    (fun awakensRows => Ok (Csv.generateCSV builtin_text awakensRows)).

End Rows.

End Awakens.

(* ===================================================================== *)
(** * Part III. Properties                                                *)
(* ===================================================================== *)

(** ** The fetch monad *)

Lemma try_catch_rethrow {A} (body : M A) :
  forall log, try_catch body (fun error => mthrow error) log = body log.
Proof.
  intros log. unfold try_catch, mthrow.
  destruct (body log) as [[a | e] log']; reflexivity.
Qed.

Lemma fetch_then_lift {A B} (api : Request -> JsResult A) (req : Request)
    (k : A -> JsResult B) (log : list Request) :
  mbind (fetch_json api req) (fun data => lift (k data)) log
  = (rbind (api req) k, (log ++ [req])%list).
Proof.
  unfold mbind, fetch_json, lift, rbind.
  destruct (api req); reflexivity.
Qed.

(** A fetcher that makes a single attempt issues one request and ends as
    the attempt does. *)
Lemma single_attempt {A} (api : Request -> JsResult A) (req : Request)
    (response : A -> JsResult TransactionResponse) (log : list Request) :
  try_catch (mbind (fetch_json api req) (fun data => lift (response data)))
    (fun error => mthrow error) log
  = (attempt api req response, (log ++ [req])%list).
Proof. rewrite try_catch_rethrow. apply fetch_then_lift. Qed.

(** ** The fallback protocol of the EVM and Cosmos fetchers *)

Section Fallback.

Variable P : Platform.
Variable net : Network.
Variables (address : string) (chain : ChainConfig) (page limit : Z).

Lemma evm_try_run (i : nat) (log : list Request) :
  evm_try P net address chain page limit i log =
  (match evm_attempt P net address chain page limit i with
   | Ok response => Ok (Return response)
   | Throw error =>
       match lt_dec i (length (allEndpoints chain) - 1) with
       | left more => Ok (TailCall more)
       | right _ => Throw error
       end
   end, (log ++ [evm_request P address chain page limit i])%list).
Proof.
  unfold evm_try, evm_attempt, attempt, evm_request, evm_response.
  unfold try_catch, mbind, fetch_json, lift, mret, mthrow, rbind.
  destruct (etherscan_api net _) as [data | e]; simpl.
  - destruct (String.eqb (es_status data) "1"), (es_result data);
      try (destruct (lt_dec i _); reflexivity).
    destruct (rmap _ records); simpl; [reflexivity |].
    destruct (lt_dec i _); reflexivity.
  - destruct (lt_dec i _); reflexivity.
Qed.

Lemma cosmos_try_run (i : nat) (log : list Request) :
  cosmos_try P net address chain page limit i log =
  (match cosmos_attempt P net address chain page limit i with
   | Ok response => Ok (Return response)
   | Throw error =>
       match lt_dec i (length (allEndpoints chain) - 1) with
       | left more => Ok (TailCall more)
       | right _ => Throw error
       end
   end, (log ++ [cosmos_request address chain page limit i])%list).
Proof.
  unfold cosmos_try, cosmos_attempt, attempt, cosmos_request, cosmos_response.
  unfold try_catch, mbind, fetch_json, lift, mret, mthrow, rbind.
  destruct (cosmos_api net _) as [data | e]; simpl.
  - destruct (cos_tx_responses data) as [tx_responses |].
    + destruct (rmap _ tx_responses); simpl; [reflexivity |].
      destruct (lt_dec i _); reflexivity.
    + destruct (lt_dec i _); reflexivity.
  - destruct (lt_dec i _); reflexivity.
Qed.

(** From endpoint [i] on, the EVM fetcher is the retry protocol over the
    attempts against the endpoints [i], [i+1], ... of the list. *)
Lemma fetchEVM_from (n i : nat) (log : list Request) :
  (i + n = length (allEndpoints chain) - 1)%nat ->
  fetchEVMTransactions P net address chain page limit i log
  = run_schedule (evm_attempt_at P net address chain page limit i)
      (map (evm_attempt_at P net address chain page limit) (seq (S i) n)) log.
Proof.
  revert i log. induction n as [| n IH]; intros i log Hn;
    rewrite fetchEVMTransactions_equation_1, evm_try_run;
    unfold evm_attempt_at at 1; simpl;
    destruct (evm_attempt P net address chain page limit i) as [r | e]; simpl;
    try reflexivity;
    destruct (lt_dec i _) as [more | last]; simpl; try reflexivity;
    try (exfalso; unfold allEndpoints in *; simpl in *; lia).
  apply IH. lia.
Qed.

Lemma fetchCosmos_from (n i : nat) (log : list Request) :
  (i + n = length (allEndpoints chain) - 1)%nat ->
  fetchCosmosTransactions P net address chain page limit i log
  = run_schedule (cosmos_attempt_at P net address chain page limit i)
      (map (cosmos_attempt_at P net address chain page limit) (seq (S i) n)) log.
Proof.
  revert i log. induction n as [| n IH]; intros i log Hn;
    rewrite fetchCosmosTransactions_equation_1, cosmos_try_run;
    unfold cosmos_attempt_at at 1; simpl;
    destruct (cosmos_attempt P net address chain page limit i) as [r | e]; simpl;
    try reflexivity;
    destruct (lt_dec i _) as [more | last]; simpl; try reflexivity;
    try (exfalso; unfold allEndpoints in *; simpl in *; lia).
  apply IH. lia.
Qed.

(** Every fetcher is the retry protocol over its own schedule. *)
Lemma run_follows_schedule (f : Fetcher) (log : list Request) :
  run P net f address chain page limit log
  = run_schedule (first_attempt P net f address chain page limit)
      (later_attempts P net f address chain page limit) log.
Proof.
  destruct f; simpl.
  - apply fetchEVM_from. unfold allEndpoints. simpl. lia.
  - unfold fetchSubstrateTransactions. rewrite single_attempt.
    destruct (attempt _ _ _); reflexivity.
  - unfold fetchSolanaTransactions.
    destruct (truthy_opt (env P "VITE_HELIUS_API_KEY"));
      rewrite single_attempt; simpl; destruct (attempt _ _ _); reflexivity.
  - apply fetchCosmos_from. unfold allEndpoints. simpl. lia.
  - unfold fetchBitcoinTransactions, fetchBitcoinFallback. simpl.
    unfold try_catch at 1. rewrite fetch_then_lift.
    fold (attempt (blockchain_info_api net) (blockchain_info_request address page limit)
            (blockchain_info_response P address chain page limit)).
    destruct (attempt (blockchain_info_api net) _ _); simpl; [reflexivity |].
    rewrite single_attempt. destruct (attempt _ _ _); reflexivity.
  - unfold fetchTronTransactions. rewrite single_attempt.
    destruct (attempt _ _ _); reflexivity.
  - unfold fetchNearTransactions. rewrite single_attempt.
    destruct (attempt _ _ _); reflexivity.
  - unfold fetchSuiTransactions. rewrite single_attempt.
    destruct (attempt _ _ _); reflexivity.
  - unfold fetchAptosTransactions. rewrite single_attempt.
    destruct (attempt _ _ _); reflexivity.
Qed.

End Fallback.

(** ** The retry protocol *)

Lemma last_cons {A} (l : list A) :
  forall b a : A, List.last (b :: l) a = List.last l b.
Proof.
  induction l as [| c l IH]; intros b a; [reflexivity |].
  change (List.last (c :: l) a = List.last (c :: l) b).
  rewrite !IH. reflexivity.
Qed.


Lemma run_schedule_first_success (failing : list Attempt) :
  forall (a c : Attempt) (later : list Attempt) (response : TransactionResponse)
         (log : list Request),
    Forall failed_attempt (List.removelast (a :: failing)) ->
    List.last failing a = c ->
    snd c = Ok response ->
    run_schedule a (failing ++ later) log
    = (Ok response, (log ++ map fst (a :: failing))%list).
Proof.
  induction failing as [| b failing IH]; intros a c later response log Hfail Hlast Hc.
  - simpl in Hlast. subst c. destruct a as [req out]. simpl in *. subst out.
    destruct later; reflexivity.
  - simpl in Hfail. inversion Hfail as [| ? ? [e He] Hrest]; subst.
    simpl. rewrite He.
    rewrite last_cons in Hc.
    rewrite (IH b (List.last failing b) later response); auto.
    simpl. rewrite <- app_assoc. reflexivity.
Qed.

Lemma run_schedule_resolved (later : list Attempt) :
  forall (a : Attempt) (log log' : list Request) (response : TransactionResponse),
    run_schedule a later log = (Ok response, log') ->
    exists b, In b (a :: later) /\ snd b = Ok response.
Proof.
  induction later as [| b later IH]; intros a log log' response Hrun.
  - simpl in Hrun. destruct (snd a) eqn:Ha; inversion Hrun; subst.
    exists a. simpl. auto.
  - simpl in Hrun. destruct (snd a) eqn:Ha.
    + inversion Hrun; subst. exists a. simpl. auto.
    + apply IH in Hrun. destruct Hrun as [c [Hin Hc]].
      exists c. split; [right; exact Hin | exact Hc].
Qed.

(** ** What a resolved response looks like *)

(** An invariant of responses that every response function establishes
    through [respond]. *)
Ltac open_response :=
  unfold attempt, rbind in *;
  repeat (simplify_eq; simpl in *;
          match goal with
          | H : context [match ?x with _ => _ end] |- _ => destruct x eqn:?
          end);
  simplify_eq.

Section Responses.

Variable P : Platform.
Variable net : Network.
Variables (address : string) (chain : ChainConfig) (page limit : Z).

(** Whatever a scheduled attempt resolves with was built by [respond]
    from transactions that the parser of the fetcher accepted. *)
Lemma scheduled_attempt_resolved (f : Fetcher) (a : Attempt) (response : TransactionResponse) :
  In a (schedule P net f address chain page limit) ->
  snd a = Ok response ->
  exists total, response = respond (transactions response) total page limit.
Proof.
  intros Hin Ha.
  assert (Hcases :
    a = first_attempt P net f address chain page limit \/
    In a (later_attempts P net f address chain page limit)) by (destruct Hin; auto).
  clear Hin.
  destruct f; simpl in Hcases;
    repeat match goal with
    | H : _ \/ _ |- _ => destruct H
    | H : In _ (map _ _) |- _ => apply in_map_iff in H; destruct H as [? [? _]]
    | H : In _ [] |- _ => destruct H
    | H : False |- _ => destruct H
    end; subst a;
    try (destruct (truthy_opt (env P "VITE_HELIUS_API_KEY")));
    simpl in Ha;
    unfold evm_attempt, cosmos_attempt, evm_response, cosmos_response,
      subscan_response, helius_response, solscan_response,
      blockchain_info_response, blockstream_response, tron_response,
      near_response, sui_response, aptos_response in Ha;
    open_response; eexists; reflexivity.
Qed.

End Responses.

(** ** The claims about the fetchers *)

Lemma schedule_three_endpoints P net f address chain page limit (A B C : string) :
  uses_endpoint_list f = true ->
  allEndpoints chain = [A; B; C] ->
  schedule P net f address chain page limit
  = [endpoint_attempt P net f address chain page limit 0;
     endpoint_attempt P net f address chain page limit 1;
     endpoint_attempt P net f address chain page limit 2].
Proof.
  intros Hf Hends. unfold endpoint_attempt, schedule, later_attempts.
  destruct f; try discriminate; rewrite Hends; reflexivity.
Qed.

(** C2. For a fetcher that keeps the ordered endpoint list (the EVM and
    the Cosmos fetcher) and a chain whose list is [A; B; C]: when the
    attempts against A and B fail, whatever the failure, and the attempt
    against C succeeds, the call resolves with the response built from the
    answer of C, after exactly the three requests, and throws nothing. *)
Theorem fallback_reaches_third_endpoint
    (P : Platform) (net : Network) (f : Fetcher) (address : string)
    (chain : ChainConfig) (page limit : Z) (A B C : string)
    (response : TransactionResponse) (log : list Request) :
  uses_endpoint_list f = true ->
  allEndpoints chain = [A; B; C] ->
  failed_attempt (endpoint_attempt P net f address chain page limit 0) ->
  failed_attempt (endpoint_attempt P net f address chain page limit 1) ->
  snd (endpoint_attempt P net f address chain page limit 2) = Ok response ->
  run P net f address chain page limit log
  = (Ok response,
     (log ++ [fst (endpoint_attempt P net f address chain page limit 0);
              fst (endpoint_attempt P net f address chain page limit 1);
              fst (endpoint_attempt P net f address chain page limit 2)])%list).
Proof.
  intros Hf Hends HA HB HC.
  pose proof (schedule_three_endpoints P net f address chain page limit A B C Hf Hends)
    as Hsched.
  rewrite run_follows_schedule. unfold schedule in Hsched.
  injection Hsched as Hlater. rewrite Hlater.
  change (endpoint_attempt P net f address chain page limit 0)
    with (first_attempt P net f address chain page limit) in *.
  set (a := first_attempt P net f address chain page limit) in *.
  set (b := endpoint_attempt P net f address chain page limit 1) in *.
  set (c := endpoint_attempt P net f address chain page limit 2) in *.
  change [b; c] with ([b; c] ++ [])%list.
  apply (run_schedule_first_success [b; c] a c []); auto.
  simpl. repeat constructor; assumption.
Qed.


Lemma fallback_reaches_third_endpoint_witness :
  exists response log',
    run Sample.platform Sample.third_endpoint_network EVM "0x01"
      Sample.ethereum 1 50 [] = (Ok response, log')
    /\ length log' = 3%nat
    /\ length (transactions response) = 1%nat.
Proof.
  eexists. eexists. split.
  - eapply (fallback_reaches_third_endpoint Sample.platform
              Sample.third_endpoint_network EVM "0x01" Sample.ethereum 1 50
              "https://a.example/api" "https://b.example/api" "https://c.example/api").
    + reflexivity.
    + reflexivity.
    + eexists. vm_compute. reflexivity.
    + eexists. vm_compute. reflexivity.
    + vm_compute. reflexivity.
  - split; reflexivity.
Defined.


(** C4, as stated, fails: the TRON fetcher makes a single attempt. On a
    chain that declares a fallback endpoint and a network that is down, it
    rejects after one request, with a fallback endpoint still untried. *)
Lemma tron_fetcher_does_not_retry : ~ retries_until_exhausted Tron.
Proof.
  intros Hclaim.
  specialize (Hclaim Sample.platform Sample.dead_network "TXYZ" Sample.tron 1 50 []
                (TypeError "Failed to fetch")
                [tron_request "TXYZ" 1 50]).
  simpl in Hclaim. discriminate Hclaim. reflexivity.
Qed.

(** C4, amended. Every fetcher is the retry protocol over its own
    schedule of attempts, and only the EVM and Cosmos fetchers schedule
    one attempt per endpoint of [[primaryEndpoint, ...fallbackEndpoints]]:
    the Bitcoin fetcher schedules two fixed providers, the Substrate,
    Solana, TRON, NEAR, Sui and Aptos fetchers a single attempt. A call
    that rejects has made every attempt of its schedule, and one that
    resolves at most as many. *)
Theorem fetchers_retry_over_their_schedule
    (P : Platform) (net : Network) (f : Fetcher) (address : string)
    (chain : ChainConfig) (page limit : Z) (log : list Request) :
  run P net f address chain page limit log
  = run_schedule (first_attempt P net f address chain page limit)
      (later_attempts P net f address chain page limit) log
  /\ length (schedule P net f address chain page limit) = attempts_made f chain
  /\ match run P net f address chain page limit log with
     | (Throw _, log') => length log' = (length log + attempts_made f chain)%nat
     | (Ok _, log') =>
         (length log < length log' <= length log + attempts_made f chain)%nat
     end.
Proof.
  assert (Hlen : length (schedule P net f address chain page limit)
                 = attempts_made f chain).
  { unfold schedule, attempts_made, allEndpoints.
    destruct f; simpl; rewrite ?length_map, ?length_seq; try reflexivity; lia. }
  split; [apply run_follows_schedule |]. split; [exact Hlen |].
  rewrite run_follows_schedule. rewrite <- Hlen. unfold schedule.
  generalize (first_attempt P net f address chain page limit) as a.
  generalize (later_attempts P net f address chain page limit) as later.
  clear Hlen. intros later. revert log.
  induction later as [| b later IH]; intros log a; simpl.
  - destruct (snd a); rewrite length_app; simpl; lia.
  - destruct (snd a).
    + rewrite length_app. simpl. lia.
    + specialize (IH (log ++ [fst a])%list b).
      destruct (run_schedule b later (log ++ [fst a])%list) as [[r' | e'] log'];
        rewrite length_app in IH; simpl in IH; simpl; lia.
Qed.

(** ** The dispatcher *)

Lemma prefix_nil (s : string) : String.prefix "" s = true.
Proof. destruct s; reflexivity. Qed.

Lemma prefix_app (t b : string) : String.prefix t (t +:+ b) = true.
Proof.
  induction t as [| c t IH]; [apply prefix_nil |].
  change (String c t +:+ b) with (String c (t +:+ b)). simpl.
  destruct (ascii_dec c c) as [_ | n]; [exact IH | contradiction].
Qed.

Lemma includes_prefix (t s : string) : String.prefix t s = true -> includes t s = true.
Proof.
  intros H. destruct s; unfold includes; fold includes; rewrite H; reflexivity.
Qed.

Lemma includes_middle (t a b : string) : includes t (a +:+ t +:+ b) = true.
Proof.
  induction a as [| c a IH].
  - change ("" +:+ t +:+ b) with (t +:+ b). apply includes_prefix, prefix_app.
  - change (String c a +:+ t +:+ b) with (String c (a +:+ t +:+ b)).
    simpl. rewrite IH. apply orb_true_r.
Qed.

(** C7. A chain id that the registry does not resolve makes
    [fetchTransactions] reject at once, whatever the address, the page,
    the limit and the mock flag: the error message contains the chain id,
    no request has been issued and no fetcher has run. *)
Theorem unknown_chain_rejects_before_any_request
    (P : Platform) (net : Network) (getChainById : string -> option ChainConfig)
    (address chainId : string) (page limit : Z) (useMock : bool)
    (log : list Request) :
  getChainById chainId = None ->
  fetchTransactions P net getChainById address chainId page limit useMock log
  = (Throw (Error ("Chain " +:+ chainId +:+ " not found")), log)
  /\ includes chainId ("Chain " +:+ chainId +:+ " not found") = true.
Proof.
  intros Hnone. split.
  - unfold fetchTransactions. rewrite Hnone. reflexivity.
  - apply includes_middle.
Qed.

Lemma unknown_chain_rejects_before_any_request_witness :
  fetchTransactions Sample.platform Sample.dead_network Sample.registry
    "0x01" "unknown-chain-id" 1 10 false []
  = (Throw (Error ("Chain " +:+ "unknown-chain-id" +:+ " not found")), [])
  /\ includes "unknown-chain-id" ("Chain " +:+ "unknown-chain-id" +:+ " not found") = true.
Proof.
  apply (unknown_chain_rejects_before_any_request Sample.platform
           Sample.dead_network Sample.registry "0x01" "unknown-chain-id" 1 10 false []).
  reflexivity.
Defined.

(** ** Formatted amounts *)

Lemma rbind_Ok {A B} (r : JsResult A) (k : A -> JsResult B) (b : B) :
  rbind r k = Ok b -> exists a, r = Ok a /\ k a = Ok b.
Proof. destruct r as [a | e]; simpl; [eauto | discriminate]. Qed.

Lemma rmap_Forall {A B} (f : A -> JsResult B) (Q : B -> Prop) :
  (forall x y, f x = Ok y -> Q y) ->
  forall xs ys, rmap f xs = Ok ys -> Forall Q ys.
Proof.
  intros Hf xs. induction xs as [| x xs IH]; intros ys H; simpl in H.
  - injection H as <-. constructor.
  - apply rbind_Ok in H as [y [Hy H]]. apply rbind_Ok in H as [ys' [Hys H]].
    injection H as <-. constructor; eauto.
Qed.

Lemma Forall_In {A} (Q : A -> Prop) (l : list A) (x : A) :
  Forall Q l -> In x l -> Q x.
Proof. intros H. apply (proj1 (List.Forall_forall Q l) H). Qed.

Lemma rmap_length {A B} (f : A -> JsResult B) :
  forall xs ys, rmap f xs = Ok ys -> length ys = length xs.
Proof.
  induction xs as [| x xs IH]; intros ys H; simpl in H.
  - injection H as <-. reflexivity.
  - apply rbind_Ok in H as [y [Hy H]]. apply rbind_Ok in H as [ys' [Hys H]].
    injection H as <-. simpl. f_equal. auto.
Qed.

Ltac invert_rbind H :=
  repeat (let a := fresh "a" in
          let Ha := fresh "Ha" in
          apply rbind_Ok in H as [a [Ha H]]).

(** The formatted amounts of a transaction are the raw ones, formatted
    with the decimals of the chain. *)
Definition formatted_from_raw (P : Platform) (chain : ChainConfig) (t : Transaction)
  : Prop :=
  formatValue P (tx_value t) (c_decimals chain) = Ok (tx_valueFormatted t) /\
  formatValue P (tx_fee t) (c_decimals chain) = Ok (tx_feeFormatted t).

Lemma formatValue_zero (P : Platform) (d : nat) : formatValue P "0" d = Ok "0".
Proof. reflexivity. Qed.

Lemma Ok_inj {A} (a b : A) : Ok a = Ok b -> a = b.
Proof. congruence. Qed.

(** When the mock generator returns, the length was an array length and
    the transactions are those of the callback. *)
Lemma generateMockTransactions_Ok (P : Platform) (address : string)
    (chain : ChainConfig) (count : Z) (ts : list Transaction) :
  generateMockTransactions P address chain count = Ok ts ->
  rmap (mockTransaction P address chain) (seq 0 (Z.to_nat count)) = Ok ts /\
  count < 2 ^ 32.
Proof.
  unfold generateMockTransactions.
  destruct (Z.leb_spec (2 ^ 32) count); [discriminate | auto].
Qed.

Ltac parser_formats H :=
  cbv zeta in H; invert_rbind H; apply Ok_inj in H; subst;
  split; cbn [tx_value tx_valueFormatted tx_fee tx_feeFormatted plain_transaction];
  lazymatch goal with
  | |- formatValue _ "0" _ = _ => apply formatValue_zero
  | _ => assumption
  end.

Section Parsers.

Variable P : Platform.
Variable chain : ChainConfig.

Lemma parseEtherscanTransaction_formats tx t :
  parseEtherscanTransaction P tx chain = Ok t -> formatted_from_raw P chain t.
Proof. unfold parseEtherscanTransaction. intros H. parser_formats H. Qed.

Lemma parseSubscanTransaction_formats tx t :
  parseSubscanTransaction P tx chain = Ok t -> formatted_from_raw P chain t.
Proof. unfold parseSubscanTransaction. intros H. parser_formats H. Qed.

Lemma parseSolscanTransaction_formats tx t :
  parseSolscanTransaction P tx chain = Ok t -> formatted_from_raw P chain t.
Proof. unfold parseSolscanTransaction. intros H. parser_formats H. Qed.

Lemma parseCosmosTransaction_formats tx t :
  parseCosmosTransaction P tx chain = Ok t -> formatted_from_raw P chain t.
Proof. unfold parseCosmosTransaction. intros H. parser_formats H. Qed.

Lemma parseHeliusTransaction_formats address tx t :
  parseHeliusTransaction P address chain tx = Ok t -> formatted_from_raw P chain t.
Proof. unfold parseHeliusTransaction. intros H. parser_formats H. Qed.

Lemma parseBlockchainInfoTransaction_formats address tx t :
  parseBlockchainInfoTransaction P address chain tx = Ok t ->
  formatted_from_raw P chain t.
Proof. unfold parseBlockchainInfoTransaction. intros H. parser_formats H. Qed.

Lemma parseBlockstreamTransaction_formats address tx t :
  parseBlockstreamTransaction P address chain tx = Ok t ->
  formatted_from_raw P chain t.
Proof. unfold parseBlockstreamTransaction. intros H. parser_formats H. Qed.

Lemma parseTronTransaction_formats tx t :
  parseTronTransaction P chain tx = Ok t -> formatted_from_raw P chain t.
Proof. unfold parseTronTransaction. intros H. parser_formats H. Qed.

Lemma parseNearTransaction_formats tx t :
  parseNearTransaction P chain tx = Ok t -> formatted_from_raw P chain t.
Proof. unfold parseNearTransaction. intros H. parser_formats H. Qed.

Lemma parseSuiTransaction_formats address tx t :
  parseSuiTransaction P address chain tx = Ok t -> formatted_from_raw P chain t.
Proof. unfold parseSuiTransaction. intros H. parser_formats H. Qed.

Lemma parseAptosTransaction_formats tx t :
  parseAptosTransaction P chain tx = Ok t -> formatted_from_raw P chain t.
Proof. unfold parseAptosTransaction. intros H. parser_formats H. Qed.

Lemma mockTransaction_formats address i t :
  mockTransaction P address chain i = Ok t -> formatted_from_raw P chain t.
Proof. unfold mockTransaction. intros H. parser_formats H. Qed.

End Parsers.

(** Picks the lemma of the parser at the head of the hypothesis. *)
Ltac parser_case H :=
  cbv beta in H;
  lazymatch type of H with
  | parseEtherscanTransaction _ _ _ = _ => exact (parseEtherscanTransaction_formats _ _ _ _ H)
  | parseSubscanTransaction _ _ _ = _ => exact (parseSubscanTransaction_formats _ _ _ _ H)
  | parseSolscanTransaction _ _ _ = _ => exact (parseSolscanTransaction_formats _ _ _ _ H)
  | parseCosmosTransaction _ _ _ = _ => exact (parseCosmosTransaction_formats _ _ _ _ H)
  | parseHeliusTransaction _ _ _ _ = _ =>
      exact (parseHeliusTransaction_formats _ _ _ _ _ H)
  | parseBlockchainInfoTransaction _ _ _ _ = _ =>
      exact (parseBlockchainInfoTransaction_formats _ _ _ _ _ H)
  | parseBlockstreamTransaction _ _ _ _ = _ =>
      exact (parseBlockstreamTransaction_formats _ _ _ _ _ H)
  | parseTronTransaction _ _ _ = _ => exact (parseTronTransaction_formats _ _ _ _ H)
  | parseNearTransaction _ _ _ = _ => exact (parseNearTransaction_formats _ _ _ _ H)
  | parseSuiTransaction _ _ _ _ = _ => exact (parseSuiTransaction_formats _ _ _ _ _ H)
  | parseAptosTransaction _ _ _ = _ => exact (parseAptosTransaction_formats _ _ _ _ H)
  | mockTransaction _ _ _ _ = _ => exact (mockTransaction_formats _ _ _ _ _ H)
  end.

Ltac parsed_list :=
  match goal with
  | H : rmap _ _ = Ok ?ts |- Forall _ ?ts =>
      let x := fresh "x" in
      let y := fresh "y" in
      let Hxy := fresh "Hxy" in
      eapply rmap_Forall; [| exact H]; intros x y Hxy; parser_case Hxy
  end.

Section Resolved.

Variable P : Platform.
Variable net : Network.
Variable getChainById : string -> option ChainConfig.
Variables (address : string) (chain : ChainConfig) (page limit : Z).

Lemma scheduled_attempt_formats (f : Fetcher) (a : Attempt) (response : TransactionResponse) :
  In a (schedule P net f address chain page limit) ->
  snd a = Ok response ->
  Forall (formatted_from_raw P chain) (transactions response).
Proof.
  intros Hin Ha.
  assert (Hcases :
    a = first_attempt P net f address chain page limit \/
    In a (later_attempts P net f address chain page limit)) by (destruct Hin; auto).
  clear Hin.
  destruct f; simpl in Hcases;
    repeat match goal with
    | H : _ \/ _ |- _ => destruct H
    | H : In _ (map _ _) |- _ => apply in_map_iff in H; destruct H as [? [? _]]
    | H : In _ [] |- _ => destruct H
    | H : False |- _ => destruct H
    end; subst a;
    try (destruct (truthy_opt (env P "VITE_HELIUS_API_KEY")));
    simpl in Ha;
    unfold evm_attempt, cosmos_attempt, evm_response, cosmos_response,
      subscan_response, helius_response, solscan_response,
      blockchain_info_response, blockstream_response, tron_response,
      near_response, sui_response, aptos_response in Ha;
    open_response; parsed_list.
Qed.

(** A response a fetcher resolves with comes from one attempt of its
    schedule. *)
Lemma run_resolved (f : Fetcher) (log log' : list Request) (response : TransactionResponse) :
  run P net f address chain page limit log = (Ok response, log') ->
  exists a, In a (schedule P net f address chain page limit) /\ snd a = Ok response.
Proof.
  rewrite run_follows_schedule. apply run_schedule_resolved.
Qed.

(** Past the registry lookup and off the mock path, the dispatcher runs
    one fetcher or rejects the chain. *)
Lemma dispatch (chainId : string) :
  getChainById chainId = Some chain ->
  (exists f, fetchTransactions P net getChainById address chainId page limit false
             = run P net f address chain page limit)
  \/ fetchTransactions P net getChainById address chainId page limit false
     = mthrow (Error (c_name chain +:+ " API not yet implemented. Check back soon!")).
Proof.
  intros Hchain. unfold fetchTransactions. rewrite Hchain. simpl.
  destruct (String.eqb (c_id chain) "bitcoin"); [left; exists Bitcoin; reflexivity |].
  destruct (String.eqb (c_id chain) "tron"); [left; exists Tron; reflexivity |].
  destruct (String.eqb (c_id chain) "near"); [left; exists Near; reflexivity |].
  destruct (String.eqb (c_id chain) "sui"); [left; exists Sui; reflexivity |].
  destruct (String.eqb (c_id chain) "aptos"); [left; exists Aptos; reflexivity |].
  destruct (String.eqb (c_apiType chain) "etherscan"); [left; exists EVM; reflexivity |].
  destruct (String.eqb (c_apiType chain) "subscan");
    [left; exists Substrate; reflexivity |].
  destruct (String.eqb (c_apiType chain) "solscan"); [left; exists Solana; reflexivity |].
  destruct (String.eqb (c_apiType chain) "mintscan"); [left; exists Cosmos; reflexivity |].
  right. reflexivity.
Qed.

End Resolved.

(** C9. Every transaction the module produces for a chain, be it the
    result of a parser or of the mock generator, or an element of a
    response resolved by a fetcher or by [fetchTransactions], carries
    [valueFormatted = formatValue(value, chain.decimals)] and
    [feeFormatted = formatValue(fee, chain.decimals)]. *)
Theorem formatted_amounts_derive_from_raw
    (P : Platform) (net : Network) (getChainById : string -> option ChainConfig)
    (chain : ChainConfig) (t : Transaction) :
  produced P net getChainById chain t ->
  formatValue P (tx_value t) (c_decimals chain) = Ok (tx_valueFormatted t) /\
  formatValue P (tx_fee t) (c_decimals chain) = Ok (tx_feeFormatted t).
Proof.
  intros Hp. change (formatted_from_raw P chain t).
  assert (Hmock : forall address count ts,
            generateMockTransactions P address chain count = Ok ts ->
            Forall (formatted_from_raw P chain) ts).
  { intros address count ts H. apply generateMockTransactions_Ok in H as [H _].
    parsed_list. }
  assert (Hrun : forall f address page limit log response log',
            run P net f address chain page limit log = (Ok response, log') ->
            Forall (formatted_from_raw P chain) (transactions response)).
  { intros f address page limit log response log' H.
    apply run_resolved in H as [a [Hin Ha]].
    eapply scheduled_attempt_formats; eauto. }
  destruct Hp as [tx t H | tx t H | tx t H | tx t H
                 | address count ts t H Hin
                 | f address page limit log response log' t H Hin
                 | address chainId page limit useMock log response log' t Hc H Hin];
    try parser_case H.
  - eapply Forall_In; [| exact Hin]. eapply Hmock; eauto.
  - eapply Forall_In; [| exact Hin]. eapply Hrun; eauto.
  - eapply Forall_In; [| exact Hin].
    destruct useMock.
    + unfold fetchTransactions in H. rewrite Hc in H.
      unfold mbind, lift, mret in H.
      destruct (generateMockTransactions P address chain limit) as [ts | e] eqn:Hgen;
        [| discriminate].
      injection H as <- _. simpl. eapply Hmock; eauto.
    + destruct (dispatch P net getChainById address chain page limit chainId Hc)
        as [[f Hf] | Hf]; rewrite Hf in H.
      * eapply Hrun; eauto.
      * discriminate.
Qed.

(** C10. A response that [fetchTransactions] resolves with, through a
    fetcher or through the mock path, echoes the [page] and the [limit] of
    the call. *)
Theorem response_echoes_page_and_limit
    (P : Platform) (net : Network) (getChainById : string -> option ChainConfig)
    (address chainId : string) (pageArg limitArg : Z) (useMock : bool)
    (log log' : list Request) (response : TransactionResponse) :
  fetchTransactions P net getChainById address chainId pageArg limitArg useMock log
  = (Ok response, log') ->
  page response = pageArg /\ limit response = limitArg.
Proof.
  intros H.
  destruct (getChainById chainId) as [chain |] eqn:Hc.
  - destruct useMock.
    + unfold fetchTransactions in H. rewrite Hc in H.
      unfold mbind, lift, mret in H.
      destruct (generateMockTransactions P address chain limitArg); [| discriminate].
      injection H as <- _. split; reflexivity.
    + destruct (dispatch P net getChainById address chain pageArg limitArg chainId Hc)
        as [[f Hf] | Hf]; rewrite Hf in H; [| discriminate].
      apply run_resolved in H as [a [Hin Ha]].
      destruct (scheduled_attempt_resolved P net address chain pageArg limitArg f a
                  response Hin Ha) as [total ->].
      split; reflexivity.
  - unfold fetchTransactions in H. rewrite Hc in H. discriminate.
Qed.

Lemma formatted_amounts_derive_from_raw_witness :
  exists t,
    parseEtherscanTransaction Sample.platform Sample.token_transfer Sample.ethereum = Ok t /\
    tx_valueFormatted t = "1.5" /\
    formatValue Sample.platform (tx_value t) 18 = Ok (tx_valueFormatted t) /\
    formatValue Sample.platform (tx_fee t) 18 = Ok (tx_feeFormatted t).
Proof.
  eexists. split; [vm_compute; reflexivity |]. split; [reflexivity |].
  apply (formatted_amounts_derive_from_raw Sample.platform Sample.dead_network
           Sample.registry Sample.ethereum).
  apply (by_parseEtherscanTransaction Sample.platform Sample.dead_network
           Sample.registry Sample.ethereum Sample.token_transfer).
  vm_compute. reflexivity.
Defined.

Lemma response_echoes_page_and_limit_witness :
  exists response log',
    fetchTransactions Sample.platform Sample.dead_network Sample.registry
      "0x01" "ethereum" 3 2 true [] = (Ok response, log')
    /\ page response = 3 /\ limit response = 2.
Proof.
  eexists. eexists. split; [vm_compute; reflexivity |].
  apply (response_echoes_page_and_limit Sample.platform
           Sample.dead_network Sample.registry "0x01" "ethereum" 3 2 true [] []).
  vm_compute. reflexivity.
Defined.

(** ** Decimal strings *)

Definition is_decimal (c : ascii) : bool :=
  match digit_val c with
  | Some d => d <? 10
  | None => false
  end.

Fixpoint all_decimal (s : string) : bool :=
  match s with
  | "" => true
  | String c s' => is_decimal c && all_decimal s'
  end.

Lemma is_decimal_char (c : ascii) :
  is_decimal c = true ->
  exists d, digit_val c = Some d /\ 0 <= d < 10 /\ c = digit_char d /\
            is_white_space c = false.
Proof.
  destruct c as [[] [] [] [] [] [] [] []]; intros H; vm_compute in H;
    try discriminate; clear H;
    eexists; (split; [vm_compute; reflexivity |]); (split; [lia |]);
    split; reflexivity.
Qed.

Lemma digit_char_val (d : Z) : 0 <= d < 10 -> digit_val (digit_char d) = Some d.
Proof.
  intros H.
  assert (d = 0 \/ d = 1 \/ d = 2 \/ d = 3 \/ d = 4 \/ d = 5 \/ d = 6 \/ d = 7
          \/ d = 8 \/ d = 9) as Hd by lia.
  repeat (destruct Hd as [-> | Hd]; [reflexivity |]). subst. reflexivity.
Qed.

Lemma string_length_app (s t : string) :
  String.length (s +:+ t) = (String.length s + String.length t)%nat.
Proof.
  induction s as [| c s IH]; [reflexivity |].
  change (String c s +:+ t) with (String c (s +:+ t)). simpl. rewrite IH. reflexivity.
Qed.

Lemma string_app_assoc (s t u : string) : (s +:+ t) +:+ u = s +:+ t +:+ u.
Proof.
  induction s as [| c s IH]; [reflexivity |].
  change ((String c s +:+ t) +:+ u) with (String c ((s +:+ t) +:+ u)).
  rewrite IH. reflexivity.
Qed.

Lemma string_app_nil_r (s : string) : s +:+ "" = s.
Proof.
  induction s as [| c s IH]; [reflexivity |].
  change (String c s +:+ "") with (String c (s +:+ "")). rewrite IH. reflexivity.
Qed.

Lemma parse_radix_app (r : Z) (s t : string) :
  forall a,
    parse_radix r (s +:+ t) a
    = match parse_radix r s a with
      | Some a' => parse_radix r t a'
      | None => None
      end.
Proof.
  induction s as [| c s IH]; intros a; [reflexivity |].
  change (String c s +:+ t) with (String c (s +:+ t)). simpl.
  destruct (digit_val c) as [d |]; [| reflexivity].
  destruct (d <? r); [apply IH | reflexivity].
Qed.

(** The value read from an accumulator is the value read from zero,
    shifted. *)
Lemma parse_radix_shift (s : string) :
  forall a v,
    parse_radix 10 s 0 = Some v ->
    parse_radix 10 s a = Some (a * 10 ^ Z.of_nat (String.length s) + v).
Proof.
  induction s as [| c s IH]; intros a v H; simpl in *.
  - injection H as <-. f_equal. lia.
  - destruct (digit_val c) as [d |]; [| discriminate].
    destruct (d <? 10); [| discriminate].
    destruct (parse_radix 10 s 0) as [w |] eqn:Hw.
    + rewrite (IH (0 * 10 + d) w eq_refl) in H. injection H as <-.
      rewrite (IH (a * 10 + d) w eq_refl). f_equal.
      rewrite Nat2Z.inj_succ, Z.pow_succ_r by lia. ring.
    + exfalso. clear IH.
      assert (Hnone : forall b, parse_radix 10 s b = None).
      { clear H. revert Hw. generalize 0. induction s as [| c' s IH']; intros b Hb b'.
        - discriminate.
        - simpl in *. destruct (digit_val c'); [| reflexivity].
          destruct (_ <? 10); [| reflexivity]. eapply IH'. exact Hb. }
      rewrite Hnone in H. discriminate.
Qed.

Lemma parse_radix_decimal (s : string) :
  forall a v, parse_radix 10 s a = Some v -> all_decimal s = true.
Proof.
  induction s as [| c s IH]; intros a v H; [reflexivity |].
  simpl in *. unfold is_decimal.
  destruct (digit_val c) as [d |]; [| discriminate].
  destruct (d <? 10); [| discriminate]. simpl. eauto.
Qed.

Lemma all_decimal_parse (s : string) :
  all_decimal s = true ->
  exists v, parse_radix 10 s 0 = Some v /\ 0 <= v < 10 ^ Z.of_nat (String.length s).
Proof.
  induction s as [| c s IH]; intros H; simpl in H.
  - exists 0. split; [reflexivity | simpl; lia].
  - apply andb_prop in H as [Hc Hs].
    destruct (IH Hs) as [w [Hw Hb]].
    destruct (is_decimal_char c Hc) as [d [Hd [Hr _]]].
    exists (d * 10 ^ Z.of_nat (String.length s) + w). split.
    + simpl. rewrite Hd. destruct (Z.ltb_spec d 10); [| lia].
      rewrite (parse_radix_shift s _ w Hw). f_equal; lia.
    + change (String.length (String c s)) with (S (String.length s)).
      rewrite Nat2Z.inj_succ, Z.pow_succ_r by lia. nia.
Qed.

Lemma denotes_bounds (s : string) (n : Z) :
  denotes s n -> 0 <= n < 10 ^ Z.of_nat (String.length s).
Proof.
  intros [_ H]. pose proof (parse_radix_decimal s 0 n H) as Hd.
  destruct (all_decimal_parse s Hd) as [v [Hv Hb]]. congruence.
Qed.

Lemma digits_go_spec (fuel : nat) :
  forall n acc,
    (1 <= fuel)%nat ->
    0 <= n < 10 ^ Z.of_nat fuel ->
    exists ds,
      digits_go fuel n acc = ds +:+ acc /\
      denotes ds n /\
      (n = 0 -> ds = "0") /\
      (0 < n -> 10 ^ (Z.of_nat (String.length ds) - 1) <= n).
Proof.
  induction fuel as [| f IH]; intros n acc Hf Hn; [lia |].
  cbn [digits_go]. destruct (Z.ltb_spec n 10) as [Hlt | Hge].
  - exists (String (digit_char n) "").
    rewrite Z.mod_small by lia.
    split; [reflexivity |]. split; [| split].
    + split; [discriminate |]. cbn [parse_radix]. rewrite digit_char_val by lia.
      destruct (Z.ltb_spec n 10); [f_equal; lia | lia].
    + intros ->. reflexivity.
    + intros Hpos. cbn [String.length]. change (Z.of_nat 1 - 1) with 0. lia.
  - assert (Hf' : (1 <= f)%nat).
    { destruct f; [| lia]. simpl in Hn. lia. }
    assert (Hn' : 0 <= n / 10 < 10 ^ Z.of_nat f).
    { split; [apply Z.div_pos; lia |].
      apply Z.div_lt_upper_bound; [lia |].
      rewrite Nat2Z.inj_succ, Z.pow_succ_r in Hn by lia. lia. }
    destruct (IH (n / 10) (String (digit_char (n mod 10)) acc) Hf' Hn')
      as [ds [Hgo [[Hne Hparse] [_ Hlow]]]].
    exists (ds +:+ String (digit_char (n mod 10)) "").
    split; [| split; [| split]].
    + rewrite Hgo, string_app_assoc. reflexivity.
    + split.
      * destruct ds; [contradiction | discriminate].
      * rewrite parse_radix_app, Hparse. cbn [parse_radix].
        rewrite digit_char_val by (apply Z.mod_pos_bound; lia).
        destruct (Z.ltb_spec (n mod 10) 10) as [_ | Hbad];
          [| pose proof (Z.mod_pos_bound n 10); lia].
        f_equal. pose proof (Z.div_mod n 10). lia.
    + intros ->. lia.
    + intros _. rewrite string_length_app. cbn [String.length].
      assert (Hpos : 0 < n / 10) by (apply Z.div_str_pos; lia).
      specialize (Hlow Hpos).
      replace (Z.of_nat (String.length ds + 1) - 1)
        with (Z.succ (Z.of_nat (String.length ds) - 1)) by lia.
      assert (1 <= Z.of_nat (String.length ds)).
      { destruct ds; [contradiction | simpl; lia]. }
      rewrite Z.pow_succ_r by lia.
      pose proof (Z.div_mod n 10). pose proof (Z.mod_pos_bound n 10). lia.
Qed.

Lemma decimal_spec (n : Z) :
  0 <= n ->
  denotes (decimal n) n /\
  (n = 0 -> decimal n = "0") /\
  (0 < n -> 10 ^ (Z.of_nat (String.length (decimal n)) - 1) <= n).
Proof.
  intros Hn. unfold decimal.
  assert (Hfuel : 0 <= n < 10 ^ Z.of_nat (S (Z.to_nat (Z.log2 n)))).
  { split; [exact Hn |].
    destruct (Z.eq_dec n 0) as [-> | Hnz]; [reflexivity |].
    pose proof (Z.log2_nonneg n) as Hl.
    pose proof (Z.log2_spec n ltac:(lia)) as [_ Hup].
    rewrite Nat2Z.inj_succ, Z2Nat.id by lia.
    eapply Z.lt_le_trans; [exact Hup |].
    apply Z.pow_le_mono_l. lia. }
  destruct (digits_go_spec (S (Z.to_nat (Z.log2 n))) n "" ltac:(lia) Hfuel)
    as [ds [Hgo H]].
  rewrite Hgo, string_app_nil_r. exact H.
Qed.

Lemma decimal_length (n : Z) (d : nat) :
  0 <= n < 10 ^ Z.of_nat d -> (1 <= d)%nat ->
  (String.length (decimal n) <= d)%nat.
Proof.
  intros [Hn Hlt] Hd.
  destruct (decimal_spec n Hn) as [[Hne _] [Hzero Hlow]].
  destruct (Z.eq_dec n 0) as [-> | Hnz].
  - rewrite Hzero by reflexivity. simpl. lia.
  - specialize (Hlow ltac:(lia)).
    destruct (le_lt_dec (String.length (decimal n)) d) as [|Hgt]; [assumption |].
    exfalso.
    assert (10 ^ Z.of_nat d <= 10 ^ (Z.of_nat (String.length (decimal n)) - 1))
      by (apply Z.pow_le_mono_r; lia).
    lia.
Qed.

(** [BigInt] reads a string of decimal digits as the number it denotes. *)
Lemma prefix_cons_inv (a : ascii) (p s : string) :
  String.prefix (String a p) s = true ->
  exists s', s = String a s' /\ String.prefix p s' = true.
Proof.
  destruct s as [| b s]; simpl; [discriminate |].
  destruct (ascii_dec a b) as [-> | _]; [eauto | discriminate].
Qed.

Lemma trim_end_decimal (s : string) : all_decimal s = true -> trim_end s = s.
Proof.
  induction s as [| c s IH]; intros H; [reflexivity |].
  simpl in H. apply andb_prop in H as [Hc Hs]. simpl. rewrite (IH Hs).
  destruct (is_decimal_char c Hc) as [_ [_ [_ [_ Hws]]]].
  destruct s; [rewrite Hws |]; reflexivity.
Qed.

Lemma StringToBigInt_denotes (s : string) (n : Z) :
  denotes s n -> StringToBigInt s = Some n.
Proof.
  intros [Hne Hparse].
  pose proof (parse_radix_decimal s 0 n Hparse) as Hdec.
  assert (Htrim : trim s = s).
  { unfold trim. destruct s as [| c s]; [contradiction |].
    simpl in Hdec. apply andb_prop in Hdec as [Hc Hs].
    destruct (is_decimal_char c Hc) as [_ [_ [_ [_ Hws]]]].
    simpl. rewrite Hws. apply trim_end_decimal. simpl. rewrite Hc, Hs. reflexivity. }
  assert (Hsecond : forall a b, is_decimal b = false ->
            String.prefix (String a (String b "")) s = false).
  { intros a b Hb. destruct (String.prefix _ s) eqn:Hp; [| reflexivity].
    apply prefix_cons_inv in Hp as [s1 [-> Hp]].
    apply prefix_cons_inv in Hp as [s2 [-> _]].
    simpl in Hdec. rewrite Hb in Hdec.
    destruct (is_decimal a); discriminate. }
  assert (Hfirst : forall a, is_decimal a = false ->
            String.prefix (String a "") s = false).
  { intros a Ha. destruct (String.prefix _ s) eqn:Hp; [| reflexivity].
    apply prefix_cons_inv in Hp as [s1 [-> _]].
    simpl in Hdec. rewrite Ha in Hdec. discriminate. }
  unfold StringToBigInt. rewrite Htrim.
  destruct (String.eqb_spec s "") as [-> | _]; [contradiction |].
  rewrite !Hsecond, !Hfirst by reflexivity. simpl.
  unfold parse_digits. destruct s; [contradiction | exact Hparse].
Qed.

Lemma BigInt_of_string_denotes (s : string) (n : Z) :
  denotes s n -> BigInt_of_string s = Ok n.
Proof.
  intros H. unfold BigInt_of_string. rewrite (StringToBigInt_denotes s n H). reflexivity.
Qed.

Lemma BigInt_toString_denotes (n : Z) : 0 <= n -> denotes (BigInt_toString n) n.
Proof.
  intros Hn. unfold BigInt_toString.
  destruct (Z.ltb_spec n 0); [lia |]. apply decimal_spec. exact Hn.
Qed.

(** ** The Etherscan parser *)

Lemma formatValue_returns (P : Platform) (s : string) (n : Z) (d : nat) (z : Z) :
  denotes s n -> exp10 P d = Finite z -> z <> 0 ->
  exists out, formatValue P s d = Ok out.
Proof.
  intros Hs Hexp Hz. unfold formatValue, divisor_of.
  destruct (negb (truthy_string s) || String.eqb s "0"); [eauto |].
  rewrite (BigInt_of_string_denotes s n Hs), Hexp. cbn [rbind BigInt_of_number].
  destruct (Z.eqb_spec z 0); [contradiction | eauto].
Qed.

Lemma prefix_slice0 (p s : string) :
  String.prefix p s = true -> slice0 (String.length p) s = p.
Proof.
  revert s. induction p as [| a p IH]; intros s H; [reflexivity |].
  apply prefix_cons_inv in H as [s' [-> H]]. simpl. rewrite (IH s' H). reflexivity.
Qed.

Lemma prefix_length (p s : string) :
  String.prefix p s = true -> (String.length p <= String.length s)%nat.
Proof.
  revert s. induction p as [| a p IH]; intros s H; [simpl; lia |].
  apply prefix_cons_inv in H as [s' [-> H]]. simpl. specialize (IH s' H). lia.
Qed.

(** C5, as stated, fails: a record whose call data is the bare selector
    [0xa9059cbb], with no contract address, is parsed as a plain
    [transfer]. The classification runs only past the guard
    [input.length > 10]. *)
Lemma bare_transfer_selector_is_not_token :
  exists input t,
    Sample.bare_selector !! "input" = Some input /\
    String.prefix "0xa9059cbb" input = true /\
    parseEtherscanTransaction Sample.platform Sample.bare_selector Sample.ethereum = Ok t /\
    tx_type t = transfer /\ tx_type t <> token.
Proof.
  eexists. eexists.
  split; [vm_compute; reflexivity |]. split; [reflexivity |].
  split; [vm_compute; reflexivity |]. split; [reflexivity | discriminate].
Qed.

(** C5, amended. For a raw Etherscan-style record whose [input] starts
    with the selector [0xa9059cbb] and is longer than the ten characters of
    the selector, or which carries a contract address besides, the parser
    either returns a transaction of type [token], or throws the error of
    one of its four conversions: [BigInt] on the gas used or on the gas
    price, [formatValue] on the value or on the fee. It returns no
    transaction of another type, on any chain and any platform. *)
Theorem transfer_selector_before_arguments_is_token
    (P : Platform) (tx : gmap string string) (chain : ChainConfig) (input : string) :
  tx !! "input" = Some input ->
  String.prefix "0xa9059cbb" input = true ->
  (10 < String.length input)%nat \/ truthy_opt (tx !! "contractAddress") = true ->
  let gasUsed := or_default (or_else (tx !! "gasUsed") (tx !! "gas")) "0" in
  let gasPrice := or_default (tx !! "gasPrice") "0" in
  let value := or_default (tx !! "value") "0" in
  match parseEtherscanTransaction P tx chain with
  | Ok t => tx_type t = token
  | Throw e =>
      BigInt_of_string gasUsed = Throw e \/
      BigInt_of_string gasPrice = Throw e \/
      formatValue P value (c_decimals chain) = Throw e \/
      exists used price,
        BigInt_of_string gasUsed = Ok used /\ BigInt_of_string gasPrice = Ok price /\
        formatValue P (BigInt_toString (used * price)) (c_decimals chain) = Throw e
  end.
Proof.
  intros Hin Hpre Hguard. cbv zeta. unfold parseEtherscanTransaction.
  destruct (BigInt_of_string (or_default (or_else (tx !! "gasUsed") (tx !! "gas")) "0"))
    as [used | e] eqn:Hu; cbn [rbind]; [| left; reflexivity].
  destruct (BigInt_of_string (or_default (tx !! "gasPrice") "0"))
    as [price | e] eqn:Hp; cbn [rbind]; [| right; left; reflexivity].
  destruct (formatValue P (or_default (tx !! "value") "0") (c_decimals chain))
    as [vf | e] eqn:Hv; cbn [rbind]; [| right; right; left; reflexivity].
  destruct (formatValue P (BigInt_toString (used * price)) (c_decimals chain))
    as [ff | e] eqn:Hf; cbn [rbind];
    [| right; right; right; exists used, price; auto].
  cbn [tx_type].
  pose proof (prefix_length _ _ Hpre) as Hlen. simpl in Hlen.
  assert (Hinput : or_default (or_else (tx !! "input") (tx !! "data")) "" = input).
  { rewrite Hin. unfold or_else, or_default, truthy_string.
    destruct input; [simpl in Hlen; lia | reflexivity]. }
  rewrite Hinput.
  change 10%nat with (String.length "0xa9059cbb") at 2.
  rewrite (prefix_slice0 _ _ Hpre).
  change (toLowerCase "0xa9059cbb") with "0xa9059cbb".
  change (String.eqb "0xa9059cbb" "0xa9059cbb") with true. cbn [orb].
  destruct Hguard as [Hlong | Hcontract].
  - assert (Hcond : truthy_string input && negb (String.eqb input "0x")
                    && (10 <? String.length input)%nat = true).
    { destruct (Nat.ltb_spec 10 (String.length input)); [| lia].
      destruct (String.eqb_spec input "0x") as [-> | _]; [simpl in Hlong; lia |].
      unfold truthy_string.
      destruct (String.eqb_spec input "") as [-> | _]; [simpl in Hlong; lia |].
      reflexivity. }
    rewrite Hcond. rewrite orb_true_r. reflexivity.
  - rewrite Hcontract. reflexivity.
Qed.

Lemma transfer_selector_before_arguments_is_token_witness :
  exists t,
    parseEtherscanTransaction Sample.platform Sample.token_transfer Sample.ethereum = Ok t
    /\ tx_type t = token.
Proof.
  pose proof (transfer_selector_before_arguments_is_token Sample.platform
                Sample.token_transfer Sample.ethereum
                "0xa9059cbb000000000000000000000000"
                ltac:(vm_compute; reflexivity) eq_refl
                ltac:(left; simpl; lia)) as H.
  cbv zeta in H.
  destruct (parseEtherscanTransaction Sample.platform Sample.token_transfer
              Sample.ethereum) as [t | e] eqn:Hparse.
  - exists t. split; [reflexivity | exact H].
  - vm_compute in Hparse. discriminate.
Defined.

(** ** The power of ten of the formatter, and the mock generator *)

Lemma ulp_pos (n : Z) : 52 < Z.log2 n -> 0 < ulp n.
Proof. intros H. unfold ulp. apply Z.pow_pos_nonneg; lia. Qed.

(** Rounding to nearest is rounding down or rounding up. *)
Lemma round_nearest_even_faithful (n : Z) :
  round_nearest_even n = round_down n \/ round_nearest_even n = round_up n.
Proof.
  unfold round_nearest_even, round_down, round_up.
  destruct (Z.leb_spec (Z.log2 n) 52) as [| Hbig]; [left; reflexivity |].
  pose proof (ulp_pos n Hbig) as Hulp. cbv zeta.
  destruct ((2 * (n mod ulp n) >? ulp n)
            || ((2 * (n mod ulp n) =? ulp n) && Z.odd (n / ulp n))) eqn:Hup;
    [right | left; reflexivity].
  destruct (Z.eqb_spec (n mod ulp n) 0) as [Hz | _]; [| reflexivity].
  rewrite Hz in Hup. exfalso.
  destruct (Z.gtb_spec (2 * 0) (ulp n)); [lia |].
  destruct (Z.eqb_spec (2 * 0) (ulp n)); [lia |]. discriminate.
Qed.

Lemma exp10_nearest_faithful (P : Platform) :
  (forall d, exp10 P d = exp10_nearest d) -> faithful_exp10 P.
Proof.
  intros H d. rewrite H. unfold exp10_nearest.
  destruct (d <=? 308)%nat; [| reflexivity].
  eexists. split; [reflexivity |]. apply round_nearest_even_faithful.
Qed.

(** C6 fails on the code. The divisor is [BigInt(10 ** decimals)], a power
    computed on Numbers: at 24 decimals, on every platform whose [**] is
    faithful, it is one of the two doubles next to [10^24], and not
    [10^24]. *)
Theorem divisor_is_not_the_power_at_24_decimals (P : Platform) :
  faithful_exp10 P ->
  (divisor_of P 24 = Ok 999999999999999983222784 \/
   divisor_of P 24 = Ok 1000000000000000117440512) /\
  divisor_of P 24 <> Ok (10 ^ 24).
Proof.
  intros HP. specialize (HP 24%nat). cbn [Nat.leb] in HP.
  destruct HP as [z [Hz Hround]]. unfold divisor_of. rewrite Hz.
  cbn [BigInt_of_number].
  change (round_down (10 ^ Z.of_nat 24)) with 999999999999999983222784 in Hround.
  change (round_up (10 ^ Z.of_nat 24)) with 1000000000000000117440512 in Hround.
  destruct Hround as [-> | ->]; (split; [auto | intros H; apply Ok_inj in H]).
  - vm_compute in H. discriminate.
  - vm_compute in H. discriminate.
Qed.

Lemma divisor_is_not_the_power_at_24_decimals_witness :
  divisor_of Sample.platform 24 = Ok 999999999999999983222784 /\
  divisor_of Sample.platform 24 <> Ok (10 ^ 24).
Proof.
  split; [vm_compute; reflexivity |].
  apply (divisor_is_not_the_power_at_24_decimals Sample.platform).
  apply exp10_nearest_faithful. reflexivity.
Defined.

(** C1 fails on the code, by the same power. At 24 decimals the amount
    [10^35] is to be rendered ["100000000000"]; on every platform whose
    [**] is faithful the formatter returns ["100000000000.000001"] when
    the power is rounded down and ["99999999999.999988"] when it is
    rounded up. *)
Theorem formatValue_mis_scales_at_24_decimals (P : Platform) :
  faithful_exp10 P ->
  formatValue P "100000000000000000000000000000000000" 24 = Ok "100000000000.000001" \/
  formatValue P "100000000000000000000000000000000000" 24 = Ok "99999999999.999988".
Proof.
  intros HP. specialize (HP 24%nat). cbn [Nat.leb] in HP.
  destruct HP as [z [Hz Hround]]. unfold formatValue, divisor_of. rewrite Hz.
  change (round_down (10 ^ Z.of_nat 24)) with 999999999999999983222784 in Hround.
  change (round_up (10 ^ Z.of_nat 24)) with 1000000000000000117440512 in Hround.
  destruct Hround as [-> | ->]; [left | right]; vm_compute; reflexivity.
Qed.

Lemma formatValue_mis_scales_at_24_decimals_witness :
  formatValue Sample.platform "100000000000000000000000000000000000" 24
  = Ok "100000000000.000001" /\
  "100000000000.000001" <> "100000000000".
Proof.
  split; [| discriminate].
  destruct (formatValue_mis_scales_at_24_decimals Sample.platform) as [H | H].
  - apply exp10_nearest_faithful. reflexivity.
  - exact H.
  - vm_compute in H. discriminate.
Defined.

(** C8 fails on the code. For NEAR, of 24 decimals, with every draw of
    [Math.random()] one half, the mock value is
    [Math.floor(0.5 * 10 ** 22).toString()], in exponent notation, and the
    call in mock mode rejects with the SyntaxError of [BigInt], where the
    claim has it resolve with 25 transactions. *)
Theorem mock_mode_rejects_on_near :
  Sample.registry "near" = Some Sample.near /\
  c_decimals Sample.near = 24%nat /\
  fetchTransactions Sample.platform Sample.dead_network Sample.registry
    "alice.near" "near" 1 25 true []
  = (Throw (SyntaxError "Cannot convert 5e+21 to a BigInt"), []).
Proof.
  split; [reflexivity |]. split; [reflexivity |]. vm_compute. reflexivity.
Qed.

(* ===================================================================== *)
(** * Part IV. Further properties of the module                           *)
(* ===================================================================== *)

(** ** The retry protocol, in general *)

Lemma run_schedule_at (later : list Attempt) :
  forall (a d : Attempt) (k : nat) (response : TransactionResponse) (log : list Request),
    (k < length (a :: later))%nat ->
    (forall i, (i < k)%nat -> failed_attempt (nth i (a :: later) d)) ->
    snd (nth k (a :: later) d) = Ok response ->
    run_schedule a later log
    = (Ok response, (log ++ map fst (firstn (S k) (a :: later)))%list).
Proof.
  induction later as [| b later IH]; intros a d k response log Hk Hfail Hok.
  - simpl in Hk. assert (k = 0%nat) as -> by lia. simpl in *. rewrite Hok. reflexivity.
  - destruct k as [| k].
    + simpl in *. rewrite Hok. reflexivity.
    + destruct (Hfail 0%nat ltac:(lia)) as [e He]. simpl in He.
      change (run_schedule a (b :: later) log)
        with (match snd a with
              | Ok r => (Ok r, (log ++ [fst a])%list)
              | Throw _ => run_schedule b later (log ++ [fst a])%list
              end).
      rewrite He.
      rewrite (IH b d k response (log ++ [fst a])%list).
      * change (firstn (S (S k)) (a :: b :: later))
          with (a :: firstn (S k) (b :: later)).
        simpl map. rewrite <- app_assoc. reflexivity.
      * simpl in Hk |- *. lia.
      * intros i Hi. apply (Hfail (S i)). lia.
      * exact Hok.
Qed.

(** The first attempt that succeeds ends the call, wherever it stands in
    the schedule of the fetcher: the call resolves with its response,
    after the requests of the attempts up to it and no other. *)
Theorem first_success_ends_the_call
    (P : Platform) (net : Network) (f : Fetcher) (address : string)
    (chain : ChainConfig) (pageArg limitArg : Z) (k : nat)
    (response : TransactionResponse) (log : list Request) :
  (k < length (schedule P net f address chain pageArg limitArg))%nat ->
  (forall i, (i < k)%nat ->
     failed_attempt (endpoint_attempt P net f address chain pageArg limitArg i)) ->
  snd (endpoint_attempt P net f address chain pageArg limitArg k) = Ok response ->
  run P net f address chain pageArg limitArg log
  = (Ok response,
     (log ++ map fst (firstn (S k)
                        (schedule P net f address chain pageArg limitArg)))%list).
Proof.
  intros Hk Hfail Hok. rewrite run_follows_schedule.
  unfold endpoint_attempt, schedule in *.
  eapply run_schedule_at; eauto.
Qed.

Lemma first_success_ends_the_call_witness :
  exists response log',
    run Sample.platform Fixture.network Bitcoin "bc1q" Fixture.bitcoin 1 2 []
    = (Ok response, log')
    /\ length log' = 2%nat
    /\ length (transactions response) = 2%nat.
Proof.
  eexists. eexists. split.
  - apply (first_success_ends_the_call Sample.platform Fixture.network Bitcoin
             "bc1q" Fixture.bitcoin 1 2 1).
    + vm_compute. lia.
    + intros i Hi. assert (i = 0%nat) as -> by lia.
      eexists. vm_compute. reflexivity.
    + vm_compute. reflexivity.
  - split; reflexivity.
Defined.

(** ** What the dispatcher does with a registered chain *)

(** Off the mock path, a response that [fetchTransactions] resolves with
    has [hasMore] set exactly when the number of its transactions is the
    [limit] of the call. *)
Theorem hasMore_is_a_full_page
    (P : Platform) (net : Network) (getChainById : string -> option ChainConfig)
    (address chainId : string) (pageArg limitArg : Z)
    (log log' : list Request) (response : TransactionResponse) :
  fetchTransactions P net getChainById address chainId pageArg limitArg false log
  = (Ok response, log') ->
  hasMore response = (Z.of_nat (length (transactions response)) =? limitArg).
Proof.
  intros H.
  destruct (getChainById chainId) as [chain |] eqn:Hc.
  - destruct (dispatch P net getChainById address chain pageArg limitArg chainId Hc)
      as [[f Hf] | Hf]; rewrite Hf in H; [| discriminate].
    apply run_resolved in H as [a [Hin Ha]].
    destruct (scheduled_attempt_resolved P net address chain pageArg limitArg f a
                response Hin Ha) as [total Hr].
    rewrite Hr at 1. reflexivity.
  - unfold fetchTransactions in H. rewrite Hc in H. discriminate.
Qed.

Lemma hasMore_is_a_full_page_witness :
  exists response log',
    fetchTransactions Sample.platform Fixture.network Fixture.registry
      "TA" "tron" 1 1 false [] = (Ok response, log')
    /\ hasMore response = true.
Proof.
  eexists. eexists. split; [vm_compute; reflexivity |].
  apply (hasMore_is_a_full_page Sample.platform Fixture.network Fixture.registry
           "TA" "tron" 1 1 [] [tron_request "TA" 1 1]).
  vm_compute. reflexivity.
Defined.

(** In mock mode [fetchTransactions] issues no request, whether it
    resolves or rejects; a response it resolves with holds one transaction
    per unit of a non-negative [limit] (none for a negative one), reports a
    total of 100 and sets [hasMore] exactly on the pages before the
    fourth. *)
Theorem mock_mode_is_offline
    (P : Platform) (net : Network) (getChainById : string -> option ChainConfig)
    (address chainId : string) (pageArg limitArg : Z) (log : list Request) :
  snd (fetchTransactions P net getChainById address chainId pageArg limitArg true log)
  = log
  /\ match fst (fetchTransactions P net getChainById address chainId pageArg limitArg
                  true log) with
     | Ok response =>
         length (transactions response) = Z.to_nat limitArg /\
         totalCount response = Finite 100 /\
         hasMore response = (pageArg <? 4)
     | Throw _ => True
     end.
Proof.
  unfold fetchTransactions.
  destruct (getChainById chainId) as [chain |]; [| split; [reflexivity | exact I]].
  unfold mbind, lift, mret.
  destruct (generateMockTransactions P address chain limitArg) as [ts | e] eqn:Hgen;
    simpl; [| split; [reflexivity | exact I]].
  split; [reflexivity |]. split; [| split; reflexivity].
  apply generateMockTransactions_Ok in Hgen as [Hgen _].
  rewrite (rmap_length _ _ _ Hgen). apply length_seq.
Qed.

(** The five chains with a fetcher of their own are dispatched by their
    id, whatever API family the registry declares for them. *)
Theorem chain_id_takes_precedence
    (P : Platform) (net : Network) (getChainById : string -> option ChainConfig)
    (address chainId : string) (chain : ChainConfig) (f : Fetcher)
    (pageArg limitArg : Z) :
  getChainById chainId = Some chain ->
  fetcher_by_id (c_id chain) = Some f ->
  fetchTransactions P net getChainById address chainId pageArg limitArg false
  = run P net f address chain pageArg limitArg.
Proof.
  intros Hc Hf. unfold fetchTransactions, fetcher_by_id in *. rewrite Hc. simpl.
  destruct (String.eqb (c_id chain) "bitcoin"); [injection Hf as <-; reflexivity |].
  destruct (String.eqb (c_id chain) "tron"); [injection Hf as <-; reflexivity |].
  destruct (String.eqb (c_id chain) "near"); [injection Hf as <-; reflexivity |].
  destruct (String.eqb (c_id chain) "sui"); [injection Hf as <-; reflexivity |].
  destruct (String.eqb (c_id chain) "aptos"); [injection Hf as <-; reflexivity |].
  discriminate.
Qed.

Lemma chain_id_takes_precedence_witness :
  c_apiType Fixture.bitcoin = "etherscan" /\
  fetchTransactions Sample.platform Fixture.network Fixture.registry
    "bc1q" "bitcoin" 1 2 false
  = run Sample.platform Fixture.network Bitcoin "bc1q" Fixture.bitcoin 1 2.
Proof.
  split; [reflexivity |].
  apply (chain_id_takes_precedence Sample.platform Fixture.network Fixture.registry
           "bc1q" "bitcoin" Fixture.bitcoin Bitcoin 1 2); reflexivity.
Defined.

(** A registered chain that has no fetcher of its own and whose API
    family is none of the four implemented ones is rejected with a message
    that names the chain, before any request. *)
Theorem unsupported_chain_rejects_before_any_request
    (P : Platform) (net : Network) (getChainById : string -> option ChainConfig)
    (address chainId : string) (chain : ChainConfig)
    (pageArg limitArg : Z) (log : list Request) :
  getChainById chainId = Some chain ->
  fetcher_by_id (c_id chain) = None ->
  fetcher_by_apiType (c_apiType chain) = None ->
  fetchTransactions P net getChainById address chainId pageArg limitArg false log
  = (Throw (Error (c_name chain +:+ " API not yet implemented. Check back soon!")), log)
  /\ String.prefix (c_name chain)
       (c_name chain +:+ " API not yet implemented. Check back soon!") = true.
Proof.
  intros Hc Hid Hty. split; [| apply prefix_app].
  unfold fetchTransactions, fetcher_by_id, fetcher_by_apiType in *. rewrite Hc. simpl.
  destruct (String.eqb (c_id chain) "bitcoin"); [discriminate |].
  destruct (String.eqb (c_id chain) "tron"); [discriminate |].
  destruct (String.eqb (c_id chain) "near"); [discriminate |].
  destruct (String.eqb (c_id chain) "sui"); [discriminate |].
  destruct (String.eqb (c_id chain) "aptos"); [discriminate |].
  destruct (String.eqb (c_apiType chain) "etherscan"); [discriminate |].
  destruct (String.eqb (c_apiType chain) "subscan"); [discriminate |].
  destruct (String.eqb (c_apiType chain) "solscan"); [discriminate |].
  destruct (String.eqb (c_apiType chain) "mintscan"); [discriminate |].
  reflexivity.
Qed.

Lemma unsupported_chain_rejects_before_any_request_witness :
  fetchTransactions Sample.platform Fixture.network Fixture.registry
    "EQ" "ton" 1 50 false []
  = (Throw (Error ("TON" +:+ " API not yet implemented. Check back soon!")), [])
  /\ String.prefix "TON" ("TON" +:+ " API not yet implemented. Check back soon!") = true.
Proof.
  apply (unsupported_chain_rejects_before_any_request Sample.platform Fixture.network
           Fixture.registry "EQ" "ton" Fixture.unsupported 1 50 []); reflexivity.
Defined.

(** ** Errors of the EVM provider *)

Lemma evm_response_error_envelope (P : Platform) (chain : ChainConfig)
    (pageArg limitArg : Z) (data : EtherscanData) :
  error_envelope data ->
  evm_response P chain pageArg limitArg data = Throw (Error (envelope_error_text data)).
Proof.
  intros Henv. unfold evm_response, envelope_error_text.
  destruct (String.eqb_spec (es_status data) "1") as [Hs | Hs];
    destruct (es_result data) as [records | text] eqn:Hr; try reflexivity.
  destruct Henv as [Hne | [text Ht]]; [contradiction | congruence].
Qed.

(** At the last endpoint of the list, an error envelope of the provider
    (a status other than ['1'], or a result that is not an array) makes
    the EVM fetcher reject with the provider's own text: the result when it
    is a string, the message otherwise, and a fixed text when that is
    empty. An empty result under a status other than ['1'] is such an
    error, not an empty page. *)
Theorem evm_fetcher_surfaces_provider_text
    (P : Platform) (net : Network) (address : string) (chain : ChainConfig)
    (pageArg limitArg : Z) (i : nat) (data : EtherscanData) (log : list Request) :
  ~ fallback_remains chain i ->
  etherscan_api net (evm_request P address chain pageArg limitArg i) = Ok data ->
  error_envelope data ->
  fetchEVMTransactions P net address chain pageArg limitArg i log
  = (Throw (Error (envelope_error_text data)),
     (log ++ [evm_request P address chain pageArg limitArg i])%list).
Proof.
  intros Hlast Hnet Henv.
  rewrite fetchEVMTransactions_equation_1, evm_try_run.
  unfold evm_attempt, attempt. rewrite Hnet. cbn [rbind].
  rewrite (evm_response_error_envelope P chain pageArg limitArg data Henv).
  destruct (lt_dec i (length (allEndpoints chain) - 1)) as [more | _];
    [contradiction | reflexivity].
Qed.

Lemma evm_fetcher_surfaces_provider_text_witness :
  fetchEVMTransactions Sample.platform Fixture.network "0x01"
    Fixture.single_endpoint_evm 1 50 0 []
  = (Throw (Error "No transactions found"),
     ([] ++ [evm_request Sample.platform "0x01" Fixture.single_endpoint_evm 1 50 0])%list).
Proof.
  apply (evm_fetcher_surfaces_provider_text Sample.platform Fixture.network "0x01"
           Fixture.single_endpoint_evm 1 50 0
           {| es_status := "0"; es_message := "No transactions found";
              es_result := ResultArray [] |} []).
  - unfold fallback_remains. simpl. lia.
  - reflexivity.
  - left. discriminate.
Defined.

(** ** Fees computed by the parsers *)

Lemma trim_end_cons (c : ascii) (s : string) :
  is_white_space c = false -> trim_end s = s -> trim_end (String c s) = String c s.
Proof.
  intros Hc Hs. cbn [trim_end]. rewrite Hs, Hc. destruct s; reflexivity.
Qed.

(** What [toString] prints of a BigInt, [BigInt] reads back. *)
Lemma BigInt_roundtrip (n : Z) : BigInt_of_string (BigInt_toString n) = Ok n.
Proof.
  destruct (Z.lt_ge_cases n 0) as [Hneg | Hpos].
  - unfold BigInt_toString. destruct (Z.ltb_spec n 0); [| lia].
    destruct (decimal_spec (- n) ltac:(lia)) as [[Hne Hparse] _].
    pose proof (parse_radix_decimal _ _ _ Hparse) as Hdec.
    change ("-" +:+ decimal (- n)) with (String "-" (decimal (- n))).
    unfold BigInt_of_string, StringToBigInt, trim.
    change (trim_start (String "-" (decimal (- n)))) with (String "-" (decimal (- n))).
    rewrite (trim_end_cons "-" _ eq_refl (trim_end_decimal _ Hdec)).
    cbn [String.eqb String.prefix Ascii.eqb Bool.eqb orb string_drop].
    change (String.prefix "-" (String "-" (decimal (- n)))) with true.
    change (String.eqb (String "-" (decimal (- n))) "") with false.
    cbv iota.
    replace (String.prefix "0x" (String "-" (decimal (- n)))) with false by reflexivity.
    replace (String.prefix "0X" (String "-" (decimal (- n)))) with false by reflexivity.
    replace (String.prefix "0o" (String "-" (decimal (- n)))) with false by reflexivity.
    replace (String.prefix "0O" (String "-" (decimal (- n)))) with false by reflexivity.
    replace (String.prefix "0b" (String "-" (decimal (- n)))) with false by reflexivity.
    replace (String.prefix "0B" (String "-" (decimal (- n)))) with false by reflexivity.
    replace (String.prefix "+" (String "-" (decimal (- n)))) with false by reflexivity.
    cbn [orb]. unfold parse_digits.
    destruct (decimal (- n)) eqn:Hd; [contradiction |].
    rewrite Hparse. cbn [option_map]. f_equal. lia.
  - apply BigInt_of_string_denotes, BigInt_toString_denotes. lia.
Qed.

(** In every transaction the Etherscan parser returns, the fee is the
    exact product of the gas used and the gas price it reports, as
    integers of any size. *)
Theorem etherscan_fee_is_the_exact_product
    (P : Platform) (tx : gmap string string) (chain : ChainConfig) (t : Transaction) :
  parseEtherscanTransaction P tx chain = Ok t ->
  exists (gasUsed gasPrice : string) (used price : Z),
    tx_gasUsed t = Some gasUsed /\ tx_gasPrice t = Some gasPrice /\
    BigInt_of_string gasUsed = Ok used /\
    BigInt_of_string gasPrice = Ok price /\
    BigInt_of_string (tx_fee t) = Ok (used * price).
Proof.
  unfold parseEtherscanTransaction. intros H. cbv zeta in H.
  apply rbind_Ok in H as [used [Hused H]].
  apply rbind_Ok in H as [price [Hprice H]].
  invert_rbind H. apply Ok_inj in H. subst t.
  cbn [tx_gasUsed tx_gasPrice tx_fee].
  do 2 eexists. exists used, price.
  split; [reflexivity |]. split; [reflexivity |].
  split; [exact Hused |]. split; [exact Hprice |]. apply BigInt_roundtrip.
Qed.

Lemma etherscan_fee_is_the_exact_product_witness :
  exists (t : Transaction) (gasUsed gasPrice : string) (used price : Z),
    tx_gasUsed t = Some gasUsed /\ tx_gasPrice t = Some gasPrice /\
    BigInt_of_string gasUsed = Ok used /\
    BigInt_of_string gasPrice = Ok price /\
    BigInt_of_string (tx_fee t) = Ok (used * price).
Proof.
  eexists.
  apply (etherscan_fee_is_the_exact_product Sample.platform Sample.token_transfer
           Sample.ethereum).
  vm_compute. reflexivity.
Defined.

(** The fee the Aptos parser returns is the exact product of the gas used
    and the gas unit price of the record. *)
Theorem aptos_fee_is_the_exact_product
    (P : Platform) (chain : ChainConfig) (tx : AptosTx) (t : Transaction) :
  parseAptosTransaction P chain tx = Ok t ->
  exists used price : Z,
    BigInt_of_string (apt_gas_used tx) = Ok used /\
    BigInt_of_string (apt_gas_unit_price tx) = Ok price /\
    BigInt_of_string (tx_fee t) = Ok (used * price) /\
    tx_value t = "0".
Proof.
  unfold parseAptosTransaction. intros H.
  apply rbind_Ok in H as [used [Hused H]].
  apply rbind_Ok in H as [price [Hprice H]].
  invert_rbind H. apply Ok_inj in H. subst t.
  cbn [tx_fee tx_value plain_transaction].
  exists used, price. repeat split; auto using BigInt_roundtrip.
Qed.

Lemma aptos_fee_is_the_exact_product_witness :
  exists (t : Transaction) (used price : Z),
    BigInt_of_string "12345678901234567890" = Ok used /\
    BigInt_of_string "100" = Ok price /\
    BigInt_of_string (tx_fee t) = Ok (used * price) /\
    tx_value t = "0".
Proof.
  eexists.
  apply (aptos_fee_is_the_exact_product Sample.platform Sample.ethereum
           {| apt_hash := "0xabc"; apt_version := "1"; apt_timestamp := "1700000000000000";
              apt_sender := "0x01"; apt_success := true;
              apt_gas_used := "12345678901234567890"; apt_gas_unit_price := "100" |}).
  vm_compute. reflexivity.
Defined.

(** ** Classification of Subscan extrinsics *)

Lemma includes_tail (c : ascii) (t s : string) :
  includes (String c t) s = true -> includes t s = true.
Proof.
  induction s as [| a s IH]; [discriminate |].
  cbn [includes String.prefix]. intros H.
  apply orb_true_iff in H as [H | H].
  - destruct (ascii_dec c a); [| discriminate].
    rewrite (includes_prefix _ _ H). apply orb_true_r.
  - rewrite (IH H). apply orb_true_r.
Qed.

Lemma non_empty_Some (s m : string) : non_empty s = Some m -> s = m.
Proof. unfold non_empty. destruct (truthy_string s); congruence. Qed.

Lemma includes_non_empty (t s : string) :
  t <> "" -> includes t s = true -> non_empty s = Some s.
Proof.
  intros Ht H. destruct s; [| reflexivity].
  destruct t; [contradiction | discriminate].
Qed.

(** The Subscan parser looks for ['stake'] in the name of the call before
    it looks for ['unstake']: a call whose name contains ['unstake'] is
    typed [stake], and the type [unstake] is left to the calls whose name
    contains ['unbond'] and no ['stake']. *)
Theorem subscan_unstake_call_is_typed_stake
    (P : Platform) (tx : gmap string JsValue) (chain : ChainConfig) (t : Transaction) :
  parseSubscanTransaction P tx chain = Ok t ->
  (forall m, tx_method t = Some m -> includes "unstake" m = true -> tx_type t = stake) /\
  (tx_type t = unstake ->
   exists m, tx_method t = Some m /\ includes "unbond" m = true /\
             includes "stake" m = false) /\
  tx_type t <> token /\ tx_type t <> swap.
Proof.
  unfold parseSubscanTransaction. intros H. cbv zeta in H.
  invert_rbind H. apply Ok_inj in H. subst t.
  cbn [tx_method tx_type plain_transaction].
  set (callFunction := toLowerCase _).
  set (callModule := toLowerCase _).
  split; [| split].
  - intros m Hm Hin. apply non_empty_Some in Hm. subst m.
    rewrite (includes_tail _ _ _ (includes_tail _ _ _ Hin)), orb_true_r. reflexivity.
  - destruct (includes "stake" callFunction) eqn:Hstake.
    { rewrite orb_true_r. discriminate. }
    rewrite orb_false_r.
    destruct (String.eqb callModule "staking"); [discriminate |].
    destruct (includes "unstake" callFunction) eqn:Hun.
    { rewrite (includes_tail _ _ _ (includes_tail _ _ _ Hun)) in Hstake. discriminate. }
    cbn [orb].
    destruct (includes "unbond" callFunction) eqn:Hunbond.
    + intros _. exists callFunction.
      split; [apply (includes_non_empty "unbond"); [discriminate | exact Hunbond] |].
      split; [exact Hunbond | exact Hstake].
    + destruct (String.eqb callModule "balances"); discriminate.
  - destruct (String.eqb callModule "staking" || includes "stake" callFunction);
      [split; discriminate |].
    destruct (includes "unstake" callFunction || includes "unbond" callFunction);
      [split; discriminate |].
    destruct (String.eqb callModule "balances"); split; discriminate.
Qed.

Lemma subscan_unstake_call_is_typed_stake_witness :
  let tx := <[ "call_module_function" := JString "Unstake" ]>
              (<[ "call_module" := JString "Dappstaking" ]>
                 (<[ "extrinsic_hash" := JString "0x01" ]> (∅ : gmap string JsValue))) in
  exists t : Transaction,
    parseSubscanTransaction Sample.platform tx Sample.ethereum = Ok t /\
    tx_method t = Some "unstake" /\ tx_type t = stake.
Proof.
  intros tx. eexists. split; [vm_compute; reflexivity |].
  split; [reflexivity |].
  refine (proj1 (subscan_unstake_call_is_typed_stake Sample.platform tx Sample.ethereum
                   _ _) "unstake" _ _); vm_compute; reflexivity.
Defined.

(** ** The value formatter *)

Lemma parse_radix_cons (c : ascii) (s : string) (V : Z) :
  parse_radix 10 (String c s) 0 = Some V ->
  exists d w, digit_val c = Some d /\ 0 <= d < 10 /\ parse_radix 10 s 0 = Some w /\
              V = d * 10 ^ Z.of_nat (String.length s) + w.
Proof.
  intros H. pose proof (parse_radix_decimal _ _ _ H) as Hdec.
  cbn [all_decimal] in Hdec. apply andb_prop in Hdec as [Hc Hs].
  destruct (is_decimal_char c Hc) as [d [Hd [Hr _]]].
  destruct (all_decimal_parse s Hs) as [w [Hw _]].
  exists d, w. repeat split; try assumption; try lia.
  cbn [parse_radix] in H. rewrite Hd in H.
  destruct (Z.ltb_spec d 10); [| lia].
  rewrite (parse_radix_shift s _ w Hw) in H. injection H as <-. lia.
Qed.

Lemma repeat_char_length (c : ascii) (k : nat) : String.length (repeat_char c k) = k.
Proof. induction k as [| k IH]; simpl; [| rewrite IH]; reflexivity. Qed.

Lemma parse_radix_zeros (k : nat) (s : string) :
  parse_radix 10 (repeat_char "0" k +:+ s) 0 = parse_radix 10 s 0.
Proof.
  induction k as [| k IH]; [reflexivity |].
  change (repeat_char "0" (S k) +:+ s) with (String "0" (repeat_char "0" k +:+ s)).
  cbn [parse_radix]. exact IH.
Qed.

(** The fractional part, padded: [d] digits that read as the part. *)
Lemma padStart0_decimal (d : nat) (F : Z) :
  0 <= F < 10 ^ Z.of_nat d ->
  parse_radix 10 (padStart0 d (decimal F)) 0 = Some F /\
  String.length (padStart0 d (decimal F)) = Nat.max d 1.
Proof.
  intros HF. destruct (decimal_spec F ltac:(lia)) as [[Hne Hparse] [Hzero _]].
  unfold padStart0. split; [rewrite parse_radix_zeros; exact Hparse |].
  rewrite string_length_app, repeat_char_length.
  destruct d as [| d].
  - rewrite Hzero by (simpl in HF; lia). reflexivity.
  - pose proof (decimal_length F (S d) HF ltac:(lia)). lia.
Qed.

Lemma slice0_drop (m : nat) (t : string) : slice0 m t +:+ string_drop m t = t.
Proof.
  revert t. induction m as [| m IH]; intros [| c t]; try reflexivity.
  cbn [slice0 string_drop].
  change (String c (slice0 m t) +:+ string_drop m t)
    with (String c (slice0 m t +:+ string_drop m t)).
  rewrite IH. reflexivity.
Qed.

Lemma slice0_length (m : nat) (t : string) :
  String.length (slice0 m t) = Nat.min m (String.length t).
Proof.
  revert t. induction m as [| m IH]; intros [| c t]; try reflexivity.
  cbn [slice0 String.length]. rewrite IH. reflexivity.
Qed.

(** The first [m] digits of a digit string read as its value without the
    digits that are cut. *)
Lemma slice0_parse (m : nat) (t : string) (V : Z) :
  parse_radix 10 t 0 = Some V ->
  parse_radix 10 (slice0 m t) 0
  = Some (V / 10 ^ Z.of_nat (String.length t - Nat.min m (String.length t))).
Proof.
  intros H. pose proof (slice0_drop m t) as Hsplit.
  pose proof (parse_radix_decimal _ _ _ H) as Hdec.
  assert (Hlen : String.length (string_drop m t)
                 = (String.length t - Nat.min m (String.length t))%nat).
  { pose proof (f_equal String.length Hsplit) as Hl.
    rewrite string_length_app, slice0_length in Hl. lia. }
  rewrite <- Hsplit in H, Hdec.
  rewrite parse_radix_app in H.
  destruct (parse_radix 10 (slice0 m t) 0) as [u |] eqn:Hu; [| discriminate].
  assert (Hd : all_decimal (string_drop m t) = true).
  { destruct (parse_radix 10 (string_drop m t) u) eqn:Hq; [| discriminate].
    exact (parse_radix_decimal _ _ _ Hq). }
  destruct (all_decimal_parse _ Hd) as [w [Hw Hb]].
  rewrite (parse_radix_shift _ u w Hw) in H. injection H as <-.
  rewrite Hlen in *. f_equal.
  rewrite Z.div_add_l by lia. rewrite Z.div_small by lia. lia.
Qed.

(** Without its trailing zeros a digit string reads as its value without
    the factors of ten that are cut, and it has no trailing zero left. *)
Lemma strip_trailing_zeros_parse (u : string) :
  forall W,
    parse_radix 10 u 0 = Some W ->
    exists F,
      parse_radix 10 (strip_trailing_zeros u) 0 = Some F /\
      (String.length (strip_trailing_zeros u) <= String.length u)%nat /\
      strip_trailing_zeros (strip_trailing_zeros u) = strip_trailing_zeros u /\
      W = F * 10 ^ Z.of_nat (String.length u - String.length (strip_trailing_zeros u)).
Proof.
  induction u as [| c u IH]; intros W H.
  - exists 0. injection H as <-. repeat split; simpl; lia.
  - apply parse_radix_cons in H as [dc [w [Hdc [Hr [Hw ->]]]]].
    destruct (IH w Hw) as [F [HF [Hlen [Hidem Hval]]]].
    cbn [strip_trailing_zeros].
    destruct (strip_trailing_zeros u) as [| c' t'] eqn:Hstrip.
    + cbn [parse_radix] in HF. injection HF as <-.
      destruct (Ascii.eqb_spec c "0") as [-> | Hc].
      * exists 0. change (digit_val "0") with (Some 0) in Hdc. injection Hdc as <-.
        repeat split; simpl; lia.
      * exists dc. cbn [parse_radix strip_trailing_zeros String.length]. rewrite Hdc.
        destruct (Z.ltb_spec dc 10); [| lia].
        destruct (Ascii.eqb_spec c "0"); [contradiction |].
        repeat split; try (f_equal; lia); try lia.
        replace (S (String.length u) - 1)%nat with (String.length u) by lia. lia.
    + exists (dc * 10 ^ Z.of_nat (String.length (String c' t')) + F).
      split; [| split; [| split]].
      * change (parse_radix 10 (String c (String c' t')) 0)
          with (match digit_val c with
                | Some d =>
                    if d <? 10 then parse_radix 10 (String c' t') (0 * 10 + d) else None
                | None => None
                end).
        rewrite Hdc. destruct (Z.ltb_spec dc 10); [| lia].
        rewrite (parse_radix_shift _ _ F HF). reflexivity.
      * cbn [String.length] in *. lia.
      * change (strip_trailing_zeros (String c (String c' t')))
          with (match strip_trailing_zeros (String c' t') with
                | "" => if Ascii.eqb c "0" then "" else String c ""
                | t => String c t
                end).
        rewrite Hidem. reflexivity.
      * rewrite Hval.
        replace (String.length (String c u) - String.length (String c (String c' t')))%nat
          with (String.length u - String.length (String c' t'))%nat
          by (cbn [String.length]; lia).
        set (k := String.length (String c' t')) in *.
        replace (Z.of_nat (String.length u))
          with (Z.of_nat k + Z.of_nat (String.length u - k)) by lia.
        rewrite Z.pow_add_r by lia. ring.
Qed.

(** The six-digit truncation, from the remainder: the arithmetic of the
    three cases of [padStart], [slice] and the trailing zeros. *)
Lemma truncation_arith (n : Z) (d k : nat) (W F : Z) :
  0 <= n ->
  let m := Nat.min 6 (Nat.max d 1) in
  W = n mod 10 ^ Z.of_nat d / 10 ^ Z.of_nat (Nat.max d 1 - m) ->
  (k <= m)%nat ->
  W = F * 10 ^ Z.of_nat (m - k) ->
  n / 10 ^ Z.of_nat d * 10 ^ 6 + F * 10 ^ (6 - Z.of_nat k)
  = n * 10 ^ 6 / 10 ^ Z.of_nat d.
Proof.
  intros Hn m HW Hk HF.
  assert (Hp : 0 < 10 ^ Z.of_nat d) by (apply Z.pow_pos_nonneg; lia).
  pose proof (Z.div_mod n (10 ^ Z.of_nat d) ltac:(lia)) as Hdm.
  pose proof (Z.mod_pos_bound n (10 ^ Z.of_nat d) Hp) as Hmod.
  set (I := n / 10 ^ Z.of_nat d) in *. set (R := n mod 10 ^ Z.of_nat d) in *.
  replace (n * 10 ^ 6) with (I * 10 ^ 6 * 10 ^ Z.of_nat d + R * 10 ^ 6) by lia.
  rewrite Z.div_add_l by lia. f_equal.
  destruct (le_lt_dec 6 d) as [Hbig | Hsmall].
  - (* at least six decimals: the digits past the sixth are cut *)
    assert (Hm : m = 6%nat) by (unfold m; lia).
    rewrite Hm in *.
    replace (Nat.max d 1 - 6)%nat with (d - 6)%nat in HW by lia.
    replace (10 ^ Z.of_nat d) with (10 ^ Z.of_nat (d - 6) * 10 ^ 6)
      by (rewrite <- Z.pow_add_r by lia; f_equal; lia).
    rewrite Z.div_mul_cancel_r by lia.
    replace (10 ^ Z.of_nat (d - 6) * 10 ^ 6) with (10 ^ Z.of_nat d) in HW
      by (rewrite <- Z.pow_add_r by lia; f_equal; lia).
    rewrite <- HW, HF. f_equal. f_equal. lia.
  - destruct d as [| d'].
    + (* no decimals: the remainder is zero *)
      change (10 ^ Z.of_nat 0) with 1 in *.
      assert (R = 0) by lia.
      assert (HW0 : W = 0) by (rewrite HW; replace R with 0; apply Z.div_0_l; lia).
      rewrite HW0 in HF. symmetry in HF.
      apply Z.mul_eq_0 in HF as [-> | Hz];
        [| exfalso; pose proof (Z.pow_pos_nonneg 10 (Z.of_nat (m - k))); lia].
      replace R with 0. rewrite Z.div_1_r. lia.
    + (* fewer than six decimals: every digit is kept *)
      assert (Hm : m = S d') by (unfold m; lia).
      rewrite Hm in *.
      replace (Nat.max (S d') 1 - S d')%nat with 0%nat in HW by lia.
      change (10 ^ Z.of_nat 0) with 1 in HW. rewrite Z.div_1_r in HW.
      replace (10 ^ 6) with (10 ^ (6 - Z.of_nat (S d')) * 10 ^ Z.of_nat (S d'))
        by (rewrite <- Z.pow_add_r by lia; f_equal; lia).
      rewrite Z.mul_assoc, Z.div_mul by lia.
      rewrite <- HW, HF.
      replace (6 - Z.of_nat k) with (Z.of_nat (S d' - k) + (6 - Z.of_nat (S d'))) by lia.
      rewrite Z.pow_add_r by lia. ring.
Qed.

Lemma BigInt_toString_nonneg (z : Z) : 0 <= z -> BigInt_toString z = decimal z.
Proof. intros H. unfold BigInt_toString. destruct (Z.ltb_spec z 0); [lia | reflexivity]. Qed.

(** With the divisor equal to [10^d], the formatter returns the amount
    divided by [10^d] and truncated to six fractional digits. *)
Lemma formatValue_with_exact_divisor (P : Platform) (s : string) (n : Z) (d : nat) :
  denotes s n -> exp10 P d = Finite (10 ^ Z.of_nat d) ->
  exists out, formatValue P s d = Ok out /\ renders_truncation out n d.
Proof.
  intros Hs Hexp. pose proof (denotes_bounds s n Hs) as [Hn _].
  assert (Hp : 0 < 10 ^ Z.of_nat d) by (apply Z.pow_pos_nonneg; lia).
  unfold formatValue, divisor_of.
  destruct (negb (truthy_string s) || String.eqb s "0") eqn:Hshort.
  - exists "0". split; [reflexivity |].
    assert (n = 0) as ->.
    { apply orb_prop in Hshort as [Hempty | Hzero].
      - unfold truthy_string in Hempty. apply negb_true_iff, negb_false_iff in Hempty.
        apply String.eqb_eq in Hempty. destruct Hs as [Hne _]. contradiction.
      - apply String.eqb_eq in Hzero. subst s. destruct Hs as [_ Hparse].
        vm_compute in Hparse. congruence. }
    exists "0", "", 0, 0.
    split; [reflexivity |]. split; [split; [discriminate | reflexivity] |].
    split; [reflexivity |]. split; [simpl; lia |]. split; [reflexivity |].
    change (0 * 10 ^ 6) with 0. rewrite Z.div_0_l by lia. reflexivity.
  - rewrite (BigInt_of_string_denotes s n Hs), Hexp. cbn [rbind BigInt_of_number].
    destruct (Z.eqb_spec (10 ^ Z.of_nat d) 0); [lia |]. cbv zeta.
    rewrite Z.quot_div_nonneg, Z.rem_mod_nonneg by lia.
    pose proof (Z.mod_pos_bound n (10 ^ Z.of_nat d) Hp) as HR.
    assert (HI : 0 <= n / 10 ^ Z.of_nat d) by (apply Z.div_pos; lia).
    rewrite (BigInt_toString_nonneg (n mod _)) by lia.
    destruct (padStart0_decimal d _ HR) as [Hpad Hpadlen].
    pose proof (slice0_parse 6 _ _ Hpad) as Hslice.
    pose proof (slice0_length 6 (padStart0 d (decimal (n mod 10 ^ Z.of_nat d)))) as Hslen.
    rewrite Hpadlen in Hslice, Hslen.
    destruct (strip_trailing_zeros_parse _ _ Hslice) as [F [HF [Hk [Hidem HW]]]].
    rewrite Hslen in Hk, HW.
    eexists. split; [reflexivity |].
    exists (BigInt_toString (n / 10 ^ Z.of_nat d)),
      (strip_trailing_zeros (slice0 6 (padStart0 d (decimal (n mod 10 ^ Z.of_nat d))))),
      (n / 10 ^ Z.of_nat d), F.
    split; [reflexivity |].
    split; [apply BigInt_toString_denotes; exact HI |].
    split; [exact HF |].
    split; [lia |].
    split; [exact Hidem |].
    apply (truncation_arith n d _ _ F Hn eq_refl Hk HW).
Qed.

(** ** The divisor [BigInt(10 ** decimals)] *)

(** Up to [10^22] the powers of ten are doubles. *)
Lemma pow10_is_a_double (d : nat) :
  (d <= 22)%nat ->
  round_down (10 ^ Z.of_nat d) = 10 ^ Z.of_nat d /\
  round_up (10 ^ Z.of_nat d) = 10 ^ Z.of_nat d.
Proof.
  intros Hd.
  assert (Hall : forallb (fun k => (round_down (10 ^ Z.of_nat k) =? 10 ^ Z.of_nat k)
                                   && (round_up (10 ^ Z.of_nat k) =? 10 ^ Z.of_nat k))
                   (seq 0 23) = true) by (vm_compute; reflexivity).
  rewrite forallb_forall in Hall.
  specialize (Hall d ltac:(apply in_seq; lia)).
  apply andb_prop in Hall as [H1 H2]. split; apply Z.eqb_eq; assumption.
Qed.

(** From [10^23] on they are not: [10^d] is [5^d * 2^d] with [5^d] odd and
    above [2^53], so the last place of a double at that magnitude is a
    power of two that does not divide it. *)
Lemma pow10_is_not_a_double (d : nat) :
  (23 <= d)%nat ->
  52 < Z.log2 (10 ^ Z.of_nat d) /\
  (10 ^ Z.of_nat d) mod ulp (10 ^ Z.of_nat d) <> 0.
Proof.
  intros Hd. set (e := Z.of_nat d).
  assert (He : 23 <= e) by (unfold e; lia).
  assert (Hsplit : 10 ^ e = 5 ^ e * 2 ^ e).
  { change 10 with (5 * 2). apply Z.pow_mul_l. }
  assert (H5 : 0 < 5 ^ e) by (apply Z.pow_pos_nonneg; lia).
  assert (Hlog : Z.log2 (10 ^ e) = e + Z.log2 (5 ^ e)).
  { rewrite Hsplit. apply Z.log2_mul_pow2; lia. }
  assert (Hl5 : 53 <= Z.log2 (5 ^ e)).
  { change 53 with (Z.log2 (2 ^ 53)). apply Z.log2_le_mono.
    transitivity (5 ^ 23); [vm_compute; discriminate |].
    apply Z.pow_le_mono_r; lia. }
  split; [lia |].
  intros Hmod. apply Z.mod_divide in Hmod;
    [| pose proof (ulp_pos (10 ^ e)); lia].
  destruct Hmod as [q Hq].
  unfold ulp in Hq. rewrite Hlog in Hq.
  replace (e + Z.log2 (5 ^ e) - 52) with (1 + (Z.log2 (5 ^ e) - 53) + e) in Hq by lia.
  rewrite !Z.pow_add_r, Hsplit in Hq by lia.
  assert (H2e : 0 < 2 ^ e) by (apply Z.pow_pos_nonneg; lia).
  assert (Heven : 5 ^ e = 2 * (q * 2 ^ (Z.log2 (5 ^ e) - 53))).
  { apply (Z.mul_reg_r _ _ (2 ^ e)); [lia |]. rewrite Hq. ring. }
  assert (Hodd : Z.odd (5 ^ e) = true) by (rewrite Z.odd_pow by lia; reflexivity).
  rewrite Heven, Z.odd_mul in Hodd. discriminate.
Qed.

Lemma round_of_inexact (n : Z) :
  52 < Z.log2 n -> n mod ulp n <> 0 ->
  0 < round_down n < n /\ n < round_up n.
Proof.
  intros Hbig Hmod. pose proof (ulp_pos n Hbig) as Hulp.
  unfold round_down, round_up.
  destruct (Z.leb_spec (Z.log2 n) 52); [lia |].
  destruct (Z.eqb_spec (n mod ulp n) 0); [contradiction |].
  pose proof (Z.div_mod n (ulp n) ltac:(lia)) as Hdm.
  pose proof (Z.mod_pos_bound n (ulp n) Hulp) as Hr.
  assert (Hn : 0 < n).
  { destruct (Z_lt_le_dec 0 n); [assumption |].
    rewrite Z.log2_nonpos in Hbig by assumption. lia. }
  assert (Hq : 0 < n / ulp n).
  { apply Z.div_str_pos. split; [exact Hulp |].
    pose proof (Z.log2_spec n Hn) as [Hlow _].
    unfold ulp. transitivity (2 ^ Z.log2 n); [| exact Hlow].
    apply Z.pow_le_mono_r; lia. }
  nia.
Qed.

(** On a platform whose [**] is faithful, the divisor of the formatter is
    [10^decimals] exactly when [decimals] is at most 22: from 23 decimals
    on it is a double next to the power, and past 308 the conversion of
    [Infinity] throws. *)
Theorem divisor_is_the_power_up_to_22_decimals (P : Platform) (d : nat) :
  faithful_exp10 P ->
  (divisor_of P d = Ok (10 ^ Z.of_nat d) <-> (d <= 22)%nat).
Proof.
  intros HP. specialize (HP d). unfold divisor_of. split.
  - intros Hdiv. destruct (le_lt_dec d 22) as [| Hbig]; [assumption | exfalso].
    destruct (Nat.leb_spec d 308).
    + destruct HP as [z [Hz Hround]]. rewrite Hz in Hdiv.
      cbn [BigInt_of_number] in Hdiv. apply Ok_inj in Hdiv. subst z.
      destruct (pow10_is_not_a_double d ltac:(lia)) as [Hlog Hmod].
      pose proof (round_of_inexact _ Hlog Hmod). lia.
    + rewrite HP in Hdiv. discriminate.
  - intros Hd. destruct (Nat.leb_spec d 308); [| lia].
    destruct HP as [z [Hz Hround]]. rewrite Hz. cbn [BigInt_of_number].
    destruct (pow10_is_a_double d Hd) as [Hdown Hup]. f_equal. lia.
Qed.

Lemma divisor_is_the_power_up_to_22_decimals_witness :
  divisor_of Sample.platform 18 = Ok (10 ^ Z.of_nat 18) <-> (18 <= 22)%nat.
Proof.
  apply (divisor_is_the_power_up_to_22_decimals Sample.platform 18).
  apply exp10_nearest_faithful. reflexivity.
Defined.

(** On a platform whose [**] is faithful and for at most 22 decimals, the
    formatter returns, for every string of decimal digits, the amount
    divided by [10^decimals] and truncated to six fractional digits, with
    no trailing zero and no decimal point when no digit is left. *)
Theorem formatValue_truncates_up_to_22_decimals
    (P : Platform) (s : string) (n : Z) (d : nat) :
  faithful_exp10 P -> (d <= 22)%nat -> denotes s n ->
  exists out, formatValue P s d = Ok out /\ renders_truncation out n d.
Proof.
  intros HP Hd Hs. apply formatValue_with_exact_divisor; [exact Hs |].
  specialize (HP d). destruct (Nat.leb_spec d 308); [| lia].
  destruct HP as [z [Hz Hround]]. rewrite Hz.
  destruct (pow10_is_a_double d Hd) as [Hdown Hup]. f_equal. lia.
Qed.

Lemma formatValue_truncates_up_to_22_decimals_witness :
  exists out,
    formatValue Sample.platform "1234567890123456789" 18 = Ok out /\
    renders_truncation out 1234567890123456789 18.
Proof.
  apply (formatValue_truncates_up_to_22_decimals Sample.platform
           "1234567890123456789" 1234567890123456789 18).
  - apply exp10_nearest_faithful. reflexivity.
  - lia.
  - split; [discriminate | reflexivity].
Defined.

Lemma string_app_cons (c : ascii) (a b : string) : String c a +:+ b = String c (a +:+ b).
Proof. reflexivity. Qed.

(** What the formatter returns for a positive amount: the quotient, then
    the fractional digits if any is left. *)
Lemma formatValue_quotient (P : Platform) (m : Z) (d : nat) (z : Z) :
  0 < m -> exp10 P d = Finite z -> z <> 0 ->
  exists fs,
    formatValue P (decimal m) d
    = Ok (if truthy_string fs then BigInt_toString (Z.quot m z) +:+ "." +:+ fs
          else BigInt_toString (Z.quot m z)).
Proof.
  intros Hm Hexp Hz.
  destruct (decimal_spec m ltac:(lia)) as [Hden _].
  unfold formatValue, divisor_of.
  destruct (negb (truthy_string (decimal m)) || String.eqb (decimal m) "0") eqn:Hshort.
  - exfalso. apply orb_prop in Hshort as [Hempty | Hzero].
    + unfold truthy_string in Hempty. apply negb_true_iff, negb_false_iff in Hempty.
      apply String.eqb_eq in Hempty. destruct Hden as [Hne _]. contradiction.
    + apply String.eqb_eq in Hzero. destruct Hden as [_ Hparse].
      rewrite Hzero in Hparse. vm_compute in Hparse. injection Hparse as Hparse. lia.
  - rewrite (BigInt_of_string_denotes _ m Hden), Hexp. cbn [rbind BigInt_of_number].
    destruct (Z.eqb_spec z 0); [contradiction |]. cbv zeta. eexists. reflexivity.
Qed.

(** A rendering that starts with a one-digit integer part has that digit
    for its integer part. *)
Lemma rendering_integer_part (ip fs fs' : string) (I : Z) (c : ascii) :
  denotes ip I ->
  (if truthy_string fs then ip +:+ "." +:+ fs else ip)
  = (if truthy_string fs' then String c "" +:+ "." +:+ fs' else String c "") ->
  ip = String c "".
Proof.
  intros [Hne Hparse] Heq. pose proof (parse_radix_decimal _ _ _ Hparse) as Hdec.
  destruct ip as [| a [| b ip]]; [contradiction | |].
  - destruct (truthy_string fs), (truthy_string fs');
      rewrite ?string_app_cons in Heq; injection Heq; intros; subst; reflexivity.
  - exfalso. cbn [all_decimal] in Hdec.
    apply andb_prop in Hdec as [_ Hdec]. apply andb_prop in Hdec as [Hb _].
    destruct (truthy_string fs), (truthy_string fs');
      rewrite ?string_app_cons in Heq;
      change ("" +:+ "." +:+ fs') with (String "." fs') in Heq;
      simplify_eq; vm_compute in Hb; discriminate.
Qed.

(** On a platform whose [**] is faithful, every number of decimals from
    23 to 308 has an amount that the formatter mis-scales: the divisor is
    a double next to [10^decimals], and the amount equal to the smaller of
    the two is rendered as the other divided by it. *)
Theorem formatValue_mis_scales_past_22_decimals (P : Platform) (d : nat) :
  faithful_exp10 P -> (23 <= d <= 308)%nat ->
  exists (s : string) (n : Z) (out : string),
    denotes s n /\ formatValue P s d = Ok out /\ ~ renders_truncation out n d.
Proof.
  intros HP Hd. specialize (HP d). destruct (Nat.leb_spec d 308); [| lia].
  destruct HP as [z [Hz Hround]].
  destruct (pow10_is_not_a_double d ltac:(lia)) as [Hlog Hmod].
  destruct (round_of_inexact _ Hlog Hmod) as [[Hpos Hbelow] Habove].
  set (p := 10 ^ Z.of_nat d) in *.
  assert (Hp : 0 < p) by (apply Z.pow_pos_nonneg; lia).
  destruct Hround as [Hdown | Hup].
  - (* the divisor is below the power: the divisor itself is rendered as 1 *)
    assert (Hzp : 0 < z < p) by lia.
    destruct (formatValue_quotient P z d z ltac:(lia) Hz ltac:(lia)) as [fs' Hout].
    rewrite Z.quot_same in Hout by lia.
    exists (decimal z), z. eexists.
    split; [apply decimal_spec; lia |]. split; [exact Hout |].
    intros (ip & fs & I & F & Heq & Hip & HF & Hlen & _ & Hval).
    symmetry in Heq.
    pose proof (rendering_integer_part ip fs fs' I "1" Hip Heq) as ->.
    destruct Hip as [_ Hip]. vm_compute in Hip. injection Hip as <-.
    pose proof (parse_radix_decimal _ _ _ HF) as Hdec.
    destruct (all_decimal_parse fs Hdec) as [v [Hv Hb]].
    assert (v = F) by congruence. subst v.
    assert (Hlt : z * 10 ^ 6 / p < 10 ^ 6) by (apply Z.div_lt_upper_bound; nia).
    assert (0 <= 10 ^ (6 - Z.of_nat (String.length fs))) by (apply Z.pow_nonneg; lia).
    fold p in Hval.
    assert (0 <= F * 10 ^ (6 - Z.of_nat (String.length fs)))
      by (apply Z.mul_nonneg_nonneg; lia).
    lia.
  - (* the divisor is above the power: the power is rendered below 1 *)
    assert (Hzp : p < z) by lia.
    destruct (formatValue_quotient P p d z Hp Hz ltac:(lia)) as [fs' Hout].
    rewrite Z.quot_small in Hout by lia.
    exists (decimal p), p. eexists.
    split; [apply decimal_spec; lia |]. split; [exact Hout |].
    intros (ip & fs & I & F & Heq & Hip & HF & Hlen & _ & Hval).
    symmetry in Heq.
    pose proof (rendering_integer_part ip fs fs' I "0" Hip Heq) as ->.
    destruct Hip as [_ Hip]. vm_compute in Hip. injection Hip as <-.
    pose proof (parse_radix_decimal _ _ _ HF) as Hdec.
    destruct (all_decimal_parse fs Hdec) as [v [Hv Hb]].
    assert (v = F) by congruence. subst v.
    fold p in Hval. rewrite (Z.mul_comm p), Z.div_mul in Hval by lia.
    set (k := Z.of_nat (String.length fs)) in *.
    assert (Hk : 0 <= k <= 6) by lia.
    assert (Hsplit : 10 ^ 6 = 10 ^ k * 10 ^ (6 - k))
      by (rewrite <- Z.pow_add_r by lia; f_equal; lia).
    assert (0 < 10 ^ (6 - k)) by (apply Z.pow_pos_nonneg; lia).
    nia.
Qed.

Lemma formatValue_mis_scales_past_22_decimals_witness :
  exists (s : string) (n : Z) (out : string),
    denotes s n /\ formatValue Sample.platform s 24 = Ok out /\
    ~ renders_truncation out n 24.
Proof.
  apply (formatValue_mis_scales_past_22_decimals Sample.platform 24).
  - apply exp10_nearest_faithful. reflexivity.
  - lia.
Defined.

(** Past 308 decimals the power overflows: for every value but the empty
    string and ['0'] that [BigInt] reads, the formatter throws the
    RangeError of [BigInt(Infinity)]. *)
Theorem formatValue_rejects_past_308_decimals
    (P : Platform) (s : string) (num : Z) (d : nat) :
  faithful_exp10 P -> (308 < d)%nat ->
  s <> "" -> s <> "0" -> BigInt_of_string s = Ok num ->
  formatValue P s d
  = Throw (RangeError
      "The number Infinity cannot be converted to a BigInt because it is not an integer").
Proof.
  intros HP Hd Hne Hnz Hnum. specialize (HP d).
  destruct (Nat.leb_spec d 308); [lia |].
  unfold formatValue, divisor_of, truthy_string.
  destruct (String.eqb_spec s ""); [contradiction |].
  destruct (String.eqb_spec s "0"); [contradiction |].
  cbn [negb orb]. rewrite Hnum, HP. reflexivity.
Qed.

Lemma formatValue_rejects_past_308_decimals_witness :
  formatValue Sample.platform "1" 309
  = Throw (RangeError
      "The number Infinity cannot be converted to a BigInt because it is not an integer").
Proof.
  apply (formatValue_rejects_past_308_decimals Sample.platform "1" 1 309).
  - apply exp10_nearest_faithful. reflexivity.
  - lia.
  - discriminate.
  - discriminate.
  - reflexivity.
Defined.

(** ** Amounts that arrive as JSON numbers *)

Lemma shortest_at_large (z : Z) (j : nat) (D : Z) :
  10 ^ 21 <= z -> shortest_at z j = Some D -> 10 ^ 21 <= D.
Proof.
  intros Hz. unfold shortest_at. cbv zeta.
  set (p := 10 ^ Z.of_nat j).
  assert (Hp : 0 < p) by (apply Z.pow_pos_nonneg; lia).
  pose proof (Z.div_mod z p ltac:(lia)) as Hdm.
  pose proof (Z.mod_pos_bound z p Hp) as Hr.
  assert (Hlo : round_nearest_even (z / p * p) = z -> 10 ^ 21 <= z / p * p).
  { intros Hround. destruct (le_lt_dec j 21) as [Hsmall | Hbig].
    - assert (Hsplit : 10 ^ 21 = 10 ^ (21 - Z.of_nat j) * p).
      { unfold p. rewrite <- Z.pow_add_r by lia. f_equal. lia. }
      rewrite Hsplit in Hz |- *.
      apply Z.mul_le_mono_nonneg_r; [lia |].
      apply Z.div_le_lower_bound; lia.
    - assert (Hpbig : 10 ^ 22 <= p) by (apply Z.pow_le_mono_r; lia).
      destruct (Z.eq_dec (z / p) 0) as [Hq | Hq].
      + rewrite Hq in Hround. vm_compute in Hround. subst z. vm_compute in Hz.
        contradiction Hz. reflexivity.
      + assert (0 <= z / p) by (apply Z.div_pos; lia). nia. }
  destruct (Z.eqb_spec (round_nearest_even (z / p * p)) z) as [Hl | _];
    destruct (round_nearest_even (z / p * p + p) =? z);
    intros HD; try discriminate; injection HD as <-;
    repeat match goal with |- context [if ?b then _ else _] => destruct b end;
    try (apply Hlo; exact Hl); lia.
Qed.

Lemma shortest_decimal_large (z : Z) : 10 ^ 21 <= z -> 10 ^ 21 <= shortest_decimal z.
Proof.
  intros Hz. unfold shortest_decimal. generalize (String.length (decimal z)).
  induction n as [| j IH]; cbn [shortest_from];
    destruct (shortest_at z _) as [D |] eqn:HD;
    eauto using shortest_at_large.
Qed.

Lemma trim_end_app_decimal (a e : string) :
  all_decimal e = true -> e <> "" -> trim_end (a +:+ e) = a +:+ e.
Proof.
  intros He Hne. induction a as [| x a IH].
  - apply trim_end_decimal. exact He.
  - rewrite string_app_cons. cbn [trim_end]. rewrite IH.
    destruct (a +:+ e) eqn:Hae; [| reflexivity].
    destruct a; [contradiction | discriminate].
Qed.

(** [BigInt] does not read exponent notation. *)
Lemma StringToBigInt_exponent_notation (D : Z) :
  0 < D -> StringToBigInt (exponent_notation D) = None.
Proof.
  intros HD. unfold exponent_notation. cbv zeta.
  destruct (decimal_spec D ltac:(lia)) as [[Hne Hparse] _].
  destruct (strip_trailing_zeros_parse _ _ Hparse) as [F [HF [_ [_ HW]]]].
  destruct (decimal_spec (Z.of_nat (String.length (decimal D)) - 1)) as [[Hene Heparse] _].
  { destruct (decimal D); [contradiction | simpl; lia]. }
  pose proof (parse_radix_decimal _ _ _ Heparse) as Hedec.
  set (e := decimal (Z.of_nat (String.length (decimal D)) - 1)) in *.
  destruct (strip_trailing_zeros (decimal D)) as [| c rest] eqn:Hstrip.
  { exfalso. cbn [parse_radix] in HF. injection HF as <-. lia. }
  pose proof (parse_radix_decimal _ _ _ HF) as Hdec.
  cbn [all_decimal] in Hdec. apply andb_prop in Hdec as [Hc _].
  destruct (is_decimal_char c Hc) as [dc [_ [Hr [Hcdc Hws]]]].
  assert (Hshape : exists mid,
            (match rest with
             | "" => String c ("e+" +:+ e)
             | _ => String c ("." +:+ rest +:+ "e+" +:+ e)
             end) = String c (mid +:+ e) /\
            (exists m, mid = String "e" m \/ mid = String "." m)).
  { destruct rest as [| r rest'].
    - exists "e+". split; [reflexivity | eauto].
    - exists ("." +:+ String r rest' +:+ "e+"). split; [| eauto].
      rewrite !string_app_assoc. reflexivity. }
  destruct Hshape as [mid [-> [m Hmid]]].
  unfold StringToBigInt, trim. cbn [trim_start]. rewrite Hws.
  rewrite <- string_app_cons, (trim_end_app_decimal _ e Hedec Hene), string_app_cons.
  assert (Hd : dc = 0 \/ dc = 1 \/ dc = 2 \/ dc = 3 \/ dc = 4 \/ dc = 5 \/ dc = 6
               \/ dc = 7 \/ dc = 8 \/ dc = 9) by lia.
  subst c.
  destruct Hmid as [-> | ->]; rewrite string_app_cons;
    repeat (destruct Hd as [-> | Hd]; [vm_compute; reflexivity |]);
    subst dc; vm_compute; reflexivity.
Qed.

(** A JSON number from [10^21] on prints in exponent notation, which the
    formatter cannot read. *)
Lemma formatValue_number_from_1e21 (P : Platform) (z : Z) (d : nat) :
  10 ^ 21 <= z ->
  formatValue P (Number_toString (Finite z)) d
  = Throw (SyntaxError ("Cannot convert " +:+ Number_toString (Finite z)
                        +:+ " to a BigInt")).
Proof.
  intros Hz. pose proof (shortest_decimal_large z Hz) as HD.
  assert (Hrender : Number_toString (Finite z) = exponent_notation (shortest_decimal z)).
  { unfold Number_toString, render_natural.
    destruct (Z.eqb_spec z 0); [lia |]. destruct (Z.ltb_spec z 0); [lia |].
    destruct (Z.ltb_spec (shortest_decimal z) (10 ^ 21)); [lia | reflexivity]. }
  pose proof (StringToBigInt_exponent_notation (shortest_decimal z) ltac:(lia)) as Hnone.
  rewrite <- Hrender in Hnone.
  unfold formatValue, BigInt_of_string. rewrite Hnone.
  destruct (negb (truthy_string (Number_toString (Finite z)))
            || String.eqb (Number_toString (Finite z)) "0") eqn:Hshort; [| reflexivity].
  exfalso. apply orb_prop in Hshort as [Hempty | Hzero].
  - unfold truthy_string in Hempty. apply negb_true_iff, negb_false_iff in Hempty.
    apply String.eqb_eq in Hempty. rewrite Hempty in Hnone. discriminate.
  - apply String.eqb_eq in Hzero. rewrite Hzero in Hnone. discriminate.
Qed.

Lemma rmap_throws {A B} (f : A -> JsResult B) (xs : list A) (x : A) (e : JsError) :
  In x xs -> f x = Throw e -> exists e', rmap f xs = Throw e'.
Proof.
  intros Hin Hx. induction xs as [| y ys IH]; [contradiction |].
  cbn [rmap]. destruct (f y) as [b | ey] eqn:Hy; [| eexists; reflexivity].
  cbn [rbind]. destruct Hin as [-> | Hin]; [congruence |].
  destruct (IH Hin) as [e' ->]. eexists. reflexivity.
Qed.

(** One NEAR transaction whose deposit is a JSON number from [10^21] on
    (a thousandth of a NEAR, in yoctoNEAR) makes the whole call reject,
    after its one request; when the transaction is the first of the page,
    with the SyntaxError of [BigInt] on the exponent notation. *)
Theorem near_deposit_from_1e21_rejects_the_page
    (P : Platform) (net : Network) (address : string) (chain : ChainConfig)
    (pageArg limitArg : Z) (data : NearData) (txns : list NearTx) (tx : NearTx)
    (z : Z) (log : list Request) :
  nearblocks_api net (near_request address pageArg limitArg) = Ok data ->
  near_txns data = Some txns ->
  In tx txns -> near_deposit tx = Some z -> 10 ^ 21 <= z ->
  (exists error,
     fetchNearTransactions P net address chain pageArg limitArg log
     = (Throw error, (log ++ [near_request address pageArg limitArg])%list)) /\
  (hd_error txns = Some tx ->
   fetchNearTransactions P net address chain pageArg limitArg log
   = (Throw (SyntaxError ("Cannot convert " +:+ str z +:+ " to a BigInt")),
      (log ++ [near_request address pageArg limitArg])%list)).
Proof.
  intros Hnet Htxns Hin Hdep Hz.
  assert (Htx : parseNearTransaction P chain tx
                = Throw (SyntaxError ("Cannot convert " +:+ str z +:+ " to a BigInt"))).
  { unfold parseNearTransaction. cbv zeta. rewrite Hdep. cbn [default].
    unfold str at 1. rewrite (formatValue_number_from_1e21 P z _ Hz). reflexivity. }
  unfold fetchNearTransactions. rewrite single_attempt.
  unfold attempt. rewrite Hnet. cbn [rbind]. unfold near_response. rewrite Htxns.
  split.
  - destruct (rmap_throws _ txns tx _ Hin Htx) as [e' ->]. eexists. reflexivity.
  - intros Hhd. destruct txns as [| tx0 rest]; [discriminate |].
    injection Hhd as ->. cbn [rmap]. rewrite Htx. reflexivity.
Qed.

Lemma near_deposit_from_1e21_rejects_the_page_witness :
  str 999999999999999983222784 = "1e+24" /\
  fetchNearTransactions Sample.platform Fixture.near_network "alice.near" Sample.near
    1 50 []
  = (Throw (SyntaxError ("Cannot convert " +:+ str 999999999999999983222784
                         +:+ " to a BigInt")),
     ([] ++ [near_request "alice.near" 1 50])%list).
Proof.
  split; [vm_compute; reflexivity |].
  apply (near_deposit_from_1e21_rejects_the_page Sample.platform Fixture.near_network
           "alice.near" Sample.near 1 50
           {| near_txns := Some [Fixture.near_transfer]; near_count := 1 |}
           [Fixture.near_transfer] Fixture.near_transfer 999999999999999983222784 []).
  - reflexivity.
  - reflexivity.
  - left. reflexivity.
  - reflexivity.
  - vm_compute. discriminate.
  - reflexivity.
Defined.

(** ** The mock generator *)

Lemma round_nearest_even_bounds (x : Z) :
  0 <= x -> 0 <= round_nearest_even x <= 2 * x.
Proof.
  intros Hx. unfold round_nearest_even.
  destruct (Z.leb_spec (Z.log2 x) 52) as [| Hbig]; [lia |].
  pose proof (ulp_pos x Hbig) as Hu. cbv zeta.
  assert (Hpos : 0 < x).
  { destruct (Z_lt_le_dec 0 x); [assumption |].
    rewrite Z.log2_nonpos in Hbig by assumption. lia. }
  assert (Hux : ulp x <= x).
  { pose proof (Z.log2_spec x Hpos) as [Hlow _].
    unfold ulp. transitivity (2 ^ Z.log2 x); [| exact Hlow].
    apply Z.pow_le_mono_r; lia. }
  pose proof (Z.div_mod x (ulp x) ltac:(lia)) as Hdm.
  pose proof (Z.mod_pos_bound x (ulp x) Hu) as Hr.
  assert (0 <= x / ulp x) by (apply Z.div_pos; lia).
  destruct (_ || _); nia.
Qed.

Lemma shortest_at_small (z : Z) (j : nat) (D : Z) :
  0 <= z < 10 ^ 21 -> (j <= 21)%nat -> shortest_at z j = Some D -> 0 <= D < 10 ^ 21.
Proof.
  intros Hz Hj. unfold shortest_at. cbv zeta.
  set (p := 10 ^ Z.of_nat j).
  assert (Hp : 0 < p) by (apply Z.pow_pos_nonneg; lia).
  pose proof (Z.div_mod z p ltac:(lia)) as Hdm.
  pose proof (Z.mod_pos_bound z p Hp) as Hr.
  assert (Hq : 0 <= z / p) by (apply Z.div_pos; lia).
  assert (Hsplit : 10 ^ 21 = 10 ^ (21 - Z.of_nat j) * p).
  { unfold p. rewrite <- Z.pow_add_r by lia. f_equal. lia. }
  assert (Hhi : round_nearest_even (z / p * p + p) = z -> z / p * p + p < 10 ^ 21).
  { intros Hround.
    assert (Hle : z / p * p + p <= 10 ^ 21).
    { assert (z / p < 10 ^ (21 - Z.of_nat j))
        by (apply Z.div_lt_upper_bound; lia).
      rewrite Hsplit. nia. }
    destruct (Z.eq_dec (z / p * p + p) (10 ^ 21)) as [Heq | ]; [| lia].
    rewrite Heq in Hround. vm_compute in Hround. subst z. vm_compute in Hz.
    destruct Hz as [_ Hz]. discriminate. }
  destruct (round_nearest_even (z / p * p) =? z);
    destruct (Z.eqb_spec (round_nearest_even (z / p * p + p)) z) as [Hh | _];
    intros HD; try discriminate; injection HD as <-;
    repeat match goal with |- context [if ?b then _ else _] => destruct b end;
    try (specialize (Hhi Hh)); nia.
Qed.

Lemma shortest_decimal_small (z : Z) :
  0 <= z < 10 ^ 21 -> 0 <= shortest_decimal z < 10 ^ 21.
Proof.
  intros Hz. unfold shortest_decimal.
  pose proof (decimal_length z 21 Hz ltac:(lia)) as Hlen.
  revert Hlen. generalize (String.length (decimal z)).
  induction n as [| j IH]; intros Hj; cbn [shortest_from];
    destruct (shortest_at z _) as [D |] eqn:HD;
    try (apply (shortest_at_small z _ D Hz Hj HD)); [exact Hz | apply IH; lia].
Qed.

(** A Number below [10^21] prints as a string of decimal digits. *)
Lemma Number_toString_small (z : Z) :
  0 <= z < 10 ^ 21 -> exists D, denotes (Number_toString (Finite z)) D.
Proof.
  intros Hz. unfold Number_toString.
  destruct (Z.eqb_spec z 0); [exists 0; split; [discriminate | reflexivity] |].
  destruct (Z.ltb_spec z 0); [lia |]. unfold render_natural.
  pose proof (shortest_decimal_small z Hz) as HD.
  destruct (Z.ltb_spec (shortest_decimal z) (10 ^ 21)); [| lia].
  exists (shortest_decimal z). apply decimal_spec. lia.
Qed.

Lemma random_amount_denotes (P : Platform) (m e : Z) :
  faithful_exp10 P -> 0 <= m < 2 ^ 53 -> e <= 20 ->
  exists D, denotes (Number_toString (random_amount P m e)) D.
Proof.
  intros HP Hm He. unfold random_amount.
  destruct (Z.ltb_spec e 0); [exists 0; split; [discriminate | reflexivity] |].
  specialize (HP (Z.to_nat e)).
  destruct (Nat.leb_spec (Z.to_nat e) 308); [| lia].
  destruct HP as [n [-> Hround]].
  destruct (pow10_is_a_double (Z.to_nat e) ltac:(lia)) as [Hdown Hup].
  assert (Hn : n = 10 ^ e) by (rewrite Z2Nat.id in * by lia; lia).
  apply Number_toString_small. unfold random_below.
  assert (Hpow : 0 < 10 ^ e <= 10 ^ 20)
    by (split; [apply Z.pow_pos_nonneg; lia | apply Z.pow_le_mono_r; lia]).
  pose proof (round_nearest_even_bounds (m * n) ltac:(nia)) as Hb.
  split; [apply Z.div_pos; lia |].
  apply Z.div_lt_upper_bound; [lia |].
  change (10 ^ 20) with 100000000000000000000 in Hpow.
  change (10 ^ 21) with 1000000000000000000000.
  change (2 ^ 53) with 9007199254740992 in *. nia.
Qed.

Lemma rmap_returns {A B} (f : A -> JsResult B) (xs : list A) :
  (forall x, exists y, f x = Ok y) -> exists ys, rmap f xs = Ok ys.
Proof.
  intros Hf. induction xs as [| x xs [ys IH]]; [eexists; reflexivity |].
  destruct (Hf x) as [y Hy]. cbn [rmap]. rewrite Hy, IH. eexists. reflexivity.
Qed.

Lemma exp10_exact_up_to_22 (P : Platform) (d : nat) :
  faithful_exp10 P -> (d <= 22)%nat -> exp10 P d = Finite (10 ^ Z.of_nat d).
Proof.
  intros HP Hd. specialize (HP d). destruct (Nat.leb_spec d 308); [| lia].
  destruct HP as [z [Hz Hround]]. rewrite Hz.
  destruct (pow10_is_a_double d Hd) as [Hdown Hup]. f_equal. lia.
Qed.

(** On a platform whose [**] is faithful and whose draws are in range,
    the mock generator returns, for a chain of at most 22 decimals and a
    [count] below [2^32], exactly [count] transactions (none for a
    negative [count]), each with the identity of the chain and formatted
    amounts that derive from the raw ones. From [2^32] on, [count] is no
    array length and [Array.from] throws, whatever the chain and the
    platform. *)
Theorem mock_generator_returns_count_transactions
    (P : Platform) (address : string) (chain : ChainConfig) (count : Z) :
  faithful_exp10 P -> random_in_range P -> (c_decimals chain <= 22)%nat ->
  (count < 2 ^ 32 ->
   exists ts,
     generateMockTransactions P address chain count = Ok ts /\
     length ts = Z.to_nat count /\
     Forall (fun t => tx_chainId t = c_id chain /\ formatted_from_raw P chain t) ts) /\
  (2 ^ 32 <= count ->
   generateMockTransactions P address chain count
   = Throw (RangeError "Invalid array length")).
Proof.
  intros HP Hrand Hd. unfold generateMockTransactions.
  destruct (Z.leb_spec (2 ^ 32) count) as [Hbig | Hsmall];
    (split; [intros Hlt | intros Hge; try reflexivity]); try lia.
  assert (Hdiv : exists z, exp10 P (c_decimals chain) = Finite z /\ z <> 0).
  { pose proof (exp10_exact_up_to_22 P (c_decimals chain) HP Hd) as Hz.
    exists (10 ^ Z.of_nat (c_decimals chain)). split; [exact Hz |].
    pose proof (Z.pow_pos_nonneg 10 (Z.of_nat (c_decimals chain))). lia. }
  destruct Hdiv as [z [Hz Hz0]].
  assert (Hone : forall i, exists t, mockTransaction P address chain i = Ok t).
  { intros i. unfold mockTransaction. cbv zeta.
    destruct (random_amount_denotes P (random P (110 * i + 3))
                (Z.of_nat (c_decimals chain) - 2) HP (Hrand _) ltac:(lia)) as [V HV].
    destruct (random_amount_denotes P (random P (110 * i + 4))
                (Z.of_nat (c_decimals chain) - 6) HP (Hrand _) ltac:(lia)) as [F HF].
    destruct (formatValue_returns P _ V _ z HV Hz Hz0) as [vf ->].
    destruct (formatValue_returns P _ F _ z HF Hz Hz0) as [ff ->].
    eexists. reflexivity. }
  destruct (rmap_returns (mockTransaction P address chain) (seq 0 (Z.to_nat count)) Hone)
    as [ts Hts].
  exists ts. split; [exact Hts |].
  split; [rewrite (rmap_length _ _ _ Hts); apply length_seq |].
  refine (rmap_Forall _ _ _ _ _ Hts). intros i t Ht.
  unfold mockTransaction in Ht. cbv zeta in Ht.
  apply rbind_Ok in Ht as [vf [Hvf Ht]]. apply rbind_Ok in Ht as [ff [Hff Ht]].
  apply Ok_inj in Ht. subst t. split; [reflexivity |].
  split; [exact Hvf | exact Hff].
Qed.

Lemma mock_generator_returns_count_transactions_witness :
  (exists ts,
     generateMockTransactions Sample.platform "0x01" Sample.ethereum 3 = Ok ts /\
     length ts = Z.to_nat 3 /\
     Forall (fun t => tx_chainId t = c_id Sample.ethereum
                      /\ formatted_from_raw Sample.platform Sample.ethereum t) ts) /\
  generateMockTransactions Sample.platform "0x01" Sample.ethereum (2 ^ 32)
  = Throw (RangeError "Invalid array length").
Proof.
  assert (Hf : faithful_exp10 Sample.platform)
    by (apply exp10_nearest_faithful; reflexivity).
  assert (Hr : random_in_range Sample.platform) by (intros k; simpl; lia).
  split.
  - apply (mock_generator_returns_count_transactions Sample.platform "0x01"
             Sample.ethereum 3 Hf Hr); simpl; lia.
  - apply (mock_generator_returns_count_transactions Sample.platform "0x01"
             Sample.ethereum (2 ^ 32) Hf Hr); simpl; lia.
Defined.

(** Rounding to nearest does not go below a double that the number
    reaches. *)
Lemma round_nearest_even_ge (x y : Z) :
  0 < y -> y <= x -> (52 < Z.log2 y -> y mod ulp y = 0) ->
  y <= round_nearest_even x.
Proof.
  intros Hy Hyx Hdouble. unfold round_nearest_even.
  destruct (Z.leb_spec (Z.log2 x) 52) as [| Hbig]; [lia |].
  pose proof (ulp_pos x Hbig) as Hu. cbv zeta.
  pose proof (Z.div_mod x (ulp x) ltac:(lia)) as Hdm.
  pose proof (Z.mod_pos_bound x (ulp x) Hu) as Hr.
  pose proof (Z.log2_spec x ltac:(lia)) as [Hxlow _].
  pose proof (Z.log2_spec y Hy) as [_ Hyup].
  pose proof (Z.log2_le_mono y x Hyx) as Hlog.
  assert (Hfloor : y <= x / ulp x * ulp x).
  { destruct (Z.eq_dec (Z.log2 y) (Z.log2 x)) as [Heq | Hne].
    - assert (Hyu : ulp y = ulp x) by (unfold ulp; rewrite Heq; reflexivity).
      specialize (Hdouble ltac:(lia)). rewrite Hyu in Hdouble.
      apply Z.mod_divide in Hdouble; [| lia]. destruct Hdouble as [k ->].
      apply Z.mul_le_mono_nonneg_r; [lia |].
      apply Z.div_le_lower_bound; lia.
    - assert (Hpow : 2 ^ Z.log2 x = 2 ^ 52 * ulp x).
      { unfold ulp. rewrite <- Z.pow_add_r by lia. f_equal. lia. }
      assert (2 ^ 52 <= x / ulp x) by (apply Z.div_le_lower_bound; lia).
      assert (2 ^ Z.succ (Z.log2 y) <= 2 ^ Z.log2 x) by (apply Z.pow_le_mono_r; lia).
      nia. }
  destruct (_ || _); nia.
Qed.

(** For a chain of 24 decimals, as NEAR is, the amounts of the mock
    generator range up to [10^22]: for a [count] that is an array length
    and not zero, whenever the draw for the first value is at least one
    tenth, the value prints in exponent notation and the generator throws
    the SyntaxError of [BigInt], whatever the other draws. *)
Theorem mock_generator_throws_on_24_decimals
    (P : Platform) (address : string) (chain : ChainConfig) (count : Z) :
  faithful_exp10 P -> c_decimals chain = 24%nat -> 0 < count < 2 ^ 32 ->
  2 ^ 53 <= 10 * random P 3 ->
  generateMockTransactions P address chain count
  = Throw (SyntaxError ("Cannot convert " +:+ str (random_below (random P 3) (10 ^ 22))
                        +:+ " to a BigInt")).
Proof.
  intros HP Hdec Hcount Hdraw.
  pose proof (exp10_exact_up_to_22 P 22 HP ltac:(lia)) as Hexp.
  assert (Hlarge : 10 ^ 21 <= random_below (random P 3) (10 ^ 22)).
  { unfold random_below. apply Z.div_le_lower_bound; [lia |].
    apply round_nearest_even_ge.
    - vm_compute. reflexivity.
    - change (10 ^ 22) with (10 * 10 ^ 21).
      change (10 ^ 21) with 1000000000000000000000. lia.
    - intros _. vm_compute. reflexivity. }
  unfold generateMockTransactions.
  destruct (Z.leb_spec (2 ^ 32) count); [lia |].
  destruct (Z.to_nat count) as [| n] eqn:Hn; [lia |].
  cbn [seq rmap]. unfold mockTransaction. cbv zeta. rewrite Hdec.
  change (Z.of_nat 24 - 2) with 22. change (110 * 0 + 3)%nat with 3%nat.
  unfold random_amount at 1. change (22 <? 0) with false. cbv iota.
  change (Z.to_nat 22) with 22%nat. rewrite Hexp.
  change (Z.of_nat 22) with 22. unfold str.
  rewrite (formatValue_number_from_1e21 P _ 24 Hlarge). reflexivity.
Qed.

Lemma mock_generator_throws_on_24_decimals_witness :
  str (random_below (random Sample.platform 3) (10 ^ 22)) = "5e+21" /\
  generateMockTransactions Sample.platform "alice.near" Sample.near 50
  = Throw (SyntaxError ("Cannot convert "
                        +:+ str (random_below (random Sample.platform 3) (10 ^ 22))
                        +:+ " to a BigInt")).
Proof.
  split; [vm_compute; reflexivity |].
  apply (mock_generator_throws_on_24_decimals Sample.platform "alice.near" Sample.near 50).
  - apply exp10_nearest_faithful. reflexivity.
  - reflexivity.
  - lia.
  - vm_compute. discriminate.
Defined.

(** ** The Blockstream fallback of the Bitcoin fetcher *)

(** [xs.slice(offset, offset + limit)] for a non-negative offset and
    limit: [limit] elements from [offset] on, or as many as are left. *)
Lemma array_slice_window {A} (offset lim : Z) (xs : list A) :
  0 <= offset -> 0 <= lim ->
  array_slice offset (offset + lim) xs
  = take (Z.to_nat lim) (drop (Z.to_nat offset) xs).
Proof.
  intros Hoff Hlim. unfold array_slice, slice_index. cbv zeta.
  destruct (Z.ltb_spec offset 0); [lia |].
  destruct (Z.ltb_spec (offset + lim) 0); [lia |].
  destruct (Z_lt_le_dec offset (Z.of_nat (length xs))) as [Hin | Hout].
  - rewrite (Z.min_l offset) by lia.
    destruct (Z_le_gt_dec (offset + lim) (Z.of_nat (length xs))).
    + rewrite Z.min_l by lia. f_equal. lia.
    + rewrite Z.min_r by lia.
      rewrite !take_ge; [reflexivity | |]; rewrite length_drop; lia.
  - rewrite !Z.min_r by lia.
    rewrite !drop_ge by lia. rewrite !take_nil. reflexivity.
Qed.

(** When Blockchain.info fails and Blockstream answers, the Bitcoin
    fetcher asks Blockstream for the address alone, with no page and no
    limit, and cuts the page out of the answer itself: the transactions
    are those at positions [(page - 1) * limit] to [page * limit - 1] of
    the answer, and the total it reports is the size of that page, not of
    the history. *)
Theorem bitcoin_fallback_pages_on_the_client
    (P : Platform) (net : Network) (address : string) (chain : ChainConfig)
    (pageArg limitArg : Z) (txs : list BsTx) (response : TransactionResponse)
    (log log' : list Request) :
  failed_attempt
    (blockchain_info_request address pageArg limitArg,
     attempt (blockchain_info_api net) (blockchain_info_request address pageArg limitArg)
       (blockchain_info_response P address chain pageArg limitArg)) ->
  blockstream_api net (blockstream_request address) = Ok (Some txs) ->
  1 <= pageArg -> 0 <= limitArg ->
  fetchBitcoinTransactions P net address chain pageArg limitArg false log
  = (Ok response, log') ->
  log' = (log ++ [blockchain_info_request address pageArg limitArg;
                  blockstream_request address])%list /\
  rmap (parseBlockstreamTransaction P address chain)
    (take (Z.to_nat limitArg) (drop (Z.to_nat ((pageArg - 1) * limitArg)) txs))
  = Ok (transactions response) /\
  totalCount response = Finite (Z.of_nat (length (transactions response))) /\
  Z.of_nat (length (transactions response))
  = Z.min limitArg (Z.max 0 (Z.of_nat (length txs) - (pageArg - 1) * limitArg)).
Proof.
  intros [e Hfail] Hnet Hpage Hlimit Hrun. cbn [snd] in Hfail.
  unfold fetchBitcoinTransactions in Hrun. cbn [negb] in Hrun.
  unfold try_catch in Hrun. rewrite fetch_then_lift in Hrun.
  unfold attempt in Hfail. rewrite Hfail in Hrun.
  unfold fetchBitcoinFallback in Hrun. rewrite single_attempt in Hrun.
  unfold attempt in Hrun. rewrite Hnet in Hrun. cbn [rbind] in Hrun.
  unfold blockstream_response in Hrun. cbv zeta in Hrun.
  rewrite array_slice_window in Hrun by nia.
  injection Hrun as Hres <-.
  apply rbind_Ok in Hres as [ts [Hts Hres]]. apply Ok_inj in Hres. subst response.
  cbn [transactions totalCount respond].
  split; [rewrite <- app_assoc; reflexivity |].
  split; [exact Hts |]. split; [reflexivity |].
  rewrite (rmap_length _ _ _ Hts), length_take, length_drop. nia.
Qed.

Lemma bitcoin_fallback_pages_on_the_client_witness :
  exists response log',
    fetchBitcoinTransactions Sample.platform Fixture.network "bc1q" Fixture.bitcoin
      2 2 false [] = (Ok response, log') /\
    log' = ([] ++ [blockchain_info_request "bc1q" 2 2; blockstream_request "bc1q"])%list /\
    map tx_hash (transactions response) = ["t3"; "t4"] /\
    totalCount response = Finite 2.
Proof.
  destruct (fetchBitcoinTransactions Sample.platform Fixture.network "bc1q"
              Fixture.bitcoin 2 2 false []) as [[response | e] log'] eqn:Hrun;
    [| vm_compute in Hrun; discriminate].
  exists response, log'. split; [reflexivity |].
  destruct response as [ts total pg lm more].
  destruct (bitcoin_fallback_pages_on_the_client Sample.platform Fixture.network "bc1q"
              Fixture.bitcoin 2 2
              (map (fun txid =>
                      {| bs_txid := txid;
                         bs_status := {| bs_confirmed := true;
                                         bs_block_height := Some 800000;
                                         bs_block_time := Some 1700000000 |};
                         bs_fee := 1000; bs_vin := []; bs_vout := [] |})
                 ["t1"; "t2"; "t3"; "t4"; "t5"])
              {| transactions := ts; totalCount := total; page := pg; limit := lm;
                 hasMore := more |} [] log')
    as [Hlog [Hts [Htotal Hlen]]].
  - eexists. reflexivity.
  - reflexivity.
  - lia.
  - lia.
  - exact Hrun.
  - split; [exact Hlog |].
    cbn [transactions totalCount] in *.
    vm_compute in Hts. apply Ok_inj in Hts. subst ts total.
    split; reflexivity.
Defined.

(** ** Known contracts and methods *)

Lemma lower_ascii_idempotent (c : ascii) : lower_ascii (lower_ascii c) = lower_ascii c.
Proof. destruct c as [[] [] [] [] [] [] [] []]; reflexivity. Qed.

Lemma toLowerCase_idempotent (s : string) : toLowerCase (toLowerCase s) = toLowerCase s.
Proof.
  induction s as [| c s IH]; [reflexivity |].
  cbn [toLowerCase]. rewrite lower_ascii_idempotent, IH. reflexivity.
Qed.

(** A string that lowering changes is not the lowering of any string. *)
Lemma toLowerCase_misses (k a : string) : toLowerCase k <> k -> toLowerCase a <> k.
Proof. intros Hk Ha. apply Hk. rewrite <- Ha. apply toLowerCase_idempotent. Qed.

(** No address is recognised as a known contract on Solana: the lookup
    lowers the address, and each of the Solana keys of the table has a
    capital letter. *)
Theorem solana_contracts_are_never_recognised (address : string)
    (c : KnownContracts.KnownContract) :
  KnownContracts.getKnownContract "solana" address <> KnownContracts.Contract c.
Proof.
  unfold KnownContracts.getKnownContract.
  assert (Hmiss : forall k, toLowerCase k <> k ->
            String.eqb k (toLowerCase address) = false).
  { intros k Hk. apply String.eqb_neq. intros ->.
    exact (toLowerCase_misses _ address Hk eq_refl). }
  revert Hmiss. generalize (toLowerCase address). intros key Hmiss.
  destruct (JsObject.get KnownContracts.KNOWN_CONTRACTS "solana")
    as [chainContracts | |] eqn:Hsol; vm_compute in Hsol; try discriminate.
  injection Hsol as <-.
  cbv [JsObject.get JsObject.own].
  rewrite !Hmiss by (vm_compute; discriminate).
  destruct (existsb (String.eqb key) JsObject.Object_prototype); discriminate.
Qed.

(** The two selectors the Etherscan parser types [token] are the entries
    of the table of known methods whose action is ['Token Transfer']: for
    call data longer than the selector, a parsed transaction has type
    [token] exactly when [getMethodInfo] labels its call data so. *)
Theorem token_type_agrees_with_known_methods
    (P : Platform) (tx : gmap string string) (chain : ChainConfig)
    (t : Transaction) (input : string) :
  parseEtherscanTransaction P tx chain = Ok t ->
  tx_input t = Some input -> (10 < String.length input)%nat ->
  (tx_type t = token <->
   exists info, KnownContracts.getMethodInfo input = JsObject.Own info /\
                KnownContracts.action info = "Token Transfer").
Proof.
  unfold parseEtherscanTransaction. intros H Hin Hlen. cbv zeta in H.
  invert_rbind H. apply Ok_inj in H. subst t.
  cbn [tx_type tx_input] in *. injection Hin as Hin. rewrite Hin in *.
  assert (Hguard : truthy_string input && negb (String.eqb input "0x")
                   && (10 <? String.length input)%nat = true).
  { destruct (Nat.ltb_spec 10 (String.length input)); [| lia].
    destruct (String.eqb_spec input "0x") as [-> | _]; [simpl in Hlen; lia |].
    unfold truthy_string.
    destruct (String.eqb_spec input "") as [-> | _]; [simpl in Hlen; lia |].
    reflexivity. }
  rewrite Hguard, orb_true_r.
  unfold KnownContracts.getMethodInfo.
  replace (negb (truthy_string input) || (String.length input <? 10)%nat) with false.
  2: { symmetry. apply orb_false_iff. split.
       - apply andb_prop in Hguard as [Hguard _]. apply andb_prop in Hguard as [-> _].
         reflexivity.
       - apply Nat.ltb_ge. lia. }
  remember (toLowerCase (slice0 10 input)) as id eqn:Hid. clear Hid.
  destruct (String.eqb_spec id "0xa9059cbb") as [-> | Hn1];
    [split; [intros _; eexists; split; vm_compute; reflexivity | reflexivity] |].
  destruct (String.eqb_spec id "0x23b872dd") as [-> | Hn2];
    [split; [intros _; eexists; split; vm_compute; reflexivity | reflexivity] |].
  cbn [orb]. split.
  - destruct (String.eqb id "0x095ea7b3"); discriminate.
  - intros [info [Hget Haction]]. exfalso.
    cbv [JsObject.get JsObject.own KnownContracts.KNOWN_METHODS] in Hget.
    repeat match type of Hget with
           | context [String.eqb ?k id] =>
               destruct (String.eqb_spec k id) as [Hk | _];
               [try (symmetry in Hk; contradiction);
                injection Hget as <-; vm_compute in Haction; discriminate |]
           end.
    destruct (existsb (String.eqb id) JsObject.Object_prototype); discriminate.
Qed.

Lemma token_type_agrees_with_known_methods_witness :
  exists (t : Transaction) (input : string),
    parseEtherscanTransaction Sample.platform Sample.token_transfer Sample.ethereum = Ok t /\
    (tx_type t = token <->
     exists info, KnownContracts.getMethodInfo input = JsObject.Own info /\
                  KnownContracts.action info = "Token Transfer").
Proof.
  eexists. eexists. split; [vm_compute; reflexivity |].
  apply (token_type_agrees_with_known_methods Sample.platform Sample.token_transfer
           Sample.ethereum).
  - vm_compute. reflexivity.
  - vm_compute. reflexivity.
  - vm_compute. lia.
Defined.

(** ** The CSV export *)

Lemma escape_without_quote (s : string) :
  includes (String Csv.dquote "") s = false -> Csv.escape s = s.
Proof.
  induction s as [| c s IH]; [reflexivity |].
  cbn [includes String.prefix Csv.escape]. intros H.
  apply orb_false_iff in H as [Hc Hs].
  destruct (Ascii.eqb_spec c Csv.dquote) as [-> | _].
  - destruct (ascii_dec Csv.dquote Csv.dquote) as [_ | Hne]; [| contradiction].
    destruct s; discriminate.
  - rewrite (IH Hs). reflexivity.
Qed.

(** The reader, inside a field, reads an escaped text back. *)
Lemma read_escaped (v : string) :
  forall field rest record records,
    Csv.read (Csv.escape v +:+ String Csv.dquote rest) Csv.InField field record records
    = Csv.read rest Csv.AfterQuote (field +:+ v) record records.
Proof.
  induction v as [| c v IH]; intros field rest record records.
  - rewrite string_app_nil_r. reflexivity.
  - cbn [Csv.escape]. destruct (Ascii.eqb_spec c Csv.dquote) as [-> | Hc].
    + rewrite !string_app_cons. cbn [Csv.read].
      change (Ascii.eqb Csv.dquote Csv.dquote) with true. cbv iota.
      rewrite IH, string_app_assoc. reflexivity.
    + rewrite string_app_cons. cbn [Csv.read].
      destruct (Ascii.eqb_spec c Csv.dquote); [contradiction |].
      rewrite IH, string_app_assoc. reflexivity.
Qed.

Lemma read_quoted (v rest : string) (record : list string) (records : list (list string)) :
  Csv.read (Csv.quoted (Csv.escape v) +:+ rest) Csv.AtField "" record records
  = Csv.read rest Csv.AfterQuote v record records.
Proof.
  unfold Csv.quoted. rewrite string_app_cons, string_app_assoc, string_app_cons.
  cbn [Csv.read]. change (Ascii.eqb Csv.dquote Csv.dquote) with true. cbv iota.
  change ("" +:+ rest) with rest. apply read_escaped.
Qed.

(** One line of the export, read as the fields of a record. *)
Lemma read_line (vs : list string) :
  vs <> [] ->
  forall rest record records,
    Csv.read (Csv.join "," (map (fun v => Csv.quoted (Csv.escape v)) vs) +:+ rest)
      Csv.AtField "" record records
    = Csv.read rest Csv.AfterQuote (List.last vs "") (record ++ removelast vs)%list records.
Proof.
  induction vs as [| v vs IH]; intros Hne rest record records; [contradiction |].
  destruct vs as [| v' vs].
  - cbn [map Csv.join List.last removelast]. rewrite app_nil_r. apply read_quoted.
  - change (Csv.join "," (map (fun v => Csv.quoted (Csv.escape v)) (v :: v' :: vs)))
      with (Csv.quoted (Csv.escape v) +:+ ","
            +:+ Csv.join "," (map (fun v => Csv.quoted (Csv.escape v)) (v' :: vs))).
    rewrite !string_app_assoc, read_quoted, string_app_cons.
    cbn [Csv.read]. change (Ascii.eqb "," Csv.dquote) with false.
    change (Ascii.eqb "," ",") with true. cbv iota.
    change ("" +:+ ?x) with x.
    rewrite (IH ltac:(discriminate)).
    change (List.last (v :: v' :: vs) "") with (List.last (v' :: vs) "").
    change (removelast (v :: v' :: vs)) with (v :: removelast (v' :: vs)).
    rewrite <- app_assoc. reflexivity.
Qed.

(** The lines of the export, read as records. *)
Lemma read_lines (ls : list (list string)) :
  ls <> [] -> Forall (fun l => l <> []) ls ->
  forall records,
    Csv.read
      (Csv.join (String Csv.newline "")
         (map (fun l => Csv.join "," (map (fun v => Csv.quoted (Csv.escape v)) l)) ls))
      Csv.AtField "" [] records
    = Some (records ++ ls)%list.
Proof.
  induction ls as [| l ls IH]; intros Hne Hall records; [contradiction |].
  apply Forall_cons_iff in Hall as [Hl Hall].
  destruct ls as [| l' ls].
  - cbn [map Csv.join].
    rewrite <- (string_app_nil_r (Csv.join "," _)), (read_line l Hl).
    cbn [Csv.read app]. rewrite <- app_removelast_last by exact Hl. reflexivity.
  - change (Csv.join (String Csv.newline "")
              (map (fun l => Csv.join "," (map (fun v => Csv.quoted (Csv.escape v)) l))
                 (l :: l' :: ls)))
      with (Csv.join "," (map (fun v => Csv.quoted (Csv.escape v)) l)
            +:+ String Csv.newline ""
            +:+ Csv.join (String Csv.newline "")
                  (map (fun l => Csv.join "," (map (fun v => Csv.quoted (Csv.escape v)) l))
                     (l' :: ls))).
    rewrite (read_line l Hl), string_app_cons. cbn [Csv.read app].
    change (Ascii.eqb Csv.newline Csv.dquote) with false.
    change (Ascii.eqb Csv.newline ",") with false.
    change (Ascii.eqb Csv.newline Csv.newline) with true. cbv iota.
    change ("" +:+ ?x) with x.
    rewrite (IH ltac:(discriminate) Hall).
    rewrite <- app_removelast_last by exact Hl.
    rewrite <- app_assoc. reflexivity.
Qed.

(** The text of the export, as lines of quoted and escaped fields: the
    keys, which are written without escaping, hold no double quote. *)
Lemma generateCSV_lines
    (builtin_text : string -> string) (first : Csv.Row) (more : list Csv.Row) :
  Forall (fun header => includes (String Csv.dquote "") header = false) (map fst first) ->
  Csv.generateCSV builtin_text (first :: more)
  = Csv.join (String Csv.newline "")
      (map (fun l => Csv.join "," (map (fun v => Csv.quoted (Csv.escape v)) l))
         (map fst first
          :: map (fun row => map (Csv.cell builtin_text row) (map fst first))
               (first :: more))).
Proof.
  intros Hplain. unfold Csv.generateCSV. cbv zeta.
  set (headers := map fst first) in *.
  assert (Hheader : map Csv.quoted headers
                    = map (fun v => Csv.quoted (Csv.escape v)) headers).
  { apply map_ext_in. intros h Hh.
    rewrite (escape_without_quote h (Forall_In _ _ _ Hplain Hh)). reflexivity. }
  rewrite Hheader.
  set (line := fun l => Csv.join "," (map (fun v => Csv.quoted (Csv.escape v)) l)).
  set (values := fun row => map (Csv.cell builtin_text row) headers).
  change (map line (headers :: map values (first :: more)))
    with (line headers :: map line (map values (first :: more))).
  f_equal. f_equal. rewrite map_map. apply map_ext. intros row.
  unfold line, values. rewrite map_map. reflexivity.
Qed.

Lemma records_not_empty {A B} (f : A -> list B) (hs : list B) (rows : list A) :
  hs <> [] -> (forall row, f row <> []) -> Forall (fun l => l <> []) (hs :: map f rows).
Proof.
  intros Hhs Hf. constructor; [exact Hhs |].
  apply List.Forall_forall. intros l Hl. apply in_map_iff in Hl as [row [<- _]]. apply Hf.
Qed.

(** The export reads back. For rows whose keys, those of the first row,
    are at least one and hold no double quote, a reader of RFC 4180 reads
    from the text of [generateCSV] the header record and then, for each
    row, the texts of its values under those keys, whatever commas,
    double quotes and line feeds the values hold. The keys are written
    between quotes without the escaping the values get, hence the
    condition on them. *)
Theorem generateCSV_reads_back
    (builtin_text : string -> string) (first : Csv.Row) (more : list Csv.Row) :
  map fst first <> [] ->
  Forall (fun header => includes (String Csv.dquote "") header = false) (map fst first) ->
  Csv.read_csv (Csv.generateCSV builtin_text (first :: more))
  = Some (map fst first
          :: map (fun row => map (Csv.cell builtin_text row) (map fst first))
               (first :: more)).
Proof.
  intros Hkeys Hplain. unfold Csv.read_csv.
  rewrite (generateCSV_lines builtin_text first more Hplain).
  apply (read_lines
           (map fst first
            :: map (fun row => map (Csv.cell builtin_text row) (map fst first))
                 (first :: more))).
  - discriminate.
  - apply records_not_empty; [exact Hkeys |].
    intros row Hnil. apply map_eq_nil in Hnil. contradiction.
Qed.

Lemma generateCSV_reads_back_witness :
  let row := [ ("Type", "Send");
               ("Description",
                String Csv.dquote ("a,b" +:+ String Csv.newline "c")) ] in
  Csv.read_csv (Csv.generateCSV (fun _ => "") (row :: [row]))
  = Some (map fst row
          :: map (fun r => map (Csv.cell (fun _ => "") r) (map fst row)) (row :: [row])).
Proof.
  intros row. apply (generateCSV_reads_back (fun _ => "") row [row]).
  - discriminate.
  - repeat constructor.
Defined.


(** ** The rows of the Awakens format *)

Lemma own_In {A} (table : list (string * A)) (k : string) (a : A) :
  NoDup (map fst table) -> In (k, a) table -> JsObject.own table k = Some a.
Proof.
  induction table as [| [k' a'] table IH]; intros Hnd Hin; [contradiction |].
  cbn [map fst] in Hnd. apply NoDup_cons in Hnd as [Hfresh Hnd].
  cbn [JsObject.own]. destruct Hin as [Heq | Hin].
  - injection Heq as -> ->. rewrite String.eqb_refl. reflexivity.
  - destruct (String.eqb_spec k' k) as [-> | _]; [| exact (IH Hnd Hin)].
    exfalso. apply Hfresh. apply list_elem_of_In, in_map_iff. exists (k, a). auto.
Qed.

(** Read under its own keys, a row without a repeated key gives its
    values. *)
Lemma cells_of_own_keys (builtin_text : string -> string) (row : Csv.Row) :
  NoDup (map fst row) -> map (Csv.cell builtin_text row) (map fst row) = map snd row.
Proof.
  intros Hnd. rewrite map_map. apply map_ext_in. intros [k v] Hin.
  unfold Csv.cell, JsObject.get. cbn [fst snd].
  rewrite (own_In row k v Hnd Hin). reflexivity.
Qed.

Lemma HEADERS_NoDup : NoDup Awakens.HEADERS.
Proof. apply (bool_decide_unpack _). vm_compute. reflexivity. Qed.

Lemma row_of_keys getChainById toISOString tokenSymbol tokenAmount wallet tx row :
  Awakens.row_of getChainById toISOString tokenSymbol tokenAmount wallet tx = Ok row ->
  map fst row = Awakens.HEADERS.
Proof.
  unfold Awakens.row_of. intros H. cbv zeta in H.
  apply rbind_Ok in H as [date [_ H]]. apply Ok_inj in H. subst row. reflexivity.
Qed.

(** The file of an export reads back. When [downloadCSV] has a text to
    put in the file, for at least one transaction, a reader of RFC 4180
    reads from it the fourteen headers of the Awakens format and then,
    for each transaction in order, the fourteen values of its row. *)
Theorem export_reads_back
    (getChainById : string -> option ChainConfig) (toISOString : Z -> string)
    (tokenSymbol tokenAmount : Transaction -> option string)
    (builtin_text : string -> string)
    (txs : list Transaction) (wallet text : string) :
  txs <> [] ->
  Awakens.csvContent getChainById toISOString tokenSymbol tokenAmount builtin_text
    txs wallet = Ok text ->
  exists rows,
    Awakens.transactionsToAwakensFormat getChainById toISOString tokenSymbol tokenAmount
      txs wallet = Ok rows /\
    length rows = length txs /\
    Csv.read_csv text = Some (Awakens.HEADERS :: map (map snd) rows).
Proof.
  intros Hne H. unfold Awakens.csvContent in H.
  apply rbind_Ok in H as [rows [Hrows H]]. apply Ok_inj in H. subst text.
  exists rows. split; [exact Hrows |].
  unfold Awakens.transactionsToAwakensFormat in Hrows.
  pose proof (rmap_length _ _ _ Hrows) as Hlen. split; [exact Hlen |].
  pose proof (rmap_Forall _ (fun row => map fst row = Awakens.HEADERS)
                (row_of_keys getChainById toISOString tokenSymbol tokenAmount wallet)
                _ _ Hrows) as Hkeys.
  destruct rows as [| first more];
    [destruct txs; [contradiction | discriminate] |].
  pose proof (Forall_In _ _ first Hkeys ltac:(left; reflexivity)) as Hfirst.
  assert (Hplain : Forall (fun header => includes (String Csv.dquote "") header = false)
                     (map fst first)).
  { rewrite Hfirst. apply List.Forall_forall. intros h Hh.
    repeat (destruct Hh as [<- | Hh]; [reflexivity |]). contradiction. }
  unfold Csv.read_csv.
  rewrite (generateCSV_lines builtin_text first more Hplain), Hfirst.
  rewrite (read_lines
             (Awakens.HEADERS
              :: map (fun row => map (Csv.cell builtin_text row) Awakens.HEADERS)
                   (first :: more))).
  - cbn [app]. f_equal. f_equal.
    apply map_ext_in. intros row Hin.
    pose proof (Forall_In _ _ row Hkeys Hin) as Hrow.
    rewrite <- Hrow. apply cells_of_own_keys. rewrite Hrow. exact HEADERS_NoDup.
  - discriminate.
  - apply records_not_empty; [discriminate |].
    intros row Hnil. apply map_eq_nil in Hnil. discriminate.
Qed.

Lemma export_reads_back_witness :
  let tx := plain_transaction Sample.ethereum "0xh" "100" "1700000000" "0xA1" "0xb2"
              "1500000000000000000" "1.5" "21000" "0.000000000000021"
              success transfer None "https://etherscan.io/tx/0xh" in
  exists text rows,
    Awakens.csvContent (fun _ => None) (fun _ => "2023-11-14T22:13:20.000Z")
      (fun _ => None) (fun _ => None) (fun _ => "") [tx] "0xa1" = Ok text /\
    Awakens.transactionsToAwakensFormat (fun _ => None)
      (fun _ => "2023-11-14T22:13:20.000Z") (fun _ => None) (fun _ => None)
      [tx] "0xa1" = Ok rows /\
    length rows = length [tx] /\
    Csv.read_csv text = Some (Awakens.HEADERS :: map (map snd) rows).
Proof.
  intros tx.
  destruct (Awakens.csvContent (fun _ => None) (fun _ => "2023-11-14T22:13:20.000Z")
              (fun _ => None) (fun _ => None) (fun _ => "") [tx] "0xa1")
    as [text | e] eqn:Htext; [| vm_compute in Htext; discriminate].
  exists text.
  destruct (export_reads_back (fun _ => None) (fun _ => "2023-11-14T22:13:20.000Z")
              (fun _ => None) (fun _ => None) (fun _ => "") [tx] "0xa1" text
              ltac:(discriminate) Htext) as [rows Hrows].
  exists rows. split; [reflexivity | exact Hrows].
Defined.

(** A transfer or token transaction in which the wallet is neither the
    sender nor the recipient, as compared without case, gives a row of
    type ['Receive'] whose received currency and amount are empty, as are
    the sent ones: the type is chosen from the sender alone. *)
Theorem foreign_transfer_is_an_empty_receive
    (getChainById : string -> option ChainConfig) (toISOString : Z -> string)
    (tokenSymbol tokenAmount : Transaction -> option string)
    (builtin_text : string -> string)
    (wallet : string) (tx : Transaction) (row : Csv.Row) :
  Awakens.row_of getChainById toISOString tokenSymbol tokenAmount wallet tx = Ok row ->
  tx_type tx = transfer \/ tx_type tx = token ->
  toLowerCase (tx_from tx) <> toLowerCase wallet ->
  toLowerCase (tx_to tx) <> toLowerCase wallet ->
  map (Csv.cell builtin_text row)
    ["Type"; "Sent Currency"; "Sent Amount"; "Received Currency"; "Received Amount"]
  = ["Receive"; ""; ""; ""; ""].
Proof.
  unfold Awakens.row_of. intros H Htype Hfrom Hto. cbv zeta in H.
  apply rbind_Ok in H as [date [_ H]]. apply Ok_inj in H. subst row.
  apply String.eqb_neq in Hfrom, Hto. rewrite Hfrom, Hto.
  destruct Htype as [-> | ->]; reflexivity.
Qed.

Lemma foreign_transfer_is_an_empty_receive_witness :
  let tx := plain_transaction Fixture.bitcoin "h" "800000" "1700000000" "bc1qsender"
              "bc1qchange" "5000" "0.00005" "1000" "0.00001"
              success transfer None "https://blockchair.com/bitcoin/transaction/h" in
  exists row,
    Awakens.row_of (fun _ => None) (fun _ => "2023-11-14T22:13:20.000Z")
      (fun _ => None) (fun _ => None) "bc1qwallet" tx = Ok row /\
    map (Csv.cell (fun _ => "") row)
      ["Type"; "Sent Currency"; "Sent Amount"; "Received Currency"; "Received Amount"]
    = ["Receive"; ""; ""; ""; ""].
Proof.
  intros tx. eexists. split; [vm_compute; reflexivity |].
  apply (foreign_transfer_is_an_empty_receive (fun _ => None)
           (fun _ => "2023-11-14T22:13:20.000Z") (fun _ => None) (fun _ => None)
           (fun _ => "") "bc1qwallet" tx).
  - vm_compute. reflexivity.
  - left. reflexivity.
  - vm_compute. discriminate.
  - vm_compute. discriminate.
Defined.

Lemma rmap_error {A B} (f : A -> JsResult B) (Q : JsError -> Prop) :
  (forall x e, f x = Throw e -> Q e) ->
  forall xs e, rmap f xs = Throw e -> Q e.
Proof.
  intros Hf xs. induction xs as [| x xs IH]; intros e H; [discriminate |].
  cbn [rmap] in H. destruct (f x) as [y | ex] eqn:Hx; cbn [rbind] in H.
  - destruct (rmap f xs) as [ys | exs]; [discriminate |].
    cbn [rbind] in H. injection H as <-. apply IH. reflexivity.
  - injection H as <-. eauto.
Qed.

(** The export throws on a timestamp that is not a date, and on nothing
    else: one transaction whose timestamp does not start with a number,
    as the ['NaN'] that a fetcher writes for a date it cannot read, makes
    [transactionsToAwakensFormat] throw the RangeError of [toISOString],
    and whatever the transactions, that is the only error it throws. *)
Theorem export_throws_on_a_timestamp_that_is_not_a_number
    (getChainById : string -> option ChainConfig) (toISOString : Z -> string)
    (tokenSymbol tokenAmount : Transaction -> option string)
    (txs : list Transaction) (wallet : string) (tx : Transaction) :
  In tx txs -> parseInt (tx_timestamp tx) = NaN ->
  Awakens.transactionsToAwakensFormat getChainById toISOString tokenSymbol tokenAmount
    txs wallet = Throw (RangeError "Invalid time value") /\
  (forall others e,
     Awakens.transactionsToAwakensFormat getChainById toISOString tokenSymbol
       tokenAmount others wallet = Throw e ->
     e = RangeError "Invalid time value").
Proof.
  intros Hin Hnan.
  assert (Honly : forall others e,
            Awakens.transactionsToAwakensFormat getChainById toISOString tokenSymbol
              tokenAmount others wallet = Throw e ->
            e = RangeError "Invalid time value").
  { intros others e He.
    refine (rmap_error _ (fun e => e = RangeError "Invalid time value") _ _ _ He).
    intros x ex Hx. unfold Awakens.row_of, Awakens.formattedDate in Hx. cbv zeta in Hx.
    destruct (Awakens.times (parseInt (tx_timestamp x)) 1000) as [ms | | |];
      try (cbn [rbind] in Hx; congruence).
    destruct (Z.abs ms <=? 8640000000000000); cbn [rbind] in Hx; congruence. }
  split; [| exact Honly].
  assert (Htx : Awakens.row_of getChainById toISOString tokenSymbol tokenAmount wallet tx
                = Throw (RangeError "Invalid time value")).
  { unfold Awakens.row_of, Awakens.formattedDate. cbv zeta. rewrite Hnan. reflexivity. }
  destruct (rmap_throws _ txs tx _ Hin Htx) as [e He].
  unfold Awakens.transactionsToAwakensFormat in *. rewrite He. f_equal.
  exact (Honly txs e He).
Qed.

Lemma export_throws_on_a_timestamp_that_is_not_a_number_witness :
  let tx := plain_transaction Sample.near "9xyz" "blk" "NaN" "alice.near" "bob.near"
              "0" "0" "0" "0" success transfer None "https://nearblocks.io/txns/9xyz" in
  Awakens.transactionsToAwakensFormat (fun _ => None)
    (fun _ => "2023-11-14T22:13:20.000Z") (fun _ => None) (fun _ => None)
    [tx] "alice.near" = Throw (RangeError "Invalid time value").
Proof.
  intros tx.
  apply (export_throws_on_a_timestamp_that_is_not_a_number (fun _ => None)
           (fun _ => "2023-11-14T22:13:20.000Z") (fun _ => None) (fun _ => None)
           [tx] "alice.near" tx).
  - left. reflexivity.
  - vm_compute. reflexivity.
Defined.

(** ** Pages and totals *)

(** The Sui fetcher, and the Solana fetcher when a Helius key is set,
    send a request that does not depend on the page: the call for any
    page sends the request of any other and ends as it does, with the same
    transactions, total and [hasMore]; the page is only echoed. *)
Theorem page_is_ignored_by_sui_and_helius
    (P : Platform) (net : Network) (f : Fetcher) (address : string)
    (chain : ChainConfig) (p q limitArg : Z) (log : list Request) :
  f = Sui \/ (f = Solana /\ truthy_opt (env P "VITE_HELIUS_API_KEY") = true) ->
  run P net f address chain q limitArg log
  = (match fst (run P net f address chain p limitArg log) with
     | Ok r => Ok (respond (transactions r) (totalCount r) q limitArg)
     | Throw e => Throw e
     end,
     snd (run P net f address chain p limitArg log)).
Proof.
  intros [-> | [-> Hkey]]; unfold run.
  - unfold fetchSuiTransactions. rewrite !single_attempt. unfold attempt. cbn [fst snd].
    destruct (sui_api net _) as [data | e]; [| reflexivity].
    cbn [rbind]. unfold sui_response.
    destruct (sui_result_data data) as [txs |]; [| reflexivity].
    destruct (rmap _ txs) as [ts | e]; reflexivity.
  - unfold fetchSolanaTransactions. rewrite Hkey, !single_attempt.
    unfold attempt. cbn [fst snd].
    destruct (helius_api net _) as [data | e]; [| reflexivity].
    cbn [rbind]. unfold helius_response.
    destruct data as [records |]; [| reflexivity].
    destruct (rmap _ records) as [ts | e]; reflexivity.
Qed.

Lemma page_is_ignored_by_sui_and_helius_witness :
  run Sample.platform Sample.dead_network Sui "0x5" Sample.ethereum 7 50 []
  = (match fst (run Sample.platform Sample.dead_network Sui "0x5" Sample.ethereum
                  1 50 []) with
     | Ok r => Ok (respond (transactions r) (totalCount r) 7 50)
     | Throw e => Throw e
     end,
     snd (run Sample.platform Sample.dead_network Sui "0x5" Sample.ethereum 1 50 [])).
Proof.
  apply (page_is_ignored_by_sui_and_helius Sample.platform Sample.dead_network Sui
           "0x5" Sample.ethereum 1 7 50 []).
  left. reflexivity.
Defined.

Section Totals.

Variable P : Platform.
Variable net : Network.
Variables (address : string) (chain : ChainConfig) (page limit : Z).

Lemma scheduled_attempt_counts (f : Fetcher) (a : Attempt) (response : TransactionResponse) :
  f = EVM \/ f = Sui \/ f = Aptos ->
  In a (schedule P net f address chain page limit) ->
  snd a = Ok response ->
  totalCount response = count (transactions response).
Proof.
  intros Hf Hin Ha.
  assert (Hcases :
    a = first_attempt P net f address chain page limit \/
    In a (later_attempts P net f address chain page limit)) by (destruct Hin; auto).
  clear Hin.
  destruct Hf as [-> | [-> | ->]]; simpl in Hcases;
    repeat match goal with
    | H : _ \/ _ |- _ => destruct H
    | H : In _ (map _ _) |- _ => apply in_map_iff in H; destruct H as [? [? _]]
    | H : In _ [] |- _ => destruct H
    | H : False |- _ => destruct H
    end; subst a;
    simpl in Ha;
    unfold evm_attempt, evm_response, sui_response, aptos_response in Ha;
    open_response; reflexivity.
Qed.

End Totals.

(** What the EVM, Sui and Aptos fetchers report as [totalCount] is the
    number of transactions of the page they return, at most [limit] for
    a provider that honours it, not the number of transactions of the
    address. *)
Theorem totalCount_is_the_page_size
    (P : Platform) (net : Network) (f : Fetcher) (address : string)
    (chain : ChainConfig) (pageArg limitArg : Z)
    (log log' : list Request) (response : TransactionResponse) :
  f = EVM \/ f = Sui \/ f = Aptos ->
  run P net f address chain pageArg limitArg log = (Ok response, log') ->
  totalCount response = Finite (Z.of_nat (length (transactions response))).
Proof.
  intros Hf H. apply run_resolved in H as [a [Hin Ha]].
  exact (scheduled_attempt_counts P net address chain pageArg limitArg f a response
           Hf Hin Ha).
Qed.

Lemma totalCount_is_the_page_size_witness :
  exists response log',
    run Sample.platform Fixture.aptos_network Aptos "0x01" Sample.ethereum 1 50 []
    = (Ok response, log') /\
    totalCount response = Finite (Z.of_nat (length (transactions response))) /\
    length (transactions response) = 1%nat.
Proof.
  destruct (run Sample.platform Fixture.aptos_network Aptos "0x01" Sample.ethereum 1 50 [])
    as [[response | e] log'] eqn:Hrun; [| vm_compute in Hrun; discriminate].
  exists response, log'. split; [reflexivity |]. split.
  - apply (totalCount_is_the_page_size Sample.platform Fixture.aptos_network Aptos "0x01"
             Sample.ethereum 1 50 [] log' response); [auto | exact Hrun].
  - vm_compute in Hrun. injection Hrun as <- _. reflexivity.
Defined.

(** ** Identity and type of the transactions produced *)

Lemma mock_type_is_produced (k : nat) :
  produced_type (default transfer (mock_types !! k)) = true.
Proof. do 5 (destruct k as [| k]; [reflexivity |]). reflexivity. Qed.

Lemma solscan_type_is_produced (v : JsValue) :
  produced_type
    match v with
    | JString "stake" => stake
    | JString "unstake" => unstake
    | JString "swap" => swap
    | JString "nft" => nft
    | _ => transfer
    end = true.
Proof. repeat case_match; reflexivity. Qed.

Ltac parser_labels H :=
  cbv zeta in H; invert_rbind H; apply Ok_inj in H; subst;
  unfold labelled;
  cbn [tx_chainId tx_chainName tx_symbol tx_type plain_transaction];
  repeat split;
  first [ apply mock_type_is_produced
        | apply solscan_type_is_produced
        | repeat case_match; reflexivity ].

Section Labels.

Variable P : Platform.
Variable chain : ChainConfig.

Lemma parseEtherscanTransaction_labels tx t :
  parseEtherscanTransaction P tx chain = Ok t -> labelled chain t.
Proof. unfold parseEtherscanTransaction. intros H. parser_labels H. Qed.

Lemma parseSubscanTransaction_labels tx t :
  parseSubscanTransaction P tx chain = Ok t -> labelled chain t.
Proof. unfold parseSubscanTransaction. intros H. parser_labels H. Qed.

Lemma parseSolscanTransaction_labels tx t :
  parseSolscanTransaction P tx chain = Ok t -> labelled chain t.
Proof. unfold parseSolscanTransaction. intros H. parser_labels H. Qed.

Lemma parseCosmosTransaction_labels tx t :
  parseCosmosTransaction P tx chain = Ok t -> labelled chain t.
Proof. unfold parseCosmosTransaction. intros H. parser_labels H. Qed.

Lemma parseHeliusTransaction_labels address tx t :
  parseHeliusTransaction P address chain tx = Ok t -> labelled chain t.
Proof. unfold parseHeliusTransaction. intros H. parser_labels H. Qed.

Lemma parseBlockchainInfoTransaction_labels address tx t :
  parseBlockchainInfoTransaction P address chain tx = Ok t -> labelled chain t.
Proof. unfold parseBlockchainInfoTransaction. intros H. parser_labels H. Qed.

Lemma parseBlockstreamTransaction_labels address tx t :
  parseBlockstreamTransaction P address chain tx = Ok t -> labelled chain t.
Proof. unfold parseBlockstreamTransaction. intros H. parser_labels H. Qed.

Lemma parseTronTransaction_labels tx t :
  parseTronTransaction P chain tx = Ok t -> labelled chain t.
Proof. unfold parseTronTransaction. intros H. parser_labels H. Qed.

Lemma parseNearTransaction_labels tx t :
  parseNearTransaction P chain tx = Ok t -> labelled chain t.
Proof. unfold parseNearTransaction. intros H. parser_labels H. Qed.

Lemma parseSuiTransaction_labels address tx t :
  parseSuiTransaction P address chain tx = Ok t -> labelled chain t.
Proof. unfold parseSuiTransaction. intros H. parser_labels H. Qed.

Lemma parseAptosTransaction_labels tx t :
  parseAptosTransaction P chain tx = Ok t -> labelled chain t.
Proof. unfold parseAptosTransaction. intros H. parser_labels H. Qed.

Lemma mockTransaction_labels address i t :
  mockTransaction P address chain i = Ok t -> labelled chain t.
Proof. unfold mockTransaction. intros H. parser_labels H. Qed.

End Labels.

Ltac label_case H :=
  cbv beta in H;
  lazymatch type of H with
  | parseEtherscanTransaction _ _ _ = _ => exact (parseEtherscanTransaction_labels _ _ _ _ H)
  | parseSubscanTransaction _ _ _ = _ => exact (parseSubscanTransaction_labels _ _ _ _ H)
  | parseSolscanTransaction _ _ _ = _ => exact (parseSolscanTransaction_labels _ _ _ _ H)
  | parseCosmosTransaction _ _ _ = _ => exact (parseCosmosTransaction_labels _ _ _ _ H)
  | parseHeliusTransaction _ _ _ _ = _ =>
      exact (parseHeliusTransaction_labels _ _ _ _ _ H)
  | parseBlockchainInfoTransaction _ _ _ _ = _ =>
      exact (parseBlockchainInfoTransaction_labels _ _ _ _ _ H)
  | parseBlockstreamTransaction _ _ _ _ = _ =>
      exact (parseBlockstreamTransaction_labels _ _ _ _ _ H)
  | parseTronTransaction _ _ _ = _ => exact (parseTronTransaction_labels _ _ _ _ H)
  | parseNearTransaction _ _ _ = _ => exact (parseNearTransaction_labels _ _ _ _ H)
  | parseSuiTransaction _ _ _ _ = _ => exact (parseSuiTransaction_labels _ _ _ _ _ H)
  | parseAptosTransaction _ _ _ = _ => exact (parseAptosTransaction_labels _ _ _ _ H)
  | mockTransaction _ _ _ _ = _ => exact (mockTransaction_labels _ _ _ _ _ H)
  end.

Ltac labelled_list :=
  match goal with
  | H : rmap _ _ = Ok ?ts |- Forall _ ?ts =>
      let x := fresh "x" in
      let y := fresh "y" in
      let Hxy := fresh "Hxy" in
      eapply rmap_Forall; [| exact H]; intros x y Hxy; label_case Hxy
  end.

Lemma scheduled_attempt_labels (P : Platform) (net : Network) (address : string)
    (chain : ChainConfig) (page limit : Z)
    (f : Fetcher) (a : Attempt) (response : TransactionResponse) :
  In a (schedule P net f address chain page limit) ->
  snd a = Ok response ->
  Forall (labelled chain) (transactions response).
Proof.
  intros Hin Ha.
  assert (Hcases :
    a = first_attempt P net f address chain page limit \/
    In a (later_attempts P net f address chain page limit)) by (destruct Hin; auto).
  clear Hin.
  destruct f; simpl in Hcases;
    repeat match goal with
    | H : _ \/ _ |- _ => destruct H
    | H : In _ (map _ _) |- _ => apply in_map_iff in H; destruct H as [? [? _]]
    | H : In _ [] |- _ => destruct H
    | H : False |- _ => destruct H
    end; subst a;
    try (destruct (truthy_opt (env P "VITE_HELIUS_API_KEY")));
    simpl in Ha;
    unfold evm_attempt, cosmos_attempt, evm_response, cosmos_response,
      subscan_response, helius_response, solscan_response,
      blockchain_info_response, blockstream_response, tron_response,
      near_response, sui_response, aptos_response in Ha;
    open_response; labelled_list.
Qed.

(** Every transaction the module produces for a chain, through a parser,
    the mock generator, a fetcher or [fetchTransactions], carries the id,
    the name and the symbol of that chain, and a type among [transfer],
    [contract], [token], [nft], [stake], [unstake] and [swap]: no producer
    gives the types [internal], [reward] or [other]. *)
Theorem produced_transactions_are_labelled
    (P : Platform) (net : Network) (getChainById : string -> option ChainConfig)
    (chain : ChainConfig) (t : Transaction) :
  produced P net getChainById chain t ->
  tx_chainId t = c_id chain /\ tx_chainName t = c_name chain /\
  tx_symbol t = c_symbol chain /\
  tx_type t <> internal /\ tx_type t <> reward /\ tx_type t <> other.
Proof.
  intros Hp.
  assert (Hlab : labelled chain t).
  { assert (Hmock : forall address count ts,
              generateMockTransactions P address chain count = Ok ts ->
              Forall (labelled chain) ts).
    { intros address count ts H. apply generateMockTransactions_Ok in H as [H _].
      labelled_list. }
    assert (Hrun : forall f address page limit log response log',
              run P net f address chain page limit log = (Ok response, log') ->
              Forall (labelled chain) (transactions response)).
    { intros f address page limit log response log' H.
      apply run_resolved in H as [a [Hin Ha]].
      eapply scheduled_attempt_labels; eauto. }
    destruct Hp as [tx t H | tx t H | tx t H | tx t H
                   | address count ts t H Hin
                   | f address page limit log response log' t H Hin
                   | address chainId page limit useMock log response log' t Hc H Hin];
      try label_case H.
    - eapply Forall_In; [| exact Hin]. eapply Hmock; eauto.
    - eapply Forall_In; [| exact Hin]. eapply Hrun; eauto.
    - eapply Forall_In; [| exact Hin].
      destruct useMock.
      + unfold fetchTransactions in H. rewrite Hc in H.
        unfold mbind, lift, mret in H.
        destruct (generateMockTransactions P address chain limit) as [ts | e] eqn:Hgen;
          [| discriminate].
        injection H as <- _. simpl. eapply Hmock; eauto.
      + destruct (dispatch P net getChainById address chain page limit chainId Hc)
          as [[f Hf] | Hf]; rewrite Hf in H.
        * eapply Hrun; eauto.
        * discriminate. }
  destruct Hlab as [Hid [Hname [Hsym Htype]]].
  repeat split; try assumption; intros Heq; rewrite Heq in Htype; discriminate.
Qed.

Lemma produced_transactions_are_labelled_witness :
  exists t,
    parseEtherscanTransaction Sample.platform Sample.token_transfer Sample.ethereum = Ok t /\
    tx_chainId t = c_id Sample.ethereum /\ tx_chainName t = c_name Sample.ethereum /\
    tx_symbol t = c_symbol Sample.ethereum /\
    tx_type t <> internal /\ tx_type t <> reward /\ tx_type t <> other.
Proof.
  eexists. split; [vm_compute; reflexivity |].
  apply (produced_transactions_are_labelled Sample.platform Sample.dead_network
           Sample.registry Sample.ethereum).
  apply (by_parseEtherscanTransaction Sample.platform Sample.dead_network
           Sample.registry Sample.ethereum Sample.token_transfer).
  vm_compute. reflexivity.
Defined.
